(** * PV display helper: packet codec, control sessions and displays

    A shallow embedding of the paravirtualised display transport library
    (common.h, pv_driver_interface.h, pv_display_helper.c and
    pv_display_backend_helper.c) together with the properties of its packet
    codec, its receive loops, the dirty-rectangle queue policy, the cursor
    image loader and the fatal-error notification paths.

    Conventions.
    - Fixed-width C integers are values of [Z]; every conversion that can
      truncate is written out ([to_uint16], [to_uint32], [to_size_t], ...).
      [size_t] is 64 bits wide.
    - Memory is a [list byte]; structures are packed and little-endian, as
      [#pragma pack(push, 1)] and the supported hosts make them.
    - The library is driven by callbacks; each callback is modelled as run to
      completion by one thread, and the mutexes of the source
      ([pv_helper_lock] / [pv_helper_unlock]) are not part of the model.
    - A function pointer is [option nat]: [None] is NULL, [Some a] the address
      of a user function.
    - The provider, consumer and display objects a function is called on are
      values (the NULL checks on them are not modelled); the channels they
      point to are [option libivc_client], [None] being NULL.  A channel
      callback is entered with the client it was registered on, which is the
      connection stored in the object. *)

From Stdlib Require Import ZArith List Lia Bool String.
From coqutil Require Import Byte Word.LittleEndianList Z.bitblast.
Import ListNotations.
Local Open Scope Z_scope.

(** ** Machine integers *)

Definition to_uint8 (z : Z) : Z := z mod 2 ^ 8.
Definition to_uint16 (z : Z) : Z := z mod 2 ^ 16.
Definition to_uint32 (z : Z) : Z := z mod 2 ^ 32.
Definition to_size_t (z : Z) : Z := z mod 2 ^ 64.

(** Conversion to [int16_t]: two's complement wrap-around. *)
Definition to_int16 (z : Z) : Z :=
  let u := z mod 2 ^ 16 in if u <? 2 ^ 15 then u else u - 2 ^ 16.

(** errno values used by the library. *)
Definition ENOENT : Z := 2.
Definition ENXIO : Z := 6.
Definition EAGAIN : Z := 11.
Definition ENOMEM : Z := 12.
Definition EINVAL : Z := 22.
Definition SUCCESS : Z := 0.

(** ** Raw memory *)

Definition zeroed (n : Z) : list byte := repeat Byte.x00 (Z.to_nat n).

(** [store buf off bs]: write [bs] into [buf] starting at byte offset [off]
    (the buffer keeps its size; callers stay in bounds). *)
Definition store (buf : list byte) (off : Z) (bs : list byte) : list byte :=
  firstn (Z.to_nat off) buf ++ bs
    ++ skipn (Z.to_nat off + List.length bs) buf.

(** [load buf off n]: the [n] bytes of [buf] at offset [off]. *)
Definition load (buf : list byte) (off n : Z) : list byte :=
  firstn (Z.to_nat n) (skipn (Z.to_nat off) buf).

(** [memcpy(dst + off, src, n)]; reading past the end of [src] is undefined
    in C, callers pass [n <= |src|]. *)
Definition memcpy (dst : list byte) (off : Z) (src : list byte) (n : Z)
  : list byte :=
  store dst off (firstn (Z.to_nat n) src).

(** [memset(dst + off, 0, n)]. *)
Definition memset0 (dst : list byte) (off n : Z) : list byte :=
  store dst off (zeroed n).

(** ** pv_driver_interface.h: wire structures and constants *)

Definition PV_DRIVER_MAGIC1 : Z := 0xC0DE.
Definition PV_DRIVER_MAGIC2 : Z := 0x5AFE.
Definition PV_DRIVER_MAX_PACKET_SIZE : Z := 4096.
Definition PV_DRIVER_INTERFACE_VERSION : Z := 0x00000001.

Definition PACKET_TYPE_CONTROL_DRIVER_CAPABILITIES : Z := 1.
Definition PACKET_TYPE_CONTROL_HOST_DISPLAY_LIST : Z := 2.
Definition PACKET_TYPE_CONTROL_ADVERTISED_DISPLAY_LIST : Z := 3.
Definition PACKET_TYPE_CONTROL_ADD_DISPLAY : Z := 4.
Definition PACKET_TYPE_CONTROL_REMOVE_DISPLAY : Z := 5.
Definition PACKET_TYPE_CONTROL_DISPLAY_NO_LONGER_AVAILABLE : Z := 6.
Definition PACKET_TYPE_CONTROL_TEXT_MODE : Z := 7.

Definition PACKET_TYPE_EVENT_SET_DISPLAY : Z := 101.
Definition PACKET_TYPE_EVENT_UPDATE_CURSOR : Z := 102.
Definition PACKET_TYPE_EVENT_MOVE_CURSOR : Z := 103.
Definition PACKET_TYPE_EVENT_BLANK_DISPLAY : Z := 104.

Definition DH_CAP_LFB : Z := Z.shiftl 1 0.
Definition DH_CAP_HW_CURSOR : Z := Z.shiftl 1 1.
Definition DH_CAP_RESIZE : Z := Z.shiftl 1 2.
Definition DH_CAP_RECONNECT : Z := Z.shiftl 1 3.
Definition DH_CAP_HOTPLUG : Z := Z.shiftl 1 4.
Definition DH_CAP_BLANKING : Z := Z.shiftl 1 5.

Definition PV_DRIVER_CURSOR_WIDTH : Z := 64.
Definition PV_DRIVER_CURSOR_HEIGHT : Z := 64.

(** [enum] values of [dh_text_mode.mode] and of [dh_blanking.reason]. *)
Definition PACKET_TEXT_MODE_DISABLED : Z := 0.
Definition PACKET_TEXT_MODE_ENABLED : Z := 1.

Definition PACKET_BLANKING_DPMS_SLEEP : Z := 0.
Definition PACKET_BLANKING_DPMS_WAKE : Z := 1.
Definition PACKET_BLANKING_MODESETTING_FILL_ENABLE : Z := 2.
Definition PACKET_BLANKING_MODESETTING_FILL_DISABLE : Z := 3.

(** [sizeof(struct dh_display_info)]: six [uint32_t] members. *)
Definition sizeof_dh_display_info : Z := 24.

(** [struct dh_header], 16 bytes. *)
Record dh_header := mk_header {
  h_magic1 : Z;          (* uint16_t *)
  h_magic2 : Z;          (* uint16_t *)
  h_type : Z;            (* uint32_t *)
  h_length : Z;          (* uint32_t *)
  h_reserved_word : Z    (* uint32_t *)
}.

(** [struct dh_footer], 8 bytes. *)
Record dh_footer := mk_footer {
  f_crc : Z;               (* uint16_t *)
  f_reserved_halfword : Z; (* uint16_t *)
  f_reserved_word : Z      (* uint32_t *)
}.

Definition sizeof_dh_header : Z := 16.
Definition sizeof_dh_footer : Z := 8.
Definition sizeof_dh_dirty_rectangle : Z := 16.

Definition PV_DRIVER_MAX_PAYLOAD_SIZE : Z :=
  PV_DRIVER_MAX_PACKET_SIZE - (sizeof_dh_header + sizeof_dh_footer).

(** The object representation of a header in memory. *)
Definition header_bytes (h : dh_header) : list byte :=
  le_split 2 (h_magic1 h) ++ le_split 2 (h_magic2 h) ++ le_split 4 (h_type h)
    ++ le_split 4 (h_length h) ++ le_split 4 (h_reserved_word h).

(** Reading a header structure out of 16 bytes of memory. *)
Definition header_of_bytes (bs : list byte) : dh_header :=
  {| h_magic1 := le_combine (load bs 0 2);
     h_magic2 := le_combine (load bs 2 2);
     h_type := le_combine (load bs 4 4);
     h_length := le_combine (load bs 8 4);
     h_reserved_word := le_combine (load bs 12 4) |}.

Definition footer_of_bytes (bs : list byte) : dh_footer :=
  {| f_crc := le_combine (load bs 0 2);
     f_reserved_halfword := le_combine (load bs 2 2);
     f_reserved_word := le_combine (load bs 4 4) |}.

Definition set_length (h : dh_header) (n : Z) : dh_header :=
  {| h_magic1 := h_magic1 h; h_magic2 := h_magic2 h; h_type := h_type h;
     h_length := n; h_reserved_word := h_reserved_word h |}.

(** ** common.h: CRC-16-CCITT *)

Definition pixels_to_bytes (pixels : Z) : Z := to_size_t (pixels * (32 / 8)).

Definition CURSOR_IMAGE_SIZE : Z := to_size_t (64 * 64 * (32 / 8)).

Definition PAGE_SIZE : Z := 0x1000.

(** [~((uintptr_t)(PAGE_SIZE - 1))]; [uintptr_t] is as wide as [size_t]. *)
Definition PAGE_MASK : Z := to_size_t (Z.lnot (to_size_t (PAGE_SIZE - 1))).

(** [address = address + ~PAGE_MASK; return address & PAGE_MASK;] in
    [uintptr_t] arithmetic. *)
Definition align_to_next_page (address : Z) : Z :=
  let address := to_size_t (address + to_size_t (Z.lnot PAGE_MASK)) in
  Z.land address PAGE_MASK.

Definition crc_tbl : list Z :=
  [ 0x0000; 0x1081; 0x2102; 0x3183;
    0x4204; 0x5285; 0x6306; 0x7387;
    0x8408; 0x9489; 0xa50a; 0xb58b;
    0xc60c; 0xd68d; 0xe70e; 0xf78f ].

(** One table step:
    [crc = ((crc >> 4) & 0x0fff) ^ crc_tbl[((crc ^ c) & 15)]]. *)
Definition crc_step (crc c : Z) : Z :=
  to_uint16
    (Z.lxor (Z.land (Z.shiftr crc 4) 0x0fff)
            (nth (Z.to_nat (Z.land (Z.lxor crc c) 15)) crc_tbl 0)).

(** The body of the [while(len--)] loop for one byte: two table steps, the
    low nibble first. *)
Definition crc_byte (crc : Z) (b : byte) : Z :=
  let c := byte.unsigned b in
  let crc := crc_step crc c in
  let c := to_uint8 (Z.shiftr c 4) in
  crc_step crc c.

Definition crc_section (crc : Z) (data : list byte) (len : Z) : Z :=
  fold_left crc_byte (firstn (Z.to_nat len) data) crc.

Fixpoint crc_sections (crc : Z) (data_sections : list (list byte))
  (data_lengths : list Z) : Z :=
  match data_sections, data_lengths with
  | p :: ps, len :: lens => crc_sections (crc_section crc p len) ps lens
  | _, _ => crc
  end.

(** [__pv_helper_checksum]; the C function is declared to return [int16_t]. *)
Definition __pv_helper_checksum (data_sections : list (list byte))
  (data_lengths : list Z) : Z :=
  let crc := crc_sections 0xffff data_sections data_lengths in
  to_int16 (Z.land (Z.lnot crc) 0xffff).

Definition __pv_helper_packet_checksum (header : dh_header)
  (payload : list byte) (payload_length : Z) : Z :=
  to_uint16 (__pv_helper_checksum [header_bytes header; payload]
                                  [sizeof_dh_header; payload_length]).

Definition __pv_helper_blob_checksum (data : list byte) (len : Z) : Z :=
  to_uint16 (__pv_helper_checksum [data] [len]).

(** ** The IVC transport *)

(** Calls the library makes on a channel that the peer can observe. *)
Inductive ivc_call :=
| CallSend (data : list byte)
| CallNotify.

(** Modelled from the spec: the IVC transport (libivc), an external
    collaborator of which the sources only show the calls.  A client is one
    end of a reliable byte stream: [ivc_ring] holds the bytes written and not
    yet read, in FIFO order, [ivc_capacity] is the size of the ring.  The
    three [_rc] fields are the error codes the transport answers with when it
    is failing (0 when it works). *)
Record libivc_client := mk_client {
  ivc_open : bool;
  ivc_capacity : Z;
  ivc_ring : list byte;
  ivc_query_rc : Z;
  ivc_send_rc : Z;
  ivc_recv_rc : Z;
  ivc_calls : list ivc_call
}.

Definition ivc_update (c : libivc_client) (ring : list byte)
  (calls : list ivc_call) : libivc_client :=
  {| ivc_open := ivc_open c; ivc_capacity := ivc_capacity c; ivc_ring := ring;
     ivc_query_rc := ivc_query_rc c; ivc_send_rc := ivc_send_rc c;
     ivc_recv_rc := ivc_recv_rc c; ivc_calls := calls |}.

Definition ring_space (c : libivc_client) : Z :=
  ivc_capacity c - Z.of_nat (List.length (ivc_ring c)).

Definition ring_data (c : libivc_client) : Z :=
  Z.of_nat (List.length (ivc_ring c)).

(** Modelled from the spec: [libivc_isOpen]; a NULL client is not open. *)
Definition libivc_isOpen (c : option libivc_client) : bool :=
  match c with Some c => ivc_open c | None => false end.

(** Modelled from the spec: the code a working transport answers with when
    a request cannot be served (NULL client, closed channel, ring too full
    or too empty); the library only tests such codes against 0. *)
Definition IVC_REFUSED : Z := - 1.

(** Modelled from the spec: [libivc_getAvailableSpace(client, &space)],
    return code and space. *)
Definition libivc_getAvailableSpace (c : option libivc_client) : Z * Z :=
  match c with
  | Some c => (ivc_query_rc c, ring_space c)
  | None => (IVC_REFUSED, 0)
  end.

(** Modelled from the spec: [libivc_getAvailableData(client, &data)],
    return code and byte count. *)
Definition libivc_getAvailableData (c : option libivc_client) : Z * Z :=
  match c with
  | Some c => (ivc_query_rc c, ring_data c)
  | None => (IVC_REFUSED, 0)
  end.

(** Modelled from the spec: [libivc_send(client, buf, len)]; all of the
    bytes are queued, or none. *)
Definition libivc_send (c : option libivc_client) (buf : list byte) (len : Z)
  : Z * option libivc_client :=
  match c with
  | None => (IVC_REFUSED, None)
  | Some c =>
    let data := firstn (Z.to_nat len) buf in
    let calls := ivc_calls c ++ [CallSend data] in
    if negb (ivc_send_rc c =? 0)
    then (ivc_send_rc c, Some (ivc_update c (ivc_ring c) calls))
    else if ivc_open c && (len <=? ring_space c)
    then (0, Some (ivc_update c (ivc_ring c ++ data) calls))
    else (IVC_REFUSED, Some (ivc_update c (ivc_ring c) calls))
  end.

(** Modelled from the spec: [libivc_recv(client, buf, len)]; exactly [len]
    bytes, oldest first, or nothing at all. *)
Definition libivc_recv (c : option libivc_client) (len : Z)
  : Z * list byte * option libivc_client :=
  match c with
  | None => (IVC_REFUSED, [], None)
  | Some c =>
    if negb (ivc_recv_rc c =? 0) then (ivc_recv_rc c, [], Some c)
    else if len <=? ring_data c
    then (0, firstn (Z.to_nat len) (ivc_ring c),
          Some (ivc_update c (skipn (Z.to_nat len) (ivc_ring c)) (ivc_calls c)))
    else (IVC_REFUSED, [], Some c)
  end.

(** Modelled from the spec: [libivc_notify_remote]. *)
Definition libivc_notify_remote (c : option libivc_client)
  : option libivc_client :=
  match c with
  | Some c => Some (ivc_update c (ivc_ring c) (ivc_calls c ++ [CallNotify]))
  | None => None
  end.

(** ** Effects of the library itself *)

(** Arguments handed to a user callback: integers, and pointers into a
    receive buffer (the bytes readable from the pointer on). *)
Inductive arg :=
| AInt (z : Z)
| APtr (bytes : list byte).

Inductive event :=
| EvError (msg : string)               (* pv_display_error *)
| EvMalloc (size : Z)                  (* pv_helper_malloc gave a buffer *)
| EvFree                               (* pv_helper_free *)
| EvCall (fn : nat) (args : list arg). (* a user callback was entered *)

(** The process-wide state: what has been observed so far, whether the
    allocator is out of memory, the function-local [static bool
    handler_in_progress] of [__handle_disconnect_for_connection], and the
    kind of mutex the build has: [pv_helper_mutex] is a Linux kernel
    [struct mutex], a default [pthread_mutex_t] or a Windows [FAST_MUTEX],
    none of which its owner can take twice, or the Windows user-space mutex
    of [CreateMutex], which lets its owner in again. *)
Record world := mk_world {
  w_trace : list event;
  w_out_of_memory : bool;
  w_handler_in_progress : bool;
  w_recursive_mutex : bool
}.

(** Ways in which a call does not return. *)
Inductive crash :=
| NullCall        (* call through a NULL function pointer *)
| OutOfBounds     (* read past the end of an allocation *)
| Deadlock.       (* the thread waits for a mutex it holds itself *)

Inductive outcome (A : Type) :=
| Done (a : A) (w : world)
| Crash (why : crash) (w : world)
| OutOfFuel.

Arguments Done {A}.
Arguments Crash {A}.
Arguments OutOfFuel {A}.

Definition M (A : Type) : Type := world -> outcome A.

Definition ret {A} (a : A) : M A := fun w => Done a w.

Definition bind {A B} (m : M A) (k : A -> M B) : M B :=
  fun w => match m w with
           | Done a w' => k a w'
           | Crash why w' => Crash why w'
           | OutOfFuel => OutOfFuel
           end.

Notation "x <- m ;; k" := (bind m (fun x => k))
  (at level 61, m at next level, right associativity).
Notation "m ;;; k" := (bind m (fun _ => k))
  (at level 61, right associativity).

Definition emit (e : event) : M unit :=
  fun w => Done tt {| w_trace := w_trace w ++ [e];
                      w_out_of_memory := w_out_of_memory w;
                      w_handler_in_progress := w_handler_in_progress w;
                      w_recursive_mutex := w_recursive_mutex w |}.

Definition crash_with {A} (why : crash) : M A := fun w => Crash why w.

Definition pv_display_error (msg : string) : M unit := emit (EvError msg).

(** [pv_helper_malloc]: a zero-filled buffer, or NULL when memory is short,
    as the Linux kernel build ([kzalloc]) and the two Windows builds (which
    clear the buffer only [if (data)]) have it.  The Linux user-space build
    clears the result of [malloc] without testing it; what that build does
    when memory is short is not modelled: the out-of-memory outcomes below
    are those of the other three builds. *)
Definition pv_helper_malloc (size : Z) : M (option (list byte)) :=
  fun w => if w_out_of_memory w then Done None w
           else (emit (EvMalloc size) ;;; ret (Some (zeroed size))) w.

Definition pv_helper_free : M unit := emit EvFree.

(** [pv_helper_lock(&lock)].  Every mutex of the library is taken and
    released within one function body, and a callback is entered on a
    thread that holds none of them: where the code takes a mutex, the thread
    either does not hold it, and gets it, or took it further up the call
    chain.  [held] tells which.  Taking a mutex the thread holds itself
    never returns, unless the build's mutex lets its owner in again.
    [pv_helper_unlock] is not modelled apart: it ends the scope in which
    the mutex counts as held. *)
Definition pv_helper_lock (held : bool) : M unit :=
  fun w => if held && negb (w_recursive_mutex w) then Crash Deadlock w
           else Done tt w.

(** Entering the user function at address [fn]. *)
Definition call_user (fn : nat) (args : list arg) : M unit :=
  emit (EvCall fn args).

(** A call through a function pointer that the code does not test. *)
Definition call_unchecked (fp : option nat) (args : list arg) : M unit :=
  match fp with
  | Some fn => call_user fn args
  | None => crash_with NullCall
  end.

(** Reading a [uint32_t] structure member at [off] from a pointer whose
    allocation is [buf]. *)
Definition read_u32 (buf : list byte) (off : Z) : M Z :=
  if off + 4 <=? Z.of_nat (List.length buf)
  then ret (le_combine (load buf off 4))
  else crash_with OutOfBounds.

(** ** common.h: __send_packet *)

Definition __send_packet (channel : option libivc_client) (type : Z)
  (data : list byte) (length : Z) : M (Z * option libivc_client) :=
  if negb (libivc_isOpen channel) then ret (- ENOENT, channel) else
  let packet_length :=
    to_size_t (sizeof_dh_header + length + sizeof_dh_footer) in
  transmit_buffer <- pv_helper_malloc packet_length ;;
  match transmit_buffer with
  | None => ret (- ENOMEM, channel)
  | Some buf =>
    (* header *)
    let buf := store buf 0 (le_split 2 PV_DRIVER_MAGIC1) in
    let buf := store buf 2 (le_split 2 PV_DRIVER_MAGIC2) in
    let buf := store buf 4 (le_split 4 type) in
    let buf := store buf 8 (le_split 4 length) in
    (* payload *)
    let buf := memcpy buf sizeof_dh_header data length in
    (* footer *)
    let crc := __pv_helper_blob_checksum buf (sizeof_dh_header + length) in
    let buf := store buf (sizeof_dh_header + length) (le_split 2 crc) in
    let '(rc, available) := libivc_getAvailableSpace channel in
    if negb (rc =? 0) then ret (rc, channel) else
    if available <? packet_length then ret (- ENOMEM, channel) else
    let '(rc, channel) := libivc_send channel buf packet_length in
    let channel := libivc_notify_remote channel in
    let channel := libivc_notify_remote channel in
    pv_helper_free ;;;
    ret (rc, channel)
  end.

Notation "' pat <- m ;; k" :=
  (bind m (fun x => match x with pat => k end))
  (at level 61, pat pattern, m at next level, right associativity).

(** [pv_display_checkp(a, ...)] when [a] is NULL: a diagnostic, then the
    enclosing function returns. *)
Definition pv_display_checkp_failed : M unit :=
  emit (EvError "failed: == NULL").

Definition get_handler_in_progress : M bool :=
  fun w => Done (w_handler_in_progress w) w.

Definition set_handler_in_progress (b : bool) : M unit :=
  fun w => Done tt {| w_trace := w_trace w;
                      w_out_of_memory := w_out_of_memory w;
                      w_handler_in_progress := b;
                      w_recursive_mutex := w_recursive_mutex w |}.

(** The four per-display channels. *)
Inductive channel := Framebuffer | Event | DirtyRectangles | CursorImage.

(** The number of user callbacks entered in a trace. *)
Definition is_call (e : event) : bool :=
  match e with EvCall _ _ => true | _ => false end.

Definition calls (w : world) : nat :=
  List.length (filter is_call (w_trace w)).

(** * pv_display_helper.c: the provider (guest) side *)
Module Provider.

(** [struct pv_display_provider], the fields the code below reads or
    writes. *)
Record pv_display_provider := mk_provider {
  control_channel : option libivc_client;
  capabilities : Z;                            (* uint32_t *)
  current_packet_header : dh_header;
  host_display_change_handler : option nat;
  add_display_handler : option nat;
  remove_display_handler : option nat;
  fatal_error_handler : option nat
}.

Definition with_control_channel (p : pv_display_provider)
  (c : option libivc_client) : pv_display_provider :=
  mk_provider c (capabilities p) (current_packet_header p)
    (host_display_change_handler p) (add_display_handler p)
    (remove_display_handler p) (fatal_error_handler p).

Definition with_header (p : pv_display_provider) (h : dh_header)
  : pv_display_provider :=
  mk_provider (control_channel p) (capabilities p) h
    (host_display_change_handler p) (add_display_handler p)
    (remove_display_handler p) (fatal_error_handler p).

(** ** Event handlers *)

(** The user handler receives [list->displays] and [list->num_displays]. *)
Definition __handle_host_display_changed_event (provider : pv_display_provider)
  (payload : list byte) : M unit :=
  match host_display_change_handler provider with
  | None => ret tt
  | Some handler =>
    num_displays <- read_u32 payload 0 ;;
    call_user handler [APtr (skipn 4 payload); AInt num_displays]
  end.

Definition __handle_add_display_request (provider : pv_display_provider)
  (request : list byte) : M unit :=
  match add_display_handler provider with
  | None => pv_display_error "Add Display event without a listener"
  | Some handler => call_user handler [APtr request]
  end.

Definition __handle_remove_display_request (provider : pv_display_provider)
  (request : list byte) : M unit :=
  match remove_display_handler provider with
  | None => pv_display_error "Remove Display event without a listener"
  | Some handler => call_user handler [APtr request]
  end.

(** ** Internal functions *)

Definition __trigger_fatal_error_on_provider (provider : pv_display_provider)
  : M unit :=
  match fatal_error_handler provider with
  | Some handler => call_user handler []
  | None => ret tt
  end.

Definition __handle_control_packet_receipt (provider : pv_display_provider)
  (header : dh_header) (buffer : list byte) : M unit :=
  if h_type header =? PACKET_TYPE_CONTROL_HOST_DISPLAY_LIST then
    __handle_host_display_changed_event provider buffer
  else if h_type header =? PACKET_TYPE_CONTROL_ADD_DISPLAY then
    __handle_add_display_request provider buffer
  else if h_type header =? PACKET_TYPE_CONTROL_REMOVE_DISPLAY then
    __handle_remove_display_request provider buffer
  else
    pv_display_error "Received unknown or unexpected packet type".

Definition __try_to_read_header (provider : pv_display_provider)
  : M (bool * pv_display_provider) :=
  let '(rc, data, channel) :=
    libivc_recv (control_channel provider) sizeof_dh_header in
  let provider := with_control_channel provider channel in
  let provider :=
    if rc =? SUCCESS then with_header provider (header_of_bytes data)
    else provider in
  ret (rc =? SUCCESS, provider).

(** The body of [__try_to_receive_control_packet], with the function that
    is handed the completed packet as a parameter: [dispatch] stands for
    [__handle_control_packet_receipt]. *)
Section WithDispatcher.

Variable dispatch : pv_display_provider -> dh_header -> list byte -> M unit.

Definition receive_control_packet_via (provider : pv_display_provider)
  : M (bool * pv_display_provider) :=
  let length_with_footer :=
    to_size_t (h_length (current_packet_header provider) + sizeof_dh_footer) in
  let '(rc, data_available) :=
    libivc_getAvailableData (control_channel provider) in
  if negb (rc =? 0) then
    pv_display_error "Could not query IVC for its available data" ;;;
    __trigger_fatal_error_on_provider provider ;;;
    ret (false, provider)
  else if data_available <? length_with_footer then
    ret (false, provider)
  else
    buffer <- pv_helper_malloc length_with_footer ;;
    match buffer with
    | None =>
      pv_display_error "Could not allocate enough space for a receive buffer" ;;;
      ret (false, provider)
    | Some buffer =>
      let '(rc, data, channel) :=
        libivc_recv (control_channel provider) length_with_footer in
      let buffer := store buffer 0 data in
      let provider := with_control_channel provider channel in
      if negb (rc =? 0) then
        pv_display_error "Could not read in a packet" ;;;
        pv_helper_free ;;;
        ret (false, provider)
      else
        let length := h_length (current_packet_header provider) in
        let footer := footer_of_bytes (skipn (Z.to_nat length) buffer) in
        let checksum :=
          __pv_helper_packet_checksum (current_packet_header provider)
                                      buffer length in
        if negb (checksum =? f_crc footer) then
          pv_display_error "CRC did not match for a control packet" ;;;
          let provider :=
            with_header provider
                        (set_length (current_packet_header provider) 0) in
          pv_helper_free ;;;
          __trigger_fatal_error_on_provider provider ;;;
          ret (false, provider)
        else
          let provider :=
            with_header provider
                        (set_length (current_packet_header provider) 0) in
          dispatch provider (current_packet_header provider) buffer ;;;
          pv_helper_free ;;;
          ret (true, provider)
    end.

End WithDispatcher.

Definition __try_to_receive_control_packet (provider : pv_display_provider)
  : M (bool * pv_display_provider) :=
  receive_control_packet_via __handle_control_packet_receipt provider.

(** The [do ... while(continue_to_read)] loop of
    [__handle_control_channel_event]; [fuel] bounds the iterations. *)
Fixpoint control_channel_loop (fuel : nat) (continue_to_read : bool)
  (provider : pv_display_provider) : M pv_display_provider :=
  match fuel with
  | O => fun _ => OutOfFuel
  | S fuel =>
    '(continue_to_read, provider) <-
      (if h_length (current_packet_header provider) =? 0
       then __try_to_read_header provider
       else ret (continue_to_read, provider)) ;;
    '(continue_to_read, provider) <-
      (if h_length (current_packet_header provider) >? 0
       then __try_to_receive_control_packet provider
       else ret (continue_to_read, provider)) ;;
    if continue_to_read
    then control_channel_loop fuel continue_to_read provider
    else ret provider
  end.

Definition __handle_control_channel_event (fuel : nat)
  (provider : pv_display_provider) : M pv_display_provider :=
  control_channel_loop fuel false provider.

Definition __handle_control_channel_disconnect
  (provider : pv_display_provider) : M unit :=
  __trigger_fatal_error_on_provider provider.

(** ** PV display object methods *)

(** [struct pv_cursor]; [image] is the 64x64 ARGB8888 bitmap shared with the
    display handler, NULL when PV cursors are not supported. *)
Record pv_cursor := mk_cursor {
  image : option (list byte);
  hotspot_x : Z;     (* uint32_t *)
  hotspot_y : Z;     (* uint32_t *)
  visible : bool
}.

(** [struct pv_display], the fields the code below reads or writes. *)
Record pv_display := mk_display {
  key : Z;
  width : Z;         (* uint32_t *)
  height : Z;        (* uint32_t *)
  stride : Z;        (* uint32_t *)
  framebuffer_connection : option libivc_client;
  event_connection : option libivc_client;
  dirty_rectangles_connection : option libivc_client;
  cursor_image_connection : option libivc_client;
  cursor : pv_cursor;
  display_fatal_error_handler : option nat
}.

Definition with_event_connection (d : pv_display)
  (c : option libivc_client) : pv_display :=
  mk_display (key d) (width d) (height d) (stride d)
    (framebuffer_connection d) c (dirty_rectangles_connection d)
    (cursor_image_connection d) (cursor d) (display_fatal_error_handler d).

Definition with_dirty_rectangles_connection (d : pv_display)
  (c : option libivc_client) : pv_display :=
  mk_display (key d) (width d) (height d) (stride d)
    (framebuffer_connection d) (event_connection d) c
    (cursor_image_connection d) (cursor d) (display_fatal_error_handler d).

Definition with_cursor_image (d : pv_display) (img : option (list byte))
  : pv_display :=
  mk_display (key d) (width d) (height d) (stride d)
    (framebuffer_connection d) (event_connection d)
    (dirty_rectangles_connection d) (cursor_image_connection d)
    (mk_cursor img (hotspot_x (cursor d)) (hotspot_y (cursor d))
               (visible (cursor d)))
    (display_fatal_error_handler d).

(** What the user's fatal-error handler at a given address does with the
    display it is handed.  The handler may call back into the library, so
    the functions that can reach it take its behaviour as a parameter. *)
Definition display_user_code : Type := nat -> pv_display -> M pv_display.

(** A handler that takes note of the error and returns. *)
Definition returning_handler : display_user_code :=
  fun fn display => call_user fn [] ;;; ret display.

Section WithUserCode.

Variable user : display_user_code.

Definition __trigger_fatal_error_on_display (display : pv_display)
  : M pv_display :=
  match display_fatal_error_handler display with
  | Some handler => user handler display
  | None => ret display
  end.

(** [struct dh_dirty_rectangle] in memory. *)
Definition dirty_rectangle_bytes (x y w h : Z) : list byte :=
  le_split 4 x ++ le_split 4 y ++ le_split 4 w ++ le_split 4 h.

Definition pv_display_invalidate_region (display : pv_display)
  (x y width_ height_ : Z) : M (Z * pv_display) :=
  let region := (x, y, width_, height_) in
  match dirty_rectangles_connection display with
  | None => pv_display_checkp_failed ;;; ret (- EINVAL, display)
  | Some _ =>
    let '(rc, available_space) :=
      libivc_getAvailableSpace (dirty_rectangles_connection display) in
    if negb (rc =? 0) then
      pv_display_error "Could not query the dirty rectangles buffer" ;;;
      display <- __trigger_fatal_error_on_display display ;;
      ret (rc, display)
    else if available_space <? sizeof_dh_dirty_rectangle then
      ret (- EAGAIN, display)
    else
      let region :=
        if available_space <? sizeof_dh_dirty_rectangle * 2
        then (0, 0, width display, height display)
        else region in
      let '(rx, ry, rw, rh) := region in
      let '(rc, channel) :=
        libivc_send (dirty_rectangles_connection display)
                    (dirty_rectangle_bytes rx ry rw rh)
                    sizeof_dh_dirty_rectangle in
      ret (rc, with_dirty_rectangles_connection display channel)
  end.

(** [struct dh_update_cursor] in memory; [show] is the [bool] converted to
    [uint32_t]. *)
Definition update_cursor_bytes (c : pv_cursor) : list byte :=
  le_split 4 (hotspot_x c) ++ le_split 4 (hotspot_y c)
    ++ le_split 4 (if visible c then 1 else 0).

Definition __send_cursor_update_unsynchronized (display : pv_display)
  : M (Z * pv_display) :=
  let payload := update_cursor_bytes (cursor display) in
  '(rc, channel) <-
    __send_packet (event_connection display) PACKET_TYPE_EVENT_UPDATE_CURSOR
                  payload 12 ;;
  ret (rc, with_event_connection display channel).

(** The rows of [copy_image]: [rows] iterations of the [for] loop left, at
    row [y]; [source_offset] and [destination_offset] are how far the two
    pointers have advanced. *)
Fixpoint copy_rows (rows : nat) (y : Z) (source : list byte)
  (source_offset : Z) (source_height source_stride stride_difference : Z)
  (destination : list byte) (destination_offset destination_stride : Z)
  : list byte :=
  match rows with
  | O => destination
  | S rows =>
    if y >=? source_height then
      let destination :=
        memset0 destination destination_offset destination_stride in
      copy_rows rows (y + 1) source source_offset
                source_height source_stride stride_difference
                destination (destination_offset + destination_stride)
                destination_stride
    else
      let destination :=
        memcpy destination destination_offset
               (skipn (Z.to_nat source_offset) source) source_stride in
      let destination :=
        if negb (stride_difference =? 0)
        then memset0 destination (destination_offset + source_stride)
                     stride_difference
        else destination in
      copy_rows rows (y + 1) source (source_offset + source_stride)
                source_height source_stride stride_difference
                destination (destination_offset + destination_stride)
                destination_stride
  end.

(** [destination] is [display->cursor.image]: the rows are written into the
    display's shared cursor bitmap, then the display handler is notified. *)
Definition copy_image (display : pv_display) (source : list byte)
  (source_height source_stride stride_difference : Z)
  (destination : list byte) (destination_stride : Z) : M pv_display :=
  let destination :=
    copy_rows (Z.to_nat PV_DRIVER_CURSOR_HEIGHT) 0 source 0
              source_height source_stride stride_difference
              destination 0 destination_stride in
  let display := with_cursor_image display (Some destination) in
  '(_, display) <- __send_cursor_update_unsynchronized display ;;
  ret display.

(** [source_width] and [source_height] are [uint8_t] parameters. *)
Definition pv_display_load_cursor_image (display : pv_display)
  (image_ : option (list byte)) (source_width source_height : Z)
  : M (Z * pv_display) :=
  if (source_width >? PV_DRIVER_CURSOR_WIDTH)
     || (source_height >? PV_DRIVER_CURSOR_HEIGHT) then
    pv_display_error "PV cursor image is larger than 64x64! Rejecting." ;;;
    ret (- EINVAL, display)
  else
    let source_stride := pixels_to_bytes source_width in
    let destination_stride := pixels_to_bytes PV_DRIVER_CURSOR_WIDTH in
    let stride_difference := to_size_t (destination_stride - source_stride) in
    match image_ with
    | None => pv_display_checkp_failed ;;; ret (- EINVAL, display)
    | Some source =>
      match image (cursor display) with
      | None => ret (- EINVAL, display)
      | Some destination =>
        display <- copy_image display source source_height source_stride
                              stride_difference destination
                              destination_stride ;;
        ret (SUCCESS, display)
      end
    end.

(** General-case function for handling IVC disconnects; the nesting token
    is the function's [static bool handler_in_progress]. *)
Definition __handle_disconnect_for_connection
  (connection : option libivc_client) (display : pv_display)
  : M pv_display :=
  match connection with
  | None => pv_display_checkp_failed ;;; ret display
  | Some _ =>
    handler_in_progress <- get_handler_in_progress ;;
    if handler_in_progress then ret display
    else
      set_handler_in_progress true ;;;
      display <- __trigger_fatal_error_on_display display ;;
      set_handler_in_progress false ;;;
      ret display
  end.

Definition __event_disconnect_handler (display : pv_display) : M pv_display :=
  __handle_disconnect_for_connection (event_connection display) display.

Definition __dirty_rectangles_disconnect_handler (display : pv_display)
  : M pv_display :=
  __handle_disconnect_for_connection (dirty_rectangles_connection display)
                                     display.

Definition __framebuffer_disconnect_handler (display : pv_display)
  : M pv_display :=
  __handle_disconnect_for_connection (framebuffer_connection display) display.

Definition __cursor_image_disconnect_handler (display : pv_display)
  : M pv_display :=
  pv_display_error "Hardware cursor connection broken. Forcing reconnect." ;;;
  __handle_disconnect_for_connection (cursor_image_connection display) display.

End WithUserCode.

Definition pv_display_register_fatal_error_handler (display : pv_display)
  (handler : option nat) : pv_display :=
  mk_display (key display) (width display) (height display) (stride display)
    (framebuffer_connection display) (event_connection display)
    (dirty_rectangles_connection display) (cursor_image_connection display)
    (cursor display) handler.

(** ** PV display provider methods *)

(** [struct dh_driver_capabilities] in memory. *)
Record dh_driver_capabilities := mk_capabilities {
  max_displays : Z;
  version : Z;
  flags : Z;
  capabilities_reserved_word : Z
}.

Definition driver_capabilities_bytes (c : dh_driver_capabilities)
  : list byte :=
  le_split 4 (max_displays c) ++ le_split 4 (version c)
    ++ le_split 4 (flags c) ++ le_split 4 (capabilities_reserved_word c).

Definition driver_capabilities_of_bytes (bs : list byte)
  : dh_driver_capabilities :=
  {| max_displays := le_combine (load bs 0 4);
     version := le_combine (load bs 4 4);
     flags := le_combine (load bs 8 4);
     capabilities_reserved_word := le_combine (load bs 12 4) |}.

(** The initializer names [max_displays] and [version]; the members it does
    not name are zero. *)
Definition provider_advertise_capabilities (provider : pv_display_provider)
  (max_displays_ : Z) : M (Z * pv_display_provider) :=
  let capabilities_ :=
    {| max_displays := max_displays_;
       version := PV_DRIVER_INTERFACE_VERSION;
       flags := 0;
       capabilities_reserved_word := 0 |} in
  '(rc, channel) <-
    __send_packet (control_channel provider)
                  PACKET_TYPE_CONTROL_DRIVER_CAPABILITIES
                  (driver_capabilities_bytes capabilities_) 16 ;;
  let provider := with_control_channel provider channel in
  if negb (rc =? 0) then
    pv_display_error "Could not advertise the driver's capabilities" ;;;
    ret (rc, provider)
  else ret (0, provider).

Definition provider_register_host_display_change_handler
  (provider : pv_display_provider) (handler : option nat)
  : pv_display_provider :=
  mk_provider (control_channel provider)
    (to_uint32 (Z.lor (capabilities provider) DH_CAP_RESIZE))
    (current_packet_header provider)
    handler (add_display_handler provider)
    (remove_display_handler provider) (fatal_error_handler provider).

Definition provider_register_add_display_request_handler
  (provider : pv_display_provider) (handler : option nat)
  : pv_display_provider :=
  mk_provider (control_channel provider)
    (to_uint32 (Z.lor (capabilities provider) DH_CAP_HOTPLUG))
    (current_packet_header provider)
    (host_display_change_handler provider) handler
    (remove_display_handler provider) (fatal_error_handler provider).

Definition provider_register_remove_display_request_handler
  (provider : pv_display_provider) (handler : option nat)
  : pv_display_provider :=
  mk_provider (control_channel provider)
    (to_uint32 (Z.lor (capabilities provider) DH_CAP_HOTPLUG))
    (current_packet_header provider)
    (host_display_change_handler provider) (add_display_handler provider)
    handler (fatal_error_handler provider).

Definition provider_register_fatal_error_handler
  (provider : pv_display_provider) (handler : option nat)
  : pv_display_provider :=
  mk_provider (control_channel provider) (capabilities provider)
    (current_packet_header provider)
    (host_display_change_handler provider) (add_display_handler provider)
    (remove_display_handler provider) handler.

(** ** Chains of disconnects *)

(** The disconnect callback registered on each of a display's channels. *)
Definition disconnect_callback (user : display_user_code) (c : channel)
  : pv_display -> M pv_display :=
  match c with
  | Framebuffer => __framebuffer_disconnect_handler user
  | Event => __event_disconnect_handler user
  | DirtyRectangles => __dirty_rectangles_disconnect_handler user
  | CursorImage => __cursor_image_disconnect_handler user
  end.

(** The transport reports disconnects on the channels [cs], one after the
    other. *)
Fixpoint run_callbacks (user : display_user_code) (cs : list channel)
  (display : pv_display) : M pv_display :=
  match cs with
  | [] => ret display
  | c :: cs =>
    display <- disconnect_callback user c display ;;
    run_callbacks user cs display
  end.

(** User code that reacts to a fatal error by tearing things down: the
    handler at address [fn] is entered, and before it returns its teardown
    makes the disconnect callbacks of the channels [script fn] run. *)
Fixpoint tearing_down (script : nat -> list channel) (fuel : nat)
  (fn : nat) (display : pv_display) : M pv_display :=
  match fuel with
  | O => fun _ => OutOfFuel
  | S fuel =>
    call_user fn [] ;;;
    run_callbacks (tearing_down script fuel) (script fn) display
  end.

(** ** Further PV display object methods *)

Definition with_cursor (d : pv_display) (c : pv_cursor) : pv_display :=
  mk_display (key d) (width d) (height d) (stride d)
    (framebuffer_connection d) (event_connection d)
    (dirty_rectangles_connection d) (cursor_image_connection d)
    c (display_fatal_error_handler d).

Definition with_framebuffer_connection (d : pv_display)
  (c : option libivc_client) : pv_display :=
  mk_display (key d) (width d) (height d) (stride d)
    c (event_connection d) (dirty_rectangles_connection d)
    (cursor_image_connection d) (cursor d) (display_fatal_error_handler d).

Definition with_cursor_image_connection (d : pv_display)
  (c : option libivc_client) : pv_display :=
  mk_display (key d) (width d) (height d) (stride d)
    (framebuffer_connection d) (event_connection d)
    (dirty_rectangles_connection d) c (cursor d)
    (display_fatal_error_handler d).

(** [struct dh_set_display] in memory. *)
Definition set_display_bytes (width_ height_ stride_ : Z) : list byte :=
  le_split 4 width_ ++ le_split 4 height_ ++ le_split 4 stride_.

(** The display's own record of its geometry is updated first; the display
    handler is notified next, and the code of that notification is what the
    function returns. *)
Definition pv_display_change_resolution (display : pv_display)
  (width_ height_ stride_ : Z) : M (Z * pv_display) :=
  let new_geometry := set_display_bytes width_ height_ stride_ in
  let display :=
    mk_display (key display) width_ height_ stride_
      (framebuffer_connection display) (event_connection display)
      (dirty_rectangles_connection display) (cursor_image_connection display)
      (cursor display) (display_fatal_error_handler display) in
  '(rc, channel) <-
    __send_packet (event_connection display) PACKET_TYPE_EVENT_SET_DISPLAY
                  new_geometry 12 ;;
  ret (rc, with_event_connection display channel).

(** [display->cursor.image != NULL], as an [int]. *)
Definition pv_display_supports_cursor (display : pv_display) : Z :=
  match image (cursor display) with
  | Some _ => 1
  | None => 0
  end.

Definition pv_display_set_cursor_hotspot (display : pv_display)
  (hotspot_x_ hotspot_y_ : Z) : M (Z * pv_display) :=
  match image (cursor display) with
  | None => pv_display_checkp_failed ;;; ret (- EINVAL, display)
  | Some image_ =>
    match cursor_image_connection display with
    | None => pv_display_checkp_failed ;;; ret (- EINVAL, display)
    | Some _ =>
      if hotspot_x_ >? PV_DRIVER_CURSOR_WIDTH then ret (- EINVAL, display)
      else if hotspot_y_ >? PV_DRIVER_CURSOR_HEIGHT then
        ret (- EINVAL, display)
      else
        let display :=
          with_cursor display
            (mk_cursor (Some image_) hotspot_x_ hotspot_y_
                       (visible (cursor display))) in
        __send_cursor_update_unsynchronized display
    end
  end.

Definition pv_display_set_cursor_visibility (display : pv_display)
  (visible_ : bool) : M (Z * pv_display) :=
  match image (cursor display) with
  | None => pv_display_checkp_failed ;;; ret (- EINVAL, display)
  | Some image_ =>
    match cursor_image_connection display with
    | None => pv_display_checkp_failed ;;; ret (- EINVAL, display)
    | Some _ =>
      let display :=
        with_cursor display
          (mk_cursor (Some image_) (hotspot_x (cursor display))
                     (hotspot_y (cursor display)) visible_) in
      __send_cursor_update_unsynchronized display
    end
  end.

(** [struct dh_move_cursor] in memory. *)
Definition move_cursor_bytes (x y : Z) : list byte :=
  le_split 4 x ++ le_split 4 y.

Definition __send_cursor_movement_unsynchronized (display : pv_display)
  (x y : Z) : M (Z * pv_display) :=
  let payload := move_cursor_bytes x y in
  '(rc, channel) <-
    __send_packet (event_connection display) PACKET_TYPE_EVENT_MOVE_CURSOR
                  payload 8 ;;
  ret (rc, with_event_connection display channel).

Definition pv_display_move_cursor (display : pv_display) (x y : Z)
  : M (Z * pv_display) :=
  match image (cursor display) with
  | None => pv_display_checkp_failed ;;; ret (- EINVAL, display)
  | Some _ =>
    match cursor_image_connection display with
    | None => pv_display_checkp_failed ;;; ret (- EINVAL, display)
    | Some _ => __send_cursor_movement_unsynchronized display x y
    end
  end.

(** [struct dh_blanking] in memory. *)
Definition blanking_bytes (color reason : Z) : list byte :=
  le_split 4 color ++ le_split 4 reason.

Definition pv_display_blank_display (display : pv_display)
  (dpms blank : bool) : M (Z * pv_display) :=
  let color := 0 in
  let reason :=
    if blank
    then (if dpms then PACKET_BLANKING_DPMS_SLEEP
          else PACKET_BLANKING_MODESETTING_FILL_ENABLE)
    else (if dpms then PACKET_BLANKING_DPMS_WAKE
          else PACKET_BLANKING_MODESETTING_FILL_DISABLE) in
  '(rc, channel) <-
    __send_packet (event_connection display) PACKET_TYPE_EVENT_BLANK_DISPLAY
                  (blanking_bytes color reason) 8 ;;
  let display := with_event_connection display channel in
  if negb (rc =? 0) then
    pv_display_error "Failed to send blanking display message" ;;;
    ret (rc, display)
  else ret (0, display).

(** ** Reconnecting a display *)

Section WithTransportReconnect.

(** Modelled from the spec: [libivc_reconnect(client, domain, port)], the
    transport's reconnect.  Whether it succeeds is decided by the transport
    and the peer, so its answer (return code and client afterwards) is a
    parameter of what follows. *)
Variable libivc_reconnect : libivc_client -> Z -> Z -> Z * libivc_client.

(** [request] is the [struct dh_add_display] that triggered the reconnect,
    NULL or its five [uint32_t] members in memory; the ports are converted
    to [uint16_t] when they are handed to the transport. *)
Definition pv_display_reconnect (display : pv_display)
  (request : option (list byte)) (rx_domain : Z) : M (Z * pv_display) :=
  match request with
  | None => pv_display_checkp_failed ;;; ret (- EINVAL, display)
  | Some request =>
    match framebuffer_connection display, event_connection display with
    | Some framebuffer_client, Some event_client =>
      framebuffer_port <- read_u32 request 8 ;;
      if framebuffer_port =? 0 then ret (- EINVAL, display) else
      event_port <- read_u32 request 4 ;;
      if event_port =? 0 then ret (- EINVAL, display) else
        let '(rc, client) :=
          libivc_reconnect framebuffer_client rx_domain
                           (to_uint16 framebuffer_port) in
        let display := with_framebuffer_connection display (Some client) in
        if negb (rc =? 0) then ret (- ENXIO, display) else
        let '(rc, client) :=
          libivc_reconnect event_client rx_domain (to_uint16 event_port) in
        let display := with_event_connection display (Some client) in
        if negb (rc =? 0) then ret (- ENXIO, display) else
        dirty_rectangles_port <- read_u32 request 12 ;;
        display <-
          match dirty_rectangles_connection display with
          | Some dirty_client =>
            if negb (dirty_rectangles_port =? 0) then
              let '(rc, client) :=
                libivc_reconnect dirty_client rx_domain
                                 (to_uint16 dirty_rectangles_port) in
              let display :=
                with_dirty_rectangles_connection display (Some client) in
              (if negb (rc =? 0)
               then pv_display_error
                      "Warning: could not reconnect to dirty rectangles port!"
               else ret tt) ;;;
              ret display
            else ret display
          | None => ret display
          end ;;
        cursor_bitmap_port <- read_u32 request 16 ;;
        display <-
          match cursor_image_connection display with
          | Some cursor_client =>
            if negb (cursor_bitmap_port =? 0) then
              let '(rc, client) :=
                libivc_reconnect cursor_client rx_domain
                                 (to_uint16 cursor_bitmap_port) in
              let display :=
                with_cursor_image_connection display (Some client) in
              (if negb (rc =? 0)
               then pv_display_error
                      "Warning: could not reconnect to PV cursor port!"
               else ret tt) ;;;
              ret display
            else ret display
          | None => ret display
          end ;;
        ret (0, display)
    | _, _ => ret (- EINVAL, display)
    end
  end.

End WithTransportReconnect.

(** ** Further PV display provider methods *)

(** [request] points at a [struct dh_add_display]. *)
Definition __validate_add_display_request (request : list byte) : M bool :=
  framebuffer_port <- read_u32 request 8 ;;
  if framebuffer_port =? 0 then
    pv_display_error "The Display Handler provided a display without a framebuffer connection-- rejecting it!" ;;;
    ret false
  else
    event_port <- read_u32 request 4 ;;
    if event_port =? 0 then
      pv_display_error "The Display Handler provided a display without an event connection-- rejecting it!" ;;;
      ret false
    else ret true.

(** [displays] is the memory of the caller's array of [struct
    dh_display_info]; the payload is a [struct dh_display_advertised_list]:
    the count, then the array.  [payload_size] is a [size_t]; the [length]
    parameter of [__send_packet] is a [uint32_t]. *)
Definition provider_advertise_displays (provider : pv_display_provider)
  (displays : list byte) (display_count : Z)
  : M (Z * pv_display_provider) :=
  let payload_size :=
    to_size_t (4 + to_size_t (sizeof_dh_display_info * display_count)) in
  list_ <- pv_helper_malloc payload_size ;;
  match list_ with
  | None =>
    pv_display_error "Could not allocate enough space to advertise a list of displays!" ;;;
    ret (- ENOMEM, provider)
  | Some list_ =>
    let list_ := store list_ 0 (le_split 4 display_count) in
    let list_ :=
      memcpy list_ 4 displays
             (to_size_t (sizeof_dh_display_info * display_count)) in
    '(rc, channel) <-
      __send_packet (control_channel provider)
                    PACKET_TYPE_CONTROL_ADVERTISED_DISPLAY_LIST
                    list_ (to_uint32 payload_size) ;;
    let provider := with_control_channel provider channel in
    (if negb (rc =? 0)
     then pv_display_error "Unable to send a list of advertised displays!"
     else ret tt) ;;;
    pv_helper_free ;;;
    ret (rc, provider)
  end.

Definition provider_force_text_mode (provider : pv_display_provider)
  (force_text_mode : bool) : M (Z * pv_display_provider) :=
  let mode :=
    if force_text_mode then PACKET_TEXT_MODE_ENABLED
    else PACKET_TEXT_MODE_DISABLED in
  '(rc, channel) <-
    __send_packet (control_channel provider) PACKET_TYPE_CONTROL_TEXT_MODE
                  (le_split 4 mode) 4 ;;
  let provider := with_control_channel provider channel in
  if negb (rc =? 0) then
    pv_display_error "Could not switch to text mode" ;;;
    ret (rc, provider)
  else ret (0, provider).

End Provider.

(** * pv_display_backend_helper.c: the consumer (host) side *)
Module Backend.

(** [struct pv_display_consumer], the fields the code below reads or
    writes. *)
Record pv_display_consumer := mk_consumer {
  control_channel : option libivc_client;
  current_packet_header : dh_header;
  driver_capabilities_handler : option nat;
  advertised_list_handler : option nat;
  display_no_longer_available_handler : option nat;
  text_mode_handler : option nat;
  fatal_error_handler : option nat
}.

Definition with_control_channel (c : pv_display_consumer)
  (ch : option libivc_client) : pv_display_consumer :=
  mk_consumer ch (current_packet_header c) (driver_capabilities_handler c)
    (advertised_list_handler c) (display_no_longer_available_handler c)
    (text_mode_handler c) (fatal_error_handler c).

Definition with_header (c : pv_display_consumer) (h : dh_header)
  : pv_display_consumer :=
  mk_consumer (control_channel c) h (driver_capabilities_handler c)
    (advertised_list_handler c) (display_no_longer_available_handler c)
    (text_mode_handler c) (fatal_error_handler c).

(** [struct pv_display_backend], the fields the code below reads or
    writes. *)
Record pv_display_backend := mk_backend {
  disconnected : bool;
  event_connection : option libivc_client;
  framebuffer_connection : option libivc_client;
  dirty_rectangles_connection : option libivc_client;
  cursor_image_connection : option libivc_client;
  display_packet_header : dh_header;     (* current_packet_header *)
  set_display_handler : option nat;
  update_cursor_handler : option nat;
  move_cursor_handler : option nat;
  blank_display_handler : option nat;
  dirty_rectangle_handler : option nat;
  display_fatal_error_handler : option nat
}.

Definition with_event_connection (d : pv_display_backend)
  (ch : option libivc_client) : pv_display_backend :=
  mk_backend (disconnected d) ch (framebuffer_connection d)
    (dirty_rectangles_connection d) (cursor_image_connection d)
    (display_packet_header d) (set_display_handler d)
    (update_cursor_handler d) (move_cursor_handler d)
    (blank_display_handler d) (dirty_rectangle_handler d)
    (display_fatal_error_handler d).

Definition with_dirty_rectangles_connection (d : pv_display_backend)
  (ch : option libivc_client) : pv_display_backend :=
  mk_backend (disconnected d) (event_connection d) (framebuffer_connection d)
    ch (cursor_image_connection d)
    (display_packet_header d) (set_display_handler d)
    (update_cursor_handler d) (move_cursor_handler d)
    (blank_display_handler d) (dirty_rectangle_handler d)
    (display_fatal_error_handler d).

Definition with_display_header (d : pv_display_backend) (h : dh_header)
  : pv_display_backend :=
  mk_backend (disconnected d) (event_connection d) (framebuffer_connection d)
    (dirty_rectangles_connection d) (cursor_image_connection d)
    h (set_display_handler d)
    (update_cursor_handler d) (move_cursor_handler d)
    (blank_display_handler d) (dirty_rectangle_handler d)
    (display_fatal_error_handler d).

(** ** Control channel *)

(** The handler runs with [consumer->lock] taken.  [lock_held]: whether the
    calling thread holds that mutex already.  The handler's type has a
    second parameter, [bool disconnect], for which the call has no
    argument. *)
Definition __trigger_fatal_error_on_consumer (lock_held : bool)
  (consumer : pv_display_consumer) : M unit :=
  pv_helper_lock lock_held ;;;
  match fatal_error_handler consumer with
  | Some handler => call_user handler []
  | None => ret tt
  end ;;;
  pv_display_error " triggering consumer error".

Definition __try_to_read_header (consumer : pv_display_consumer)
  : M (bool * pv_display_consumer) :=
  let '(rc, data, channel) :=
    libivc_recv (control_channel consumer) sizeof_dh_header in
  let consumer := with_control_channel consumer channel in
  let consumer :=
    if rc =? SUCCESS then with_header consumer (header_of_bytes data)
    else consumer in
  ret (rc =? SUCCESS, consumer).

Definition __handle_guest_driver_capabilities_event
  (consumer : pv_display_consumer) (request : list byte) : M unit :=
  match driver_capabilities_handler consumer with
  | None => pv_display_error "driver capabilities packet without a handler"
  | Some handler => call_user handler [APtr request]
  end.

Definition __handle_advertised_display_list_request
  (consumer : pv_display_consumer) (request : list byte) : M unit :=
  match advertised_list_handler consumer with
  | None => pv_display_error "advertised display list without a handler"
  | Some handler => call_user handler [APtr request]
  end.

Definition __handle_display_no_longer_available_request
  (consumer : pv_display_consumer) (request : list byte) : M unit :=
  match display_no_longer_available_handler consumer with
  | None => pv_display_error "display no longer available without a handler"
  | Some handler => call_user handler [APtr request]
  end.

(** [text_mode_request_handler] is declared with a [bool force] where the
    other handlers have the request: the call hands it [request], a pointer
    into the receive buffer, and the conversion to [bool] makes that [true]
    whatever the request holds. *)
Definition __handle_text_mode_request
  (consumer : pv_display_consumer) (request : list byte) : M unit :=
  match text_mode_handler consumer with
  | None => pv_display_error "text mode request without a handler"
  | Some handler => call_user handler [AInt 1]
  end.

Definition __handle_control_packet_receipt (consumer : pv_display_consumer)
  (header : dh_header) (buffer : list byte) : M unit :=
  if h_type header =? PACKET_TYPE_CONTROL_DRIVER_CAPABILITIES then
    __handle_guest_driver_capabilities_event consumer buffer
  else if h_type header =? PACKET_TYPE_CONTROL_ADVERTISED_DISPLAY_LIST then
    __handle_advertised_display_list_request consumer buffer
  else if h_type header =? PACKET_TYPE_CONTROL_DISPLAY_NO_LONGER_AVAILABLE then
    __handle_display_no_longer_available_request consumer buffer
  else if h_type header =? PACKET_TYPE_CONTROL_TEXT_MODE then
    __handle_text_mode_request consumer buffer
  else
    pv_display_error "Received unknown or unexpected packet type".

(** The body of [__try_to_receive_control_packet], with the function that
    is handed the completed packet as a parameter: [dispatch] stands for
    [__handle_control_packet_receipt].  The function only runs inside the
    loop of [__handle_control_channel_event], which holds [consumer->lock]
    from its first statement to its last: the two calls of
    [__trigger_fatal_error_on_consumer] are made with the lock held. *)
Section WithDispatcher.

Variable dispatch : pv_display_consumer -> dh_header -> list byte -> M unit.

Definition receive_control_packet_via (consumer : pv_display_consumer)
  : M (bool * pv_display_consumer) :=
  let length_with_footer :=
    to_size_t (h_length (current_packet_header consumer) + sizeof_dh_footer) in
  let '(rc, data_available) :=
    libivc_getAvailableData (control_channel consumer) in
  if negb (rc =? 0) then
    pv_display_error "Could not query IVC for its available data" ;;;
    __trigger_fatal_error_on_consumer true consumer ;;;
    ret (false, consumer)
  else if data_available <? length_with_footer then
    ret (false, consumer)
  else
    buffer <- pv_helper_malloc length_with_footer ;;
    match buffer with
    | None =>
      pv_display_error "Could not allocate enough space for a receive buffer" ;;;
      ret (false, consumer)
    | Some buffer =>
      let '(rc, data, channel) :=
        libivc_recv (control_channel consumer) length_with_footer in
      let buffer := store buffer 0 data in
      let consumer := with_control_channel consumer channel in
      if negb (rc =? 0) then
        pv_display_error "Could not read in a packet" ;;;
        pv_helper_free ;;;
        ret (false, consumer)
      else
        let length := h_length (current_packet_header consumer) in
        let footer := footer_of_bytes (skipn (Z.to_nat length) buffer) in
        let checksum :=
          __pv_helper_packet_checksum (current_packet_header consumer)
                                      buffer length in
        if negb (checksum =? f_crc footer) then
          pv_display_error "CRC did not match for a control packet" ;;;
          let consumer :=
            with_header consumer
                        (set_length (current_packet_header consumer) 0) in
          pv_helper_free ;;;
          __trigger_fatal_error_on_consumer true consumer ;;;
          ret (false, consumer)
        else
          let consumer :=
            with_header consumer
                        (set_length (current_packet_header consumer) 0) in
          dispatch consumer (current_packet_header consumer) buffer ;;;
          pv_helper_free ;;;
          ret (true, consumer)
    end.

End WithDispatcher.

Definition __try_to_receive_control_packet (consumer : pv_display_consumer)
  : M (bool * pv_display_consumer) :=
  receive_control_packet_via __handle_control_packet_receipt consumer.

Fixpoint control_channel_loop (fuel : nat) (continue_to_read : bool)
  (consumer : pv_display_consumer) : M pv_display_consumer :=
  match fuel with
  | O => fun _ => OutOfFuel
  | S fuel =>
    '(continue_to_read, consumer) <-
      (if h_length (current_packet_header consumer) =? 0
       then __try_to_read_header consumer
       else ret (continue_to_read, consumer)) ;;
    '(continue_to_read, consumer) <-
      (if h_length (current_packet_header consumer) >? 0
       then __try_to_receive_control_packet consumer
       else ret (continue_to_read, consumer)) ;;
    if continue_to_read
    then control_channel_loop fuel continue_to_read consumer
    else ret consumer
  end.

(** The callback takes [consumer->lock] before the loop and releases it
    after the loop. *)
Definition __handle_control_channel_event (fuel : nat)
  (consumer : pv_display_consumer) : M pv_display_consumer :=
  control_channel_loop fuel false consumer.

(** The disconnect callback of the control channel is entered without the
    lock. *)
Definition __handle_control_channel_disconnect
  (consumer : pv_display_consumer) : M unit :=
  __trigger_fatal_error_on_consumer false consumer.

(** ** Event connections *)

(** [available_data] is initialised to 0 and the return code of the query is
    not looked at. *)
Definition __try_to_read_event_header (display : pv_display_backend)
  : M (bool * pv_display_backend) :=
  let '(query_rc, queried) :=
    libivc_getAvailableData (event_connection display) in
  let available_data := if query_rc =? 0 then queried else 0 in
  if available_data >=? sizeof_dh_header then
    let '(rc, data, channel) :=
      libivc_recv (event_connection display) sizeof_dh_header in
    let display := with_event_connection display channel in
    let display :=
      if rc =? SUCCESS then with_display_header display (header_of_bytes data)
      else display in
    ret (rc =? SUCCESS, display)
  else ret (false, display).

Definition __handle_set_display_request (display : pv_display_backend)
  (request : list byte) : M unit :=
  match set_display_handler display with
  | None => ret tt
  | Some handler =>
    width <- read_u32 request 0 ;;
    height <- read_u32 request 4 ;;
    stride <- read_u32 request 8 ;;
    call_user handler [AInt width; AInt height; AInt stride]
  end.

Definition __handle_update_cursor_request (display : pv_display_backend)
  (request : list byte) : M unit :=
  match update_cursor_handler display with
  | None => ret tt
  | Some handler =>
    xhot <- read_u32 request 0 ;;
    yhot <- read_u32 request 4 ;;
    show <- read_u32 request 8 ;;
    call_user handler [AInt xhot; AInt yhot; AInt show]
  end.

Definition __handle_move_cursor_request (display : pv_display_backend)
  (request : list byte) : M unit :=
  match move_cursor_handler display with
  | None => ret tt
  | Some handler =>
    x <- read_u32 request 0 ;;
    y <- read_u32 request 4 ;;
    call_user handler [AInt x; AInt y]
  end.

Definition __handle_blank_display_request (display : pv_display_backend)
  (request : list byte) : M unit :=
  match blank_display_handler display with
  | None => ret tt
  | Some handler =>
    reason <- read_u32 request 4 ;;
    call_user handler [AInt reason]
  end.

Definition __handle_event_packet_receipt (display : pv_display_backend)
  (header : dh_header) (buffer : list byte) : M unit :=
  if h_type header =? PACKET_TYPE_EVENT_SET_DISPLAY then
    __handle_set_display_request display buffer
  else if h_type header =? PACKET_TYPE_EVENT_BLANK_DISPLAY then
    __handle_blank_display_request display buffer
  else if h_type header =? PACKET_TYPE_EVENT_UPDATE_CURSOR then
    __handle_update_cursor_request display buffer
  else if h_type header =? PACKET_TYPE_EVENT_MOVE_CURSOR then
    __handle_move_cursor_request display buffer
  else
    pv_display_error "Received unknown or unexpected packet type".

Definition __try_to_receive_event_packet (display : pv_display_backend)
  : M (bool * pv_display_backend) :=
  let length_with_footer :=
    to_size_t (h_length (display_packet_header display) + sizeof_dh_footer) in
  let '(rc, data_available) :=
    libivc_getAvailableData (event_connection display) in
  if negb (rc =? 0) then
    pv_display_error "Could not query IVC for its available data" ;;;
    ret (false, display)
  else if data_available <? length_with_footer then
    ret (false, display)
  else
    buffer <- pv_helper_malloc length_with_footer ;;
    match buffer with
    | None =>
      pv_display_error "Could not allocate enough space for a receive buffer" ;;;
      ret (false, display)
    | Some buffer =>
      let '(rc, data, channel) :=
        libivc_recv (event_connection display) length_with_footer in
      let buffer := store buffer 0 data in
      let display := with_event_connection display channel in
      if negb (rc =? 0) then
        pv_display_error "Could not read in a packet" ;;;
        pv_helper_free ;;;
        ret (false, display)
      else
        let length := h_length (display_packet_header display) in
        let footer := footer_of_bytes (skipn (Z.to_nat length) buffer) in
        let checksum :=
          __pv_helper_packet_checksum (display_packet_header display)
                                      buffer length in
        if negb (checksum =? f_crc footer) then
          pv_display_error "CRC did not match for a control packet" ;;;
          let display :=
            with_display_header display
                                (set_length (display_packet_header display) 0) in
          pv_helper_free ;;;
          ret (false, display)
        else
          let display :=
            with_display_header display
                                (set_length (display_packet_header display) 0) in
          __handle_event_packet_receipt
            display (display_packet_header display) buffer ;;;
          pv_helper_free ;;;
          ret (true, display)
    end.

Fixpoint event_channel_loop (fuel : nat) (continue_to_read : bool)
  (display : pv_display_backend) : M pv_display_backend :=
  match fuel with
  | O => fun _ => OutOfFuel
  | S fuel =>
    '(continue_to_read, display) <-
      (if h_length (display_packet_header display) =? 0
       then __try_to_read_event_header display
       else ret (continue_to_read, display)) ;;
    '(continue_to_read, display) <-
      (if h_length (display_packet_header display) >? 0
       then __try_to_receive_event_packet display
       else ret (continue_to_read, display)) ;;
    if continue_to_read
    then event_channel_loop fuel continue_to_read display
    else ret display
  end.

Definition __handle_event_channel_event (fuel : nat)
  (display : pv_display_backend) : M pv_display_backend :=
  if disconnected display then ret display
  else event_channel_loop fuel false display.

(** ** Fatal errors and disconnects of a display backend *)

Definition with_fatal_error_handler (d : pv_display_backend)
  (handler : option nat) : pv_display_backend :=
  mk_backend (disconnected d) (event_connection d) (framebuffer_connection d)
    (dirty_rectangles_connection d) (cursor_image_connection d)
    (display_packet_header d) (set_display_handler d)
    (update_cursor_handler d) (move_cursor_handler d)
    (blank_display_handler d) (dirty_rectangle_handler d) handler.

(** What the user's fatal-error handler at a given address does with the
    display backend it is handed. *)
Definition backend_user_code : Type :=
  nat -> pv_display_backend -> M pv_display_backend.

Definition returning_handler : backend_user_code :=
  fun fn display => call_user fn [] ;;; ret display.

Section WithUserCode.

Variable user : backend_user_code.

(** The handler is taken out of the display before it is entered, and it
    runs with [display->fatal_lock] taken.  [fatal_lock_held]: whether the
    calling thread holds that mutex already, as it does when the callback
    is provoked from inside the handler. *)
Definition __trigger_fatal_error_on_display_backend (fatal_lock_held : bool)
  (display : pv_display_backend) : M pv_display_backend :=
  pv_helper_lock fatal_lock_held ;;;
  match display_fatal_error_handler display with
  | Some tmp_fn =>
    let display := with_fatal_error_handler display None in
    user tmp_fn display
  | None => ret display
  end.

Definition __handle_event_channel_disconnect (fatal_lock_held : bool)
  (display : pv_display_backend) : M pv_display_backend :=
  __trigger_fatal_error_on_display_backend fatal_lock_held display.

Definition __handle_framebuffer_disconnect (fatal_lock_held : bool)
  (display : pv_display_backend) : M pv_display_backend :=
  __trigger_fatal_error_on_display_backend fatal_lock_held display.

Definition __handle_dirty_rectangle_disconnect (fatal_lock_held : bool)
  (display : pv_display_backend) : M pv_display_backend :=
  __trigger_fatal_error_on_display_backend fatal_lock_held display.

Definition __handle_cursor_disconnect (fatal_lock_held : bool)
  (display : pv_display_backend) : M pv_display_backend :=
  __trigger_fatal_error_on_display_backend fatal_lock_held display.

End WithUserCode.

(** ** Dirty rectangle connections *)

(** The [while] loop of [__handle_dirty_rectangle_event].  The callback is
    registered on [display->dirty_rectangles_connection], which is the
    [client] it is entered with.  [rect] is cleared before each read, and the
    return code of the read is not looked at. *)
Fixpoint dirty_rectangle_loop (fuel : nat) (available_data : Z)
  (display : pv_display_backend) : M pv_display_backend :=
  match fuel with
  | O => fun _ => OutOfFuel
  | S fuel =>
    let client := dirty_rectangles_connection display in
    if (available_data >=? sizeof_dh_dirty_rectangle)
       && libivc_isOpen client
       && (match dirty_rectangles_connection display with
           | Some _ => true | None => false end)
    then
      let rect := zeroed sizeof_dh_dirty_rectangle in
      let '(_, data, client) := libivc_recv client sizeof_dh_dirty_rectangle in
      let rect := store rect 0 data in
      let display := with_dirty_rectangles_connection display client in
      call_unchecked (dirty_rectangle_handler display)
        [AInt (le_combine (load rect 0 4)); AInt (le_combine (load rect 4 4));
         AInt (le_combine (load rect 8 4)); AInt (le_combine (load rect 12 4))] ;;;
      dirty_rectangle_loop fuel
        (to_size_t (available_data - sizeof_dh_dirty_rectangle)) display
    else ret display
  end.

Definition __handle_dirty_rectangle_event (fuel : nat)
  (display : pv_display_backend) : M pv_display_backend :=
  let '(query_rc, queried) :=
    libivc_getAvailableData (dirty_rectangles_connection display) in
  let available_data := if query_rc =? 0 then queried else 0 in
  dirty_rectangle_loop fuel available_data display.

(** ** Handler registration *)

Definition display_register_dirty_rectangle_handler
  (d : pv_display_backend) (handler : option nat) : pv_display_backend :=
  mk_backend (disconnected d) (event_connection d) (framebuffer_connection d)
    (dirty_rectangles_connection d) (cursor_image_connection d)
    (display_packet_header d) (set_display_handler d)
    (update_cursor_handler d) (move_cursor_handler d)
    (blank_display_handler d) handler (display_fatal_error_handler d).

Definition display_register_move_cursor_handler
  (d : pv_display_backend) (handler : option nat) : pv_display_backend :=
  mk_backend (disconnected d) (event_connection d) (framebuffer_connection d)
    (dirty_rectangles_connection d) (cursor_image_connection d)
    (display_packet_header d) (set_display_handler d)
    (update_cursor_handler d) handler
    (blank_display_handler d) (dirty_rectangle_handler d)
    (display_fatal_error_handler d).

Definition display_register_update_cursor_handler
  (d : pv_display_backend) (handler : option nat) : pv_display_backend :=
  mk_backend (disconnected d) (event_connection d) (framebuffer_connection d)
    (dirty_rectangles_connection d) (cursor_image_connection d)
    (display_packet_header d) (set_display_handler d)
    handler (move_cursor_handler d)
    (blank_display_handler d) (dirty_rectangle_handler d)
    (display_fatal_error_handler d).

Definition display_register_set_display_handler
  (d : pv_display_backend) (handler : option nat) : pv_display_backend :=
  mk_backend (disconnected d) (event_connection d) (framebuffer_connection d)
    (dirty_rectangles_connection d) (cursor_image_connection d)
    (display_packet_header d) handler
    (update_cursor_handler d) (move_cursor_handler d)
    (blank_display_handler d) (dirty_rectangle_handler d)
    (display_fatal_error_handler d).

Definition display_register_blank_display_handler
  (d : pv_display_backend) (handler : option nat) : pv_display_backend :=
  mk_backend (disconnected d) (event_connection d) (framebuffer_connection d)
    (dirty_rectangles_connection d) (cursor_image_connection d)
    (display_packet_header d) (set_display_handler d)
    (update_cursor_handler d) (move_cursor_handler d)
    handler (dirty_rectangle_handler d)
    (display_fatal_error_handler d).

Definition display_register_fatal_error_handler
  (d : pv_display_backend) (handler : option nat) : pv_display_backend :=
  with_fatal_error_handler d handler.

(** ** Outbound consumer operations *)

(** [struct dh_add_display] in memory. *)
Definition add_display_bytes
  (key event_port framebuffer_port dirty_rectangles_port cursor_bitmap_port : Z)
  : list byte :=
  le_split 4 key ++ le_split 4 event_port ++ le_split 4 framebuffer_port
    ++ le_split 4 dirty_rectangles_port ++ le_split 4 cursor_bitmap_port.

Definition consumer_add_display (consumer : pv_display_consumer)
  (key event_port framebuffer_port dirty_rectangles_port cursor_bitmap_port : Z)
  : M (Z * pv_display_consumer) :=
  let payload :=
    add_display_bytes key event_port framebuffer_port dirty_rectangles_port
                      cursor_bitmap_port in
  '(rc, channel) <-
    __send_packet (control_channel consumer) PACKET_TYPE_CONTROL_ADD_DISPLAY
                  payload 20 ;;
  let consumer := with_control_channel consumer channel in
  (if negb (rc =? 0)
   then pv_display_error "Unable to send an add host displays!"
   else ret tt) ;;;
  ret (0, consumer).

Definition consumer_remove_display (consumer : pv_display_consumer) (key : Z)
  : M (Z * pv_display_consumer) :=
  let payload := le_split 4 key in
  '(rc, channel) <-
    __send_packet (control_channel consumer) PACKET_TYPE_CONTROL_REMOVE_DISPLAY
                  payload 4 ;;
  let consumer := with_control_channel consumer channel in
  (if negb (rc =? 0)
   then pv_display_error "Unable to send an remove host displays!"
   else ret tt) ;;;
  ret (0, consumer).

(** ** Chains of disconnects *)

(** [fatal_lock_held]: whether the callback is entered on a thread that
    holds [display->fatal_lock]. *)
Definition disconnect_callback (user : backend_user_code)
  (fatal_lock_held : bool) (c : channel)
  : pv_display_backend -> M pv_display_backend :=
  match c with
  | Framebuffer => __handle_framebuffer_disconnect user fatal_lock_held
  | Event => __handle_event_channel_disconnect user fatal_lock_held
  | DirtyRectangles => __handle_dirty_rectangle_disconnect user fatal_lock_held
  | CursorImage => __handle_cursor_disconnect user fatal_lock_held
  end.

Fixpoint run_callbacks (user : backend_user_code) (fatal_lock_held : bool)
  (cs : list channel) (display : pv_display_backend)
  : M pv_display_backend :=
  match cs with
  | [] => ret display
  | c :: cs =>
    display <- disconnect_callback user fatal_lock_held c display ;;
    run_callbacks user fatal_lock_held cs display
  end.

(** User code whose teardown provokes further disconnect callbacks, as on
    the provider side.  They run inside the handler, on its thread, which
    holds [display->fatal_lock]. *)
Fixpoint tearing_down (script : nat -> list channel) (fuel : nat)
  (fn : nat) (display : pv_display_backend) : M pv_display_backend :=
  match fuel with
  | O => fun _ => OutOfFuel
  | S fuel =>
    call_user fn [] ;;;
    run_callbacks (tearing_down script fuel) true (script fn) display
  end.

(** ** Further consumer operations *)

(** [displays] is the memory of the caller's array of [struct
    dh_display_info]; the payload is a [struct dh_display_list]. *)
Definition consumer_display_list (consumer : pv_display_consumer)
  (displays : list byte) (display_count : Z)
  : M (Z * pv_display_consumer) :=
  let payload_size :=
    to_size_t (4 + to_size_t (sizeof_dh_display_info * display_count)) in
  display_list <- pv_helper_malloc payload_size ;;
  match display_list with
  | None =>
    pv_display_error "Couldn't allocate memory for host display list." ;;;
    ret (- ENOMEM, consumer)
  | Some display_list =>
    let display_list := store display_list 0 (le_split 4 display_count) in
    let display_list :=
      memcpy display_list 4 displays
             (to_size_t (display_count * sizeof_dh_display_info)) in
    '(rc, channel) <-
      __send_packet (control_channel consumer)
                    PACKET_TYPE_CONTROL_HOST_DISPLAY_LIST
                    display_list (to_uint32 payload_size) ;;
    let consumer := with_control_channel consumer channel in
    (if negb (rc =? 0)
     then pv_display_error "Unable to send a list of host displays!"
     else ret tt) ;;;
    pv_helper_free ;;;
    ret (rc, consumer)
  end.

(** ** Disconnecting a display backend *)

(** For each channel that is connected the transport is told to stop
    delivering events and to disconnect ([libivc_disable_events],
    [libivc_disconnect]), and the display forgets the client; what is
    modelled is what happens to the display object. *)
Definition pv_display_backend_display_disconnect
  (display : pv_display_backend) : pv_display_backend :=
  let display :=
    match event_connection display with
    | Some _ =>
      mk_backend (disconnected display) None
        (framebuffer_connection display)
        (dirty_rectangles_connection display)
        (cursor_image_connection display)
        (display_packet_header display) None None None None
        (dirty_rectangle_handler display)
        (display_fatal_error_handler display)
    | None => display
    end in
  let display :=
    match framebuffer_connection display with
    | Some _ =>
      mk_backend (disconnected display) (event_connection display) None
        (dirty_rectangles_connection display)
        (cursor_image_connection display)
        (display_packet_header display) (set_display_handler display)
        (update_cursor_handler display) (move_cursor_handler display)
        (blank_display_handler display) (dirty_rectangle_handler display)
        (display_fatal_error_handler display)
    | None => display
    end in
  let display :=
    match dirty_rectangles_connection display with
    | Some _ =>
      mk_backend (disconnected display) (event_connection display)
        (framebuffer_connection display) None
        (cursor_image_connection display)
        (display_packet_header display) (set_display_handler display)
        (update_cursor_handler display) (move_cursor_handler display)
        (blank_display_handler display) None
        (display_fatal_error_handler display)
    | None => display
    end in
  let display :=
    match cursor_image_connection display with
    | Some _ =>
      mk_backend (disconnected display) (event_connection display)
        (framebuffer_connection display)
        (dirty_rectangles_connection display) None
        (display_packet_header display) (set_display_handler display)
        (update_cursor_handler display) (move_cursor_handler display)
        (blank_display_handler display) (dirty_rectangle_handler display)
        (display_fatal_error_handler display)
    | None => display
    end in
  mk_backend true (event_connection display)
    (framebuffer_connection display) (dirty_rectangles_connection display)
    (cursor_image_connection display)
    (display_packet_header display) (set_display_handler display)
    (update_cursor_handler display) (move_cursor_handler display)
    (blank_display_handler display) (dirty_rectangle_handler display)
    (display_fatal_error_handler display).

(** ** Binding the connections of a display backend *)

(** [finish_event_connection] stores the client the listening server
    accepted; the registration of the callbacks with the transport is what
    makes the handlers above run. *)
Definition finish_event_connection (display : pv_display_backend)
  (client : option libivc_client) : pv_display_backend :=
  with_event_connection display client.

End Backend.

(** * Vocabulary of the properties *)

(** ** Worlds and traces *)

(** The world with further events observed. *)
Definition log (w : world) (es : list event) : world :=
  {| w_trace := w_trace w ++ es;
     w_out_of_memory := w_out_of_memory w;
     w_handler_in_progress := w_handler_in_progress w;
     w_recursive_mutex := w_recursive_mutex w |}.

(** The world with the nesting token of the disconnect handler set. *)
Definition in_progress (b : bool) (w : world) : world :=
  {| w_trace := w_trace w; w_out_of_memory := w_out_of_memory w;
     w_handler_in_progress := b;
     w_recursive_mutex := w_recursive_mutex w |}.

(** What a run left in the log, and in the ring of a channel. *)
Definition trace_of {A} (o : outcome A) : list event :=
  match o with
  | Done _ w => w_trace w
  | Crash _ w => w_trace w
  | OutOfFuel => []
  end.

Definition ring_after {A} (o : outcome A) (channel : A -> option libivc_client)
  : list byte :=
  match o with
  | Done a _ => match channel a with Some c => ivc_ring c | None => [] end
  | _ => []
  end.

(** ** Packets on the wire *)

(** The packet [__send_packet] builds for a type and a payload: header,
    payload, and a footer that carries the CRC of header and payload. *)
Definition packet_header (type : Z) (payload : list byte) : dh_header :=
  {| h_magic1 := PV_DRIVER_MAGIC1; h_magic2 := PV_DRIVER_MAGIC2;
     h_type := type; h_length := Z.of_nat (List.length payload);
     h_reserved_word := 0 |}.

Definition packet_crc (type : Z) (payload : list byte) : Z :=
  __pv_helper_blob_checksum
    (header_bytes (packet_header type payload) ++ payload)
    (sizeof_dh_header + Z.of_nat (List.length payload)).

Definition packet_bytes (type : Z) (payload : list byte) : list byte :=
  header_bytes (packet_header type payload) ++ payload
    ++ le_split 2 (packet_crc type payload) ++ zeroed 6.

(** The four stores with which [__send_packet] populates the header. *)
Definition header_filled (type length : Z) : list byte -> list byte :=
  fun buf =>
    store (store (store (store buf 0 (le_split 2 PV_DRIVER_MAGIC1))
                        2 (le_split 2 PV_DRIVER_MAGIC2))
                 4 (le_split 4 type))
          8 (le_split 4 length).

(** The checksum of a message held in one piece. *)
Definition crc_of (m : list byte) : Z :=
  to_uint16 (to_int16 (Z.land (Z.lnot (fold_left crc_byte m 0xffff)) 0xffff)).

(** [crc_tbl[i]]. *)
Definition crc_entry (i : Z) : Z := nth (Z.to_nat i) crc_tbl 0.

(** [crc_byte] on the value of the byte. *)
Definition crc_byte_z (crc c : Z) : Z :=
  crc_step (crc_step crc c) (to_uint8 (Z.shiftr c 4)).

(** Bit [k] of a byte inverted, and the byte at index [i] of a list so
    changed. *)
Definition flip_bit (k : Z) (b : byte) : byte :=
  byte.of_Z (Z.lxor (byte.unsigned b) (2 ^ k)).

Fixpoint flip_at (i : nat) (k : Z) (m : list byte) {struct m} : list byte :=
  match m, i with
  | [], _ => []
  | b :: m, O => flip_bit k b :: m
  | b :: m, S i => b :: flip_at i k m
  end.

(** The bits the CRC comparison covers: the header apart from its length
    field (bytes 8 to 11), the payload, and the CRC field of the footer. *)
Definition covered (payload_length i : nat) : Prop :=
  (i < 8 \/ 12 <= i < 16 + payload_length + 2)%nat.

(** [packet] with the CRC field of its footer xor'd by 1. *)
Definition with_damaged_crc (packet : list byte) : list byte :=
  let at_crc := (List.length packet - 8)%nat in
  firstn at_crc packet
    ++ map (fun b => byte.xor b Byte.x01) (firstn 1 (skipn at_crc packet))
    ++ skipn (S at_crc) packet.

(** ** Receiving a packet *)

(** The [len] oldest bytes of a channel, and the channel once they have been
    read. *)
Definition oldest (c : libivc_client) (len : Z) : list byte :=
  firstn (Z.to_nat len) (ivc_ring c).

Definition after_read (c : libivc_client) (len : Z) : libivc_client :=
  ivc_update c (skipn (Z.to_nat len) (ivc_ring c)) (ivc_calls c).

(** The channel once all of its bytes have been read. *)
Definition drained (c : libivc_client) : libivc_client :=
  ivc_update c [] (ivc_calls c).

(** The comparison both receivers make between the recomputed CRC and the
    CRC field of the footer that follows the payload. *)
Definition crc_matches (header : dh_header) (buffer : list byte) : bool :=
  __pv_helper_packet_checksum header buffer (h_length header)
  =? f_crc (footer_of_bytes (skipn (Z.to_nat (h_length header)) buffer)).

(** The hypotheses under which a receiver gets as far as the CRC check: the
    transport answers, memory is available and the body has arrived. *)
Definition body_arrived (header : dh_header) (c : libivc_client) (w : world)
  : Prop :=
  ivc_query_rc c = 0 /\ ivc_recv_rc c = 0 /\ w_out_of_memory w = false
  /\ 0 <= h_length header < 2 ^ 32
  /\ h_length header + 8 <= ring_data c.

(** ** The cursor bitmap *)



(** ** Disconnects *)

(** The connection of a provider-side display behind each channel. *)
Definition connection_of (c : channel) (d : Provider.pv_display)
  : option libivc_client :=
  match c with
  | Framebuffer => Provider.framebuffer_connection d
  | Event => Provider.event_connection d
  | DirtyRectangles => Provider.dirty_rectangles_connection d
  | CursorImage => Provider.cursor_image_connection d
  end.

(** A handler whose teardown disconnects the three other channels. *)
Definition tears_everything_down (fn : nat) : list channel :=
  [Framebuffer; DirtyRectangles; CursorImage].

(** A handler that provokes no further disconnect. *)
Definition tears_nothing_down (fn : nat) : list channel := [].

(** The number of user callbacks entered in what a call has done, whether
    it returned or not. *)
Definition entered {A} (o : outcome A) : nat :=
  List.length (filter is_call (trace_of o)).

(** ** Scenarios *)

(** A working control ring of one page, empty and open. *)
Definition idle_channel : libivc_client :=
  {| ivc_open := true; ivc_capacity := 4096; ivc_ring := [];
     ivc_query_rc := 0; ivc_send_rc := 0; ivc_recv_rc := 0; ivc_calls := [] |}.

(** Nothing observed yet, memory available, no disconnect being handled. *)
Definition quiet_world : world :=
  {| w_trace := []; w_out_of_memory := false; w_handler_in_progress := false;
     w_recursive_mutex := false |}.

(** The same on the build whose mutex lets its owner in again. *)
Definition quiet_reentrant_world : world :=
  {| w_trace := []; w_out_of_memory := false; w_handler_in_progress := false;
     w_recursive_mutex := true |}.

(** An observer in the place of a packet-type dispatcher: it reports the
    length and the type of the header it is handed, as the arguments of a
    call of address 0. *)
Definition header_probe {A} (receiver : A) (header : dh_header)
  (buffer : list byte) : M unit :=
  call_user 0 [AInt (h_length header); AInt (h_type header)].

(** A channel that holds the given bytes, unread. *)
Definition channel_holding (bytes : list byte) : libivc_client :=
  {| ivc_open := true; ivc_capacity := 4096; ivc_ring := bytes;
     ivc_query_rc := 0; ivc_send_rc := 0; ivc_recv_rc := 0; ivc_calls := [] |}.

(** A dirty-rectangle ring with 20 bytes free. *)
Definition nearly_full_ring : libivc_client :=
  {| ivc_open := true; ivc_capacity := 20; ivc_ring := [];
     ivc_query_rc := 0; ivc_send_rc := 0; ivc_recv_rc := 0; ivc_calls := [] |}.

(** A 1920x1080 display with that dirty-rectangle ring, a cursor bitmap and
    a registered fatal-error handler. *)
Definition full_hd_display : Provider.pv_display :=
  {| Provider.key := 1; Provider.width := 1920; Provider.height := 1080;
     Provider.stride := 7680;
     Provider.framebuffer_connection := Some idle_channel;
     Provider.event_connection := Some idle_channel;
     Provider.dirty_rectangles_connection := Some nearly_full_ring;
     Provider.cursor_image_connection := Some idle_channel;
     Provider.cursor :=
       {| Provider.image := Some (zeroed 16384); Provider.hotspot_x := 0;
          Provider.hotspot_y := 0; Provider.visible := true |};
     Provider.display_fatal_error_handler := Some 7%nat |}.

(** The payload of the ADD_DISPLAY request of the handshake: key 1 and the
    ports 2000 to 2003. *)
Definition add_display_payload : list byte :=
  Backend.add_display_bytes 1 2000 2001 2002 2003.

(** The ADD_DISPLAY packet of the handshake. *)
Definition add_display_packet : list byte :=
  packet_bytes PACKET_TYPE_CONTROL_ADD_DISPLAY add_display_payload.

(** A driver-capabilities packet as the handshake sends it. *)
Definition capabilities_packet : list byte :=
  packet_bytes PACKET_TYPE_CONTROL_DRIVER_CAPABILITIES
    (Provider.driver_capabilities_bytes
       (Provider.mk_capabilities 2 PV_DRIVER_INTERFACE_VERSION 0 0)).

(** The SET_DISPLAY event of the handshake. *)
Definition set_display_packet : list byte :=
  packet_bytes PACKET_TYPE_EVENT_SET_DISPLAY
               (le_split 4 1920 ++ le_split 4 1080 ++ le_split 4 7680).

(** A provider that has read the header of [packet] and waits for the
    rest. *)
Definition provider_mid_packet (packet : list byte)
  : Provider.pv_display_provider :=
  {| Provider.control_channel := Some (channel_holding (skipn 16 packet));
     Provider.capabilities := 0;
     Provider.current_packet_header := header_of_bytes (firstn 16 packet);
     Provider.host_display_change_handler := Some 1%nat;
     Provider.add_display_handler := Some 2%nat;
     Provider.remove_display_handler := Some 3%nat;
     Provider.fatal_error_handler := Some 9%nat |}.

(** The same on the consumer side. *)
Definition consumer_mid_packet (packet : list byte)
  : Backend.pv_display_consumer :=
  {| Backend.control_channel := Some (channel_holding (skipn 16 packet));
     Backend.current_packet_header := header_of_bytes (firstn 16 packet);
     Backend.driver_capabilities_handler := Some 1%nat;
     Backend.advertised_list_handler := Some 2%nat;
     Backend.display_no_longer_available_handler := Some 3%nat;
     Backend.text_mode_handler := Some 4%nat;
     Backend.fatal_error_handler := Some 9%nat |}.

(** A connected display backend with every handler registered, whose event
    channel holds [bytes]. *)
Definition backend_holding (bytes : list byte) : Backend.pv_display_backend :=
  {| Backend.disconnected := false;
     Backend.event_connection := Some (channel_holding bytes);
     Backend.framebuffer_connection := Some idle_channel;
     Backend.dirty_rectangles_connection := Some idle_channel;
     Backend.cursor_image_connection := Some idle_channel;
     Backend.display_packet_header := mk_header 0 0 0 0 0;
     Backend.set_display_handler := Some 11%nat;
     Backend.update_cursor_handler := Some 12%nat;
     Backend.move_cursor_handler := Some 13%nat;
     Backend.blank_display_handler := Some 14%nat;
     Backend.dirty_rectangle_handler := Some 15%nat;
     Backend.display_fatal_error_handler := Some 19%nat |}.

(** An idle provider, and an idle consumer, with every handler registered,
    whose control channel holds [bytes]. *)
Definition provider_holding (bytes : list byte)
  : Provider.pv_display_provider :=
  {| Provider.control_channel := Some (channel_holding bytes);
     Provider.capabilities := 0;
     Provider.current_packet_header := mk_header 0 0 0 0 0;
     Provider.host_display_change_handler := Some 1%nat;
     Provider.add_display_handler := Some 2%nat;
     Provider.remove_display_handler := Some 3%nat;
     Provider.fatal_error_handler := Some 9%nat |}.

Definition consumer_holding (bytes : list byte)
  : Backend.pv_display_consumer :=
  {| Backend.control_channel := Some (channel_holding bytes);
     Backend.current_packet_header := mk_header 0 0 0 0 0;
     Backend.driver_capabilities_handler := Some 1%nat;
     Backend.advertised_list_handler := Some 2%nat;
     Backend.display_no_longer_available_handler := Some 3%nat;
     Backend.text_mode_handler := Some 4%nat;
     Backend.fatal_error_handler := Some 9%nat |}.

(** A provider that listens on a channel holding [bytes], with only its
    add-display and fatal-error handlers registered. *)
Definition listening_provider (bytes : list byte)
  : Provider.pv_display_provider :=
  {| Provider.control_channel := Some (channel_holding bytes);
     Provider.capabilities := 0;
     Provider.current_packet_header := mk_header 0 0 0 0 0;
     Provider.host_display_change_handler := None;
     Provider.add_display_handler := Some 2%nat;
     Provider.remove_display_handler := None;
     Provider.fatal_error_handler := Some 9%nat |}.

(** A display backend as [consumer_create_pv_display_backend] leaves it (all
    handlers NULL) once its dirty-rectangle connection has been bound, with
    one record waiting on that connection. *)
Definition fresh_backend_with_record : Backend.pv_display_backend :=
  {| Backend.disconnected := false;
     Backend.event_connection := Some idle_channel;
     Backend.framebuffer_connection := Some idle_channel;
     Backend.dirty_rectangles_connection :=
       Some (channel_holding (Provider.dirty_rectangle_bytes 10 10 5 5));
     Backend.cursor_image_connection := Some idle_channel;
     Backend.display_packet_header := mk_header 0 0 0 0 0;
     Backend.set_display_handler := None;
     Backend.update_cursor_handler := None;
     Backend.move_cursor_handler := None;
     Backend.blank_display_handler := None;
     Backend.dirty_rectangle_handler := None;
     Backend.display_fatal_error_handler := None |}.

(** A provider whose control connection has just been opened. *)
Definition connected_provider : Provider.pv_display_provider :=
  {| Provider.control_channel := Some idle_channel;
     Provider.capabilities := 0;
     Provider.current_packet_header := mk_header 0 0 0 0 0;
     Provider.host_display_change_handler := None;
     Provider.add_display_handler := None;
     Provider.remove_display_handler := None;
     Provider.fatal_error_handler := None |}.

(** A 32x48 source image whose bytes are all 0xFF. *)
Definition opaque_white_32x48 : list byte := repeat Byte.xff (4 * 32 * 48).

(** ** Events of a display *)

(** What a display tells its backend over the event channel. *)
Inductive display_event :=
| SetDisplay (width height stride : Z)
| UpdateCursor (xhot yhot show : Z)
| MoveCursor (x y : Z)
| BlankDisplay (color reason : Z).

Definition event_type (e : display_event) : Z :=
  match e with
  | SetDisplay _ _ _ => PACKET_TYPE_EVENT_SET_DISPLAY
  | UpdateCursor _ _ _ => PACKET_TYPE_EVENT_UPDATE_CURSOR
  | MoveCursor _ _ => PACKET_TYPE_EVENT_MOVE_CURSOR
  | BlankDisplay _ _ => PACKET_TYPE_EVENT_BLANK_DISPLAY
  end.

Definition event_payload (e : display_event) : list byte :=
  match e with
  | SetDisplay width height stride =>
    Provider.set_display_bytes width height stride
  | UpdateCursor xhot yhot show =>
    le_split 4 xhot ++ le_split 4 yhot ++ le_split 4 show
  | MoveCursor x y => Provider.move_cursor_bytes x y
  | BlankDisplay color reason => Provider.blanking_bytes color reason
  end.

(** The event as [__send_packet] frames it. *)
Definition event_packet (e : display_event) : list byte :=
  packet_bytes (event_type e) (event_payload e).

Definition uint32 (z : Z) : Prop := 0 <= z < 2 ^ 32.

Definition event_in_range (e : display_event) : Prop :=
  match e with
  | SetDisplay width height stride =>
    uint32 width /\ uint32 height /\ uint32 stride
  | UpdateCursor xhot yhot show => uint32 xhot /\ uint32 yhot /\ uint32 show
  | MoveCursor x y => uint32 x /\ uint32 y
  | BlankDisplay color reason => uint32 color /\ uint32 reason
  end.

(** The handler a display backend enters for an event, with its arguments;
    nothing when no handler is registered for the event. *)
Definition event_call (d : Backend.pv_display_backend) (e : display_event)
  : list event :=
  match e with
  | SetDisplay width height stride =>
    match Backend.set_display_handler d with
    | Some fn => [EvCall fn [AInt width; AInt height; AInt stride]]
    | None => []
    end
  | UpdateCursor xhot yhot show =>
    match Backend.update_cursor_handler d with
    | Some fn => [EvCall fn [AInt xhot; AInt yhot; AInt show]]
    | None => []
    end
  | MoveCursor x y =>
    match Backend.move_cursor_handler d with
    | Some fn => [EvCall fn [AInt x; AInt y]]
    | None => []
    end
  | BlankDisplay _ reason =>
    match Backend.blank_display_handler d with
    | Some fn => [EvCall fn [AInt reason]]
    | None => []
    end
  end.

(** What receiving one event leaves in the log: the receive buffer, the
    handler call, the release of the buffer. *)
Definition event_delivery (d : Backend.pv_display_backend)
  (e : display_event) : list event :=
  EvMalloc (Z.of_nat (List.length (event_payload e)) + 8)
    :: event_call d e ++ [EvFree].

(** Two display backends with the same handlers and the same connections
    apart from the event connection. *)
Definition same_backend_apart_from_events (d d' : Backend.pv_display_backend)
  : Prop :=
  Backend.disconnected d' = Backend.disconnected d
  /\ Backend.framebuffer_connection d' = Backend.framebuffer_connection d
  /\ Backend.dirty_rectangles_connection d'
     = Backend.dirty_rectangles_connection d
  /\ Backend.cursor_image_connection d' = Backend.cursor_image_connection d
  /\ Backend.set_display_handler d' = Backend.set_display_handler d
  /\ Backend.update_cursor_handler d' = Backend.update_cursor_handler d
  /\ Backend.move_cursor_handler d' = Backend.move_cursor_handler d
  /\ Backend.blank_display_handler d' = Backend.blank_display_handler d
  /\ Backend.dirty_rectangle_handler d' = Backend.dirty_rectangle_handler d
  /\ Backend.display_fatal_error_handler d'
     = Backend.display_fatal_error_handler d.

(** The bytes waiting on the event connection of a display backend. *)
Definition pending_events (d : Backend.pv_display_backend) : list byte :=
  match Backend.event_connection d with
  | Some c => ivc_ring c
  | None => []
  end.

(** The number of buffers allocated, and released, in a log. *)
Definition is_malloc (e : event) : bool :=
  match e with EvMalloc _ => true | _ => false end.

Definition is_free (e : event) : bool :=
  match e with EvFree => true | _ => false end.

Definition allocations (es : list event) : nat :=
  List.length (filter is_malloc es).

Definition releases (es : list event) : nat :=
  List.length (filter is_free es).

(** ** Channels ready for use *)

(** A channel on which a packet of [size] bytes can be sent at once: open,
    empty, large enough, on a transport that answers. *)
Definition can_send (c : libivc_client) (size : Z) : Prop :=
  ivc_open c = true /\ ivc_query_rc c = 0 /\ ivc_send_rc c = 0
  /\ ivc_ring c = [] /\ size <= ivc_capacity c.

(** A transport that answers the receiver. *)
Definition can_receive (c : libivc_client) : Prop :=
  ivc_query_rc c = 0 /\ ivc_recv_rc c = 0.

(** A connected display backend that reads its events from [receiver] and
    has no packet in progress. *)
Definition listening (backend : Backend.pv_display_backend)
  (receiver : libivc_client) : Prop :=
  Backend.disconnected backend = false
  /\ Backend.event_connection backend = Some receiver
  /\ can_receive receiver
  /\ h_length (Backend.display_packet_header backend) = 0.

(** A display with hardware-cursor support: the shared bitmap and the
    connection that carries it. *)
Definition has_cursor (display : Provider.pv_display) : Prop :=
  Provider.image (Provider.cursor display) <> None
  /\ Provider.cursor_image_connection display <> None.

(** A consumer, and a provider, that reads its control packets from
    [receiver] and has no packet in progress. *)
Definition consumer_listening (consumer : Backend.pv_display_consumer)
  (receiver : libivc_client) : Prop :=
  Backend.control_channel consumer = Some receiver
  /\ can_receive receiver
  /\ h_length (Backend.current_packet_header consumer) = 0.

Definition provider_listening (provider : Provider.pv_display_provider)
  (receiver : libivc_client) : Prop :=
  Provider.control_channel provider = Some receiver
  /\ can_receive receiver
  /\ h_length (Provider.current_packet_header provider) = 0.

(** The header a receiver holds once a packet of the given type has been
    taken out of the ring: the in-progress length is back to 0. *)
Definition delivered_header (type : Z) : dh_header :=
  {| h_magic1 := PV_DRIVER_MAGIC1; h_magic2 := PV_DRIVER_MAGIC2;
     h_type := type; h_length := 0; h_reserved_word := 0 |}.

(** The footer [__send_packet] puts behind a payload. *)
Definition packet_footer (type : Z) (payload : list byte) : list byte :=
  le_split 2 (packet_crc type payload) ++ zeroed 6.

(** More bytes arriving on the control channel of a consumer. *)
Definition after_arrival (consumer : Backend.pv_display_consumer)
  (bytes : list byte) : Backend.pv_display_consumer :=
  Backend.with_control_channel consumer
    (match Backend.control_channel consumer with
     | Some c => Some (ivc_update c (ivc_ring c ++ bytes) (ivc_calls c))
     | None => None
     end).

(** A display without hardware-cursor support: no shared bitmap and no
    cursor connection. *)
Definition software_cursor_display : Provider.pv_display :=
  {| Provider.key := 2; Provider.width := 1024; Provider.height := 768;
     Provider.stride := 4096;
     Provider.framebuffer_connection := Some idle_channel;
     Provider.event_connection := Some idle_channel;
     Provider.dirty_rectangles_connection := Some idle_channel;
     Provider.cursor_image_connection := None;
     Provider.cursor :=
       {| Provider.image := None; Provider.hotspot_x := 0;
          Provider.hotspot_y := 0; Provider.visible := false |};
     Provider.display_fatal_error_handler := Some 7%nat |}.

(** The payload of a display list: the count, then that many
    [struct dh_display_info] out of the caller's array. *)
Definition display_list_payload (displays : list byte) (display_count : Z)
  : list byte :=
  le_split 4 display_count
    ++ firstn (Z.to_nat (sizeof_dh_display_info * display_count)) displays.

(** Two records of [struct dh_display_info]: key, x, y, width, height and
    the reserved word of each. *)
Definition two_display_infos : list byte :=
  List.concat (map (le_split 4) [1; 0; 0; 1920; 1080; 0;
                                 2; 1920; 0; 1280; 1024; 0]).

(** What [__validate_add_display_request] reports for the two ports it
    looks at. *)
Definition validation_messages (framebuffer_port event_port : Z)
  : list event :=
  if framebuffer_port =? 0 then
    [EvError "The Display Handler provided a display without a framebuffer connection-- rejecting it!"]
  else if event_port =? 0 then
    [EvError "The Display Handler provided a display without an event connection-- rejecting it!"]
  else [].

(** ** Dirty rectangles *)

Record rectangle := mk_rectangle {
  r_x : Z;
  r_y : Z;
  r_width : Z;
  r_height : Z
}.

(** The 16-byte record of a rectangle, as it travels on the
    dirty-rectangle channel. *)
Definition rectangle_bytes (r : rectangle) : list byte :=
  Provider.dirty_rectangle_bytes (r_x r) (r_y r) (r_width r) (r_height r).

Definition rectangle_in_range (r : rectangle) : Prop :=
  uint32 (r_x r) /\ uint32 (r_y r) /\ uint32 (r_width r)
  /\ uint32 (r_height r).

(** The call of the dirty-rectangle handler for a rectangle. *)
Definition rectangle_call (handler : nat) (r : rectangle) : event :=
  EvCall handler [AInt (r_x r); AInt (r_y r); AInt (r_width r);
                  AInt (r_height r)].

(** The rectangle that covers a display. *)
Definition full_screen (display : Provider.pv_display) : rectangle :=
  mk_rectangle 0 0 (Provider.width display) (Provider.height display).

(** What happens, over time, to the dirty-rectangle queue of a display: the
    driver invalidates a region, or the peer takes the oldest record out of
    the ring. *)
Inductive queue_step :=
| Invalidate (r : rectangle)
| PeerReads.

Definition peer_reads (display : Provider.pv_display) : Provider.pv_display :=
  match Provider.dirty_rectangles_connection display with
  | Some c =>
    let '(_, _, c') := libivc_recv (Some c) sizeof_dh_dirty_rectangle in
    Provider.with_dirty_rectangles_connection display c'
  | None => display
  end.

Fixpoint run_queue (user : Provider.display_user_code)
  (steps : list queue_step) (display : Provider.pv_display)
  : M Provider.pv_display :=
  match steps with
  | [] => ret display
  | Invalidate r :: steps =>
    '(_, display) <-
      Provider.pv_display_invalidate_region user display (r_x r) (r_y r)
                                            (r_width r) (r_height r) ;;
    run_queue user steps display
  | PeerReads :: steps => run_queue user steps (peer_reads display)
  end.

(** The newest record of a ring is the full-screen rectangle of a display. *)
Definition ends_with_full_refresh (c : libivc_client)
  (display : Provider.pv_display) : Prop :=
  exists older, ivc_ring c = older ++ rectangle_bytes (full_screen display).

(** A display backend whose dirty-rectangle connection holds [bytes], with
    its dirty-rectangle handler registered. *)
Definition backend_with_rectangles (bytes : list byte)
  : Backend.pv_display_backend :=
  {| Backend.disconnected := false;
     Backend.event_connection := Some idle_channel;
     Backend.framebuffer_connection := Some idle_channel;
     Backend.dirty_rectangles_connection := Some (channel_holding bytes);
     Backend.cursor_image_connection := Some idle_channel;
     Backend.display_packet_header := mk_header 0 0 0 0 0;
     Backend.set_display_handler := None;
     Backend.update_cursor_handler := None;
     Backend.move_cursor_handler := None;
     Backend.blank_display_handler := None;
     Backend.dirty_rectangle_handler := Some 15%nat;
     Backend.display_fatal_error_handler := None |}.

(** A dirty-rectangle ring with room for three records. *)
Definition three_record_ring : libivc_client :=
  {| ivc_open := true; ivc_capacity := 48; ivc_ring := [];
     ivc_query_rc := 0; ivc_send_rc := 0; ivc_recv_rc := 0; ivc_calls := [] |}.

(** A 1920x1080 display with that ring as its dirty-rectangle queue. *)
Definition display_with_short_queue : Provider.pv_display :=
  {| Provider.key := 1; Provider.width := 1920; Provider.height := 1080;
     Provider.stride := 7680;
     Provider.framebuffer_connection := Some idle_channel;
     Provider.event_connection := Some idle_channel;
     Provider.dirty_rectangles_connection := Some three_record_ring;
     Provider.cursor_image_connection := None;
     Provider.cursor :=
       {| Provider.image := None; Provider.hotspot_x := 0;
          Provider.hotspot_y := 0; Provider.visible := false |};
     Provider.display_fatal_error_handler := None |}.

(** The number of bytes waiting in a channel (none on a NULL client). *)
Definition waiting_bytes (channel : option libivc_client) : nat :=
  match channel with
  | Some c => List.length (ivc_ring c)
  | None => 0%nat
  end.

(** A transport on which reconnecting is refused. *)
Definition reconnect_refused (c : libivc_client) (domain port : Z)
  : Z * libivc_client := (IVC_REFUSED, c).

(** What [pv_display_reconnect] needs: both required connections, both
    required ports, and a transport that reconnects the two. *)
Definition reconnect_requirements
  (libivc_reconnect : libivc_client -> Z -> Z -> Z * libivc_client)
  (display : Provider.pv_display) (event_port framebuffer_port rx_domain : Z)
  : Prop :=
  exists framebuffer_client event_client,
    Provider.framebuffer_connection display = Some framebuffer_client
    /\ Provider.event_connection display = Some event_client
    /\ framebuffer_port <> 0 /\ event_port <> 0
    /\ fst (libivc_reconnect framebuffer_client rx_domain
                             (to_uint16 framebuffer_port)) = 0
    /\ fst (libivc_reconnect event_client rx_domain
                             (to_uint16 event_port)) = 0.

(** * Properties *)

(** ** Memory and byte lists *)

Lemma zeroed_length n : List.length (zeroed n) = Z.to_nat n.
Proof. unfold zeroed. apply repeat_length. Qed.

Lemma zeroed_add n m :
  0 <= n -> 0 <= m -> zeroed (n + m) = zeroed n ++ zeroed m.
Proof.
  intros Hn Hm. unfold zeroed.
  rewrite Z2Nat.inj_add by assumption. apply repeat_app.
Qed.

(** Writing over a slice that is delimited by the shape of the buffer. *)
Lemma store_middle (a old c bs : list byte) off :
  Z.to_nat off = List.length a -> List.length old = List.length bs ->
  store (a ++ old ++ c) off bs = a ++ bs ++ c.
Proof.
  intros Ha Hold. unfold store. rewrite Ha.
  rewrite firstn_app, Nat.sub_diag, firstn_all. simpl. rewrite app_nil_r.
  f_equal. f_equal.
  rewrite skipn_app.
  rewrite (skipn_all2 a) by lia. simpl.
  replace (List.length a + List.length bs - List.length a)%nat
    with (List.length old) by lia.
  rewrite skipn_app, Nat.sub_diag, skipn_all. reflexivity.
Qed.

Lemma store_front (old c bs : list byte) :
  List.length old = List.length bs -> store (old ++ c) 0 bs = bs ++ c.
Proof. intros H. apply (store_middle [] old c bs 0); auto. Qed.

Lemma store_whole (old bs : list byte) :
  List.length old = List.length bs -> store old 0 bs = bs.
Proof.
  intros H. rewrite <- (app_nil_r old), store_front by assumption.
  apply app_nil_r.
Qed.

Lemma load_front (a c : list byte) n :
  Z.to_nat n = List.length a -> load (a ++ c) 0 n = a.
Proof.
  intros H. unfold load. simpl. rewrite H.
  rewrite firstn_app, Nat.sub_diag, firstn_all. simpl. apply app_nil_r.
Qed.

Lemma load_middle (a b c : list byte) off n :
  Z.to_nat off = List.length a -> Z.to_nat n = List.length b ->
  load (a ++ b ++ c) off n = b.
Proof.
  intros Ha Hb. unfold load. rewrite Ha, Hb.
  rewrite skipn_app, Nat.sub_diag, skipn_all. simpl.
  rewrite firstn_app, Nat.sub_diag, firstn_all. simpl. apply app_nil_r.
Qed.

(** ** The monad *)

Lemma log_nil w : log w [] = w.
Proof. destruct w. unfold log. simpl. rewrite app_nil_r. reflexivity. Qed.

Lemma log_log w es fs : log (log w es) fs = log w (es ++ fs).
Proof. unfold log. simpl. rewrite app_assoc. reflexivity. Qed.

Lemma emit_log e w : emit e w = Done tt (log w [e]).
Proof. reflexivity. Qed.

Lemma mutex_kind_log w es : w_recursive_mutex (log w es) = w_recursive_mutex w.
Proof. reflexivity. Qed.

Lemma malloc_ok size w :
  w_out_of_memory w = false ->
  pv_helper_malloc size w = Done (Some (zeroed size)) (log w [EvMalloc size]).
Proof. intros H. unfold pv_helper_malloc. rewrite H. reflexivity. Qed.

Lemma calls_log w es :
  calls (log w es) = (calls w + List.length (filter is_call es))%nat.
Proof.
  unfold calls, log. simpl. rewrite filter_app, length_app. reflexivity.
Qed.

(** ** __send_packet *)

Lemma header_bytes_length h : List.length (header_bytes h) = 16%nat.
Proof. reflexivity. Qed.

Lemma packet_bytes_length type payload :
  List.length (packet_bytes type payload) = (16 + List.length payload + 8)%nat.
Proof.
  unfold packet_bytes. rewrite !length_app, header_bytes_length.
  rewrite length_le_split, zeroed_length. simpl. lia.
Qed.

Lemma crc_section_app crc (a b : list byte) len :
  len = Z.of_nat (List.length a) -> crc_section crc (a ++ b) len
                                    = crc_section crc a len.
Proof.
  intros ->. unfold crc_section. rewrite Nat2Z.id.
  rewrite firstn_app, Nat.sub_diag, !firstn_all. simpl.
  rewrite app_nil_r. reflexivity.
Qed.

Lemma blob_checksum_app (a b : list byte) len :
  len = Z.of_nat (List.length a) ->
  __pv_helper_blob_checksum (a ++ b) len = __pv_helper_blob_checksum a len.
Proof.
  intros H. unfold __pv_helper_blob_checksum, __pv_helper_checksum. simpl.
  rewrite crc_section_app by assumption. reflexivity.
Qed.

(** The transmit buffer, once header, payload and footer are in place. *)
Lemma transmit_buffer_filled type (data : list byte) :
  let length := Z.of_nat (List.length data) in
  let buf := zeroed (sizeof_dh_header + length + sizeof_dh_footer) in
  let buf := header_filled type length buf in
  let buf := memcpy buf sizeof_dh_header data length in
  let crc := __pv_helper_blob_checksum buf (sizeof_dh_header + length) in
  store buf (sizeof_dh_header + length) (le_split 2 crc)
  = packet_bytes type data.
Proof.
  cbv zeta. unfold header_filled, sizeof_dh_header, sizeof_dh_footer, memcpy.
  set (L := Z.of_nat (List.length data)).
  assert (HL : 0 <= L) by (subst L; lia).
  replace (16 + L + 8) with (2 + (2 + (4 + (4 + (4 + (L + (2 + 6)))))))
    by lia.
  rewrite !zeroed_add by lia.
  set (m1 := le_split 2 PV_DRIVER_MAGIC1).
  set (m2 := le_split 2 PV_DRIVER_MAGIC2).
  set (ty := le_split 4 type).
  set (ln := le_split 4 L).
  rewrite (store_front (zeroed 2) _ m1) by reflexivity.
  rewrite (store_middle m1 (zeroed 2) _ m2 2) by reflexivity.
  rewrite (app_assoc m1 m2).
  rewrite (store_middle (m1 ++ m2) (zeroed 4) _ ty 4) by reflexivity.
  rewrite (app_assoc (m1 ++ m2) ty).
  rewrite (store_middle ((m1 ++ m2) ++ ty) (zeroed 4) _ ln 8) by reflexivity.
  rewrite (app_assoc ((m1 ++ m2) ++ ty) ln).
  rewrite (app_assoc (((m1 ++ m2) ++ ty) ++ ln) (zeroed 4)).
  assert (Hd : firstn (Z.to_nat L) data = data).
  { subst L. rewrite Nat2Z.id. apply firstn_all. }
  rewrite Hd.
  rewrite (store_middle _ (zeroed L) _ data 16)
    by (try reflexivity; rewrite zeroed_length; subst L; apply Nat2Z.id).
  set (hdr := (((m1 ++ m2) ++ ty) ++ ln) ++ zeroed 4).
  assert (Hhdr : hdr = header_bytes (packet_header type data)).
  { subst hdr m1 m2 ty ln. unfold header_bytes, packet_header. simpl h_magic1.
    simpl h_magic2. simpl h_type. simpl h_length. simpl h_reserved_word.
    rewrite <- !app_assoc. reflexivity. }
  rewrite (app_assoc hdr data).
  rewrite blob_checksum_app
    by (rewrite length_app, Hhdr, header_bytes_length; subst L; lia).
  rewrite (store_middle (hdr ++ data) (zeroed 2) (zeroed 6) _ (16 + L))
    by (try reflexivity; rewrite length_app, Hhdr, header_bytes_length;
        subst L; lia).
  unfold packet_bytes, packet_crc, sizeof_dh_header. fold L.
  rewrite <- Hhdr, <- !app_assoc. reflexivity.
Qed.

Lemma to_size_t_small z : 0 <= z < 2 ^ 64 -> to_size_t z = z.
Proof. intros H. unfold to_size_t. apply Z.mod_small. assumption. Qed.

(** What [__send_packet] does on an open channel whose space query works,
    when memory is available. *)
Lemma send_packet_open (c : libivc_client) type (data : list byte) w :
  Z.of_nat (List.length data) < 2 ^ 32 ->
  w_out_of_memory w = false ->
  ivc_open c = true ->
  ivc_query_rc c = 0 ->
  let packet_length := 16 + Z.of_nat (List.length data) + 8 in
  __send_packet (Some c) type data (Z.of_nat (List.length data)) w
  = if ring_space c <? packet_length
    then Done (- ENOMEM, Some c) (log w [EvMalloc packet_length])
    else
      let '(rc, c') :=
        libivc_send (Some c) (packet_bytes type data) packet_length in
      Done (rc, libivc_notify_remote (libivc_notify_remote c'))
           (log w [EvMalloc packet_length; EvFree]).
Proof.
  intros Hlen Hmem Hopen Hq. cbv zeta.
  pose proof (transmit_buffer_filled type data) as Hbuf.
  cbv zeta in Hbuf. unfold header_filled in Hbuf.
  unfold __send_packet, libivc_isOpen. rewrite Hopen.
  cbn [negb]. cbv beta iota.
  unfold sizeof_dh_header, sizeof_dh_footer in *.
  rewrite !to_size_t_small by lia.
  unfold bind. rewrite malloc_ok by assumption.
  rewrite Hbuf.
  unfold libivc_getAvailableSpace. rewrite Hq.
  change (negb (0 =? 0)) with false. cbv beta iota.
  destruct (ring_space c <? 16 + Z.of_nat (List.length data) + 8).
  - reflexivity.
  - destruct (libivc_send (Some c) (packet_bytes type data)
                (16 + Z.of_nat (List.length data) + 8)) as [rc c'].
    unfold pv_helper_free. rewrite emit_log, log_log. reflexivity.
Qed.

Lemma firstn_packet_bytes type (data : list byte) :
  firstn (Z.to_nat (16 + Z.of_nat (List.length data) + 8))
         (packet_bytes type data) = packet_bytes type data.
Proof.
  apply firstn_all2. rewrite packet_bytes_length. lia.
Qed.

Lemma send_packet_succeeds (c : libivc_client) (type : Z)
  (data : list byte) (w : world) :
  Z.of_nat (List.length data) < 2 ^ 32 ->
  w_out_of_memory w = false ->
  ivc_open c = true -> ivc_query_rc c = 0 -> ivc_send_rc c = 0 ->
  16 + Z.of_nat (List.length data) + 8 <= ring_space c ->
  __send_packet (Some c) type data (Z.of_nat (List.length data)) w
  = Done (0, Some (ivc_update c (ivc_ring c ++ packet_bytes type data)
                     (ivc_calls c ++ [CallSend (packet_bytes type data);
                                      CallNotify; CallNotify])))
         (log w [EvMalloc (16 + Z.of_nat (List.length data) + 8); EvFree]).
Proof.
  intros Hlen Hmem Hopen Hq Hs Hspace.
  rewrite send_packet_open by assumption. cbv zeta.
  replace (ring_space c <? 16 + Z.of_nat (List.length data) + 8) with false
    by (symmetry; apply Z.ltb_ge; lia).
  unfold libivc_send. rewrite Hs, Hopen, firstn_packet_bytes.
  replace (16 + Z.of_nat (List.length data) + 8 <=? ring_space c) with true
    by (symmetry; apply Z.leb_le; lia).
  change (negb (0 =? 0)) with false. cbn [andb libivc_notify_remote].
  cbv beta iota. unfold ivc_update. cbn.
  rewrite <- !app_assoc. reflexivity.
Qed.

(** C8.  Packet emission errors.  With memory available and a transport that
    answers the space query: on a channel that is not open [__send_packet]
    fails with [-ENOENT] and leaves the channel untouched; when the available
    space is smaller than header + payload + footer it fails with [-ENOMEM]
    and leaves the channel untouched; otherwise it hands the whole packet to
    the transport in one send call (followed by the two notifications), and
    on a transport that accepts the send the ring grows by exactly the
    packet. *)
Theorem send_packet_emission_errors
  (channel : option libivc_client) (type : Z) (data : list byte) (w : world) :
  Z.of_nat (List.length data) < 2 ^ 32 ->
  w_out_of_memory w = false ->
  (forall c, channel = Some c -> ivc_query_rc c = 0) ->
  (libivc_isOpen channel = false ->
   __send_packet channel type data (Z.of_nat (List.length data)) w
   = Done (- ENOENT, channel) w)
  /\ (forall c, channel = Some c -> ivc_open c = true ->
      ring_space c < 16 + Z.of_nat (List.length data) + 8 ->
      exists w',
        __send_packet channel type data (Z.of_nat (List.length data)) w
        = Done (- ENOMEM, channel) w')
  /\ (forall c, channel = Some c -> ivc_open c = true ->
      16 + Z.of_nat (List.length data) + 8 <= ring_space c ->
      exists rc c' w',
        __send_packet channel type data (Z.of_nat (List.length data)) w
        = Done (rc, Some c') w'
        /\ ivc_calls c'
           = ivc_calls c ++ [CallSend (packet_bytes type data);
                             CallNotify; CallNotify]
        /\ (ivc_send_rc c = 0 ->
            rc = 0 /\ ivc_ring c' = ivc_ring c ++ packet_bytes type data)).
Proof.
  intros Hlen Hmem Hq. split; [|split].
  - intros Hclosed. unfold __send_packet. rewrite Hclosed. reflexivity.
  - intros c -> Hopen Hspace.
    rewrite send_packet_open by auto.
    apply Z.ltb_lt in Hspace. rewrite Hspace. eauto.
  - intros c -> Hopen Hspace.
    rewrite send_packet_open by auto.
    assert (Hge : (ring_space c <? 16 + Z.of_nat (List.length data) + 8) = false)
      by (apply Z.ltb_ge; assumption).
    rewrite Hge.
    unfold libivc_send. rewrite firstn_packet_bytes, Hopen.
    apply Z.leb_le in Hspace. rewrite Hspace. simpl andb.
    destruct (ivc_send_rc c =? 0) eqn:Hrc; simpl negb; cbv iota;
      simpl libivc_notify_remote.
    + do 3 eexists. split; [reflexivity|]. simpl. split.
      * rewrite <- !app_assoc. reflexivity.
      * auto.
    + do 3 eexists. split; [reflexivity|]. simpl. split.
      * rewrite <- !app_assoc. reflexivity.
      * intros H0. rewrite H0 in Hrc. discriminate.
Qed.

(** [__send_packet] never crashes: it returns a code and a channel. *)
Lemma send_packet_returns channel type data length w :
  exists rc ch w', __send_packet channel type data length w = Done (rc, ch) w'.
Proof.
  unfold __send_packet.
  destruct (negb (libivc_isOpen channel)); [unfold ret; eauto|].
  unfold bind at 1, pv_helper_malloc.
  destruct (w_out_of_memory w); [unfold ret; eauto|].
  unfold bind at 1. rewrite emit_log. unfold ret at 1.
  destruct (libivc_getAvailableSpace channel) as [rc available].
  destruct (negb (rc =? 0)); [unfold ret; eauto|].
  match goal with |- context [if ?b then _ else _] => destruct b end;
    [unfold ret; eauto|].
  match goal with |- context [libivc_send ?a ?b ?c] =>
    destruct (libivc_send a b c) as [rc' ch'] end.
  unfold bind, pv_helper_free, ret. rewrite emit_log. eauto.
Qed.

(** The three cases of C8 on the idle channel, for a text-mode packet. *)
Lemma send_packet_emission_errors_witness :
  let channel := Some idle_channel in
  let data := le_split 4 1 in
  (libivc_isOpen channel = false ->
   __send_packet channel 7 data (Z.of_nat (List.length data)) quiet_world
   = Done (- ENOENT, channel) quiet_world)
  /\ (forall c, channel = Some c -> ivc_open c = true ->
      ring_space c < 16 + Z.of_nat (List.length data) + 8 ->
      exists w',
        __send_packet channel 7 data (Z.of_nat (List.length data)) quiet_world
        = Done (- ENOMEM, channel) w')
  /\ (forall c, channel = Some c -> ivc_open c = true ->
      16 + Z.of_nat (List.length data) + 8 <= ring_space c ->
      exists rc c' w',
        __send_packet channel 7 data (Z.of_nat (List.length data)) quiet_world
        = Done (rc, Some c') w'
        /\ ivc_calls c'
           = ivc_calls c ++ [CallSend (packet_bytes 7 data);
                             CallNotify; CallNotify]
        /\ (ivc_send_rc c = 0 ->
            rc = 0 /\ ivc_ring c' = ivc_ring c ++ packet_bytes 7 data)).
Proof.
  apply (send_packet_emission_errors (Some idle_channel) 7 (le_split 4 1)
                                     quiet_world).
  - vm_compute. reflexivity.
  - reflexivity.
  - intros c H. injection H as <-. reflexivity.
Defined.

(** ** Outbound consumer operations *)

(** C10.  [consumer_add_display] and [consumer_remove_display] return 0
    whatever [__send_packet] answered: the function completes, its result is
    0, and a failed send leaves nothing behind but a diagnostic in the log. *)
Theorem consumer_add_remove_display_return_zero
  (consumer : Backend.pv_display_consumer)
  (key event_port framebuffer_port dirty_rectangles_port cursor_bitmap_port : Z)
  (w : world) :
  (exists rc channel w1,
     __send_packet (Backend.control_channel consumer)
                   PACKET_TYPE_CONTROL_ADD_DISPLAY
                   (Backend.add_display_bytes key event_port framebuffer_port
                      dirty_rectangles_port cursor_bitmap_port) 20 w
     = Done (rc, channel) w1
     /\ Backend.consumer_add_display consumer key event_port framebuffer_port
          dirty_rectangles_port cursor_bitmap_port w
        = Done (0, Backend.with_control_channel consumer channel)
               (if rc =? 0 then w1
                else log w1 [EvError "Unable to send an add host displays!"]))
  /\ (exists rc channel w1,
     __send_packet (Backend.control_channel consumer)
                   PACKET_TYPE_CONTROL_REMOVE_DISPLAY (le_split 4 key) 4 w
     = Done (rc, channel) w1
     /\ Backend.consumer_remove_display consumer key w
        = Done (0, Backend.with_control_channel consumer channel)
               (if rc =? 0 then w1
                else log w1 [EvError "Unable to send an remove host displays!"])).
Proof.
  split.
  - destruct (send_packet_returns (Backend.control_channel consumer)
                PACKET_TYPE_CONTROL_ADD_DISPLAY
                (Backend.add_display_bytes key event_port framebuffer_port
                   dirty_rectangles_port cursor_bitmap_port) 20 w)
      as (rc & ch & w1 & Hsend).
    exists rc, ch, w1. split; [assumption|].
    unfold Backend.consumer_add_display, bind. rewrite Hsend.
    destruct (rc =? 0); reflexivity.
  - destruct (send_packet_returns (Backend.control_channel consumer)
                PACKET_TYPE_CONTROL_REMOVE_DISPLAY (le_split 4 key) 4 w)
      as (rc & ch & w1 & Hsend).
    exists rc, ch, w1. split; [assumption|].
    unfold Backend.consumer_remove_display, bind. rewrite Hsend.
    destruct (rc =? 0); reflexivity.
Qed.

(** ** The dirty-rectangle queue *)

(** A send of a whole buffer is one logged call; a working transport with
    room for it queues exactly the buffer. *)
Lemma libivc_send_whole (c : libivc_client) (buf : list byte) (len : Z) :
  Z.to_nat len = List.length buf ->
  exists rc c',
    libivc_send (Some c) buf len = (rc, Some c')
    /\ ivc_calls c' = ivc_calls c ++ [CallSend buf]
    /\ (ivc_open c = true -> ivc_send_rc c = 0 -> len <= ring_space c ->
        rc = 0 /\ ivc_ring c' = ivc_ring c ++ buf).
Proof.
  intros Hlen. unfold libivc_send. rewrite Hlen, firstn_all.
  destruct (ivc_send_rc c =? 0) eqn:Hrc; cbn [negb].
  - destruct (ivc_open c && (len <=? ring_space c)) eqn:Hok.
    + do 2 eexists. split; [reflexivity|]. simpl. auto.
    + do 2 eexists. split; [reflexivity|]. simpl. split; [reflexivity|].
      intros Ho _ Hs. rewrite Ho in Hok. apply Z.leb_le in Hs.
      rewrite Hs in Hok. discriminate.
  - do 2 eexists. split; [reflexivity|]. simpl. split; [reflexivity|].
    intros _ H0. rewrite H0 in Hrc. discriminate.
Qed.

Lemma dirty_rectangle_bytes_length x y w h :
  List.length (Provider.dirty_rectangle_bytes x y w h) = 16%nat.
Proof. reflexivity. Qed.

(** C3.  Dirty-rectangle overrun policy.  On a display with a
    dirty-rectangles connection whose space query is answered,
    [invalidate_region] writes nothing and returns [-EAGAIN] when fewer than
    16 bytes are free; with at least 16 but fewer than 32 bytes free it
    passes to the transport, in one send and with no header or footer, the
    16-byte record (0, 0, display.width, display.height); otherwise it passes
    the caller's 16-byte record.  The return code is that of the send, and an
    open, working channel ends up with exactly the record appended. *)
Theorem invalidate_region_overrun_policy
  (user : Provider.display_user_code) (display : Provider.pv_display)
  (x y width height : Z) (c : libivc_client) (w : world) :
  Provider.dirty_rectangles_connection display = Some c ->
  ivc_query_rc c = 0 ->
  let emitted record :=
    exists rc c',
      Provider.pv_display_invalidate_region user display x y width height w
      = Done (rc, Provider.with_dirty_rectangles_connection display (Some c')) w
      /\ List.length record = 16%nat
      /\ ivc_calls c' = ivc_calls c ++ [CallSend record]
      /\ (ivc_open c = true -> ivc_send_rc c = 0 ->
          rc = 0 /\ ivc_ring c' = ivc_ring c ++ record) in
  (ring_space c < 16 ->
   Provider.pv_display_invalidate_region user display x y width height w
   = Done (- EAGAIN, display) w)
  /\ (16 <= ring_space c < 32 ->
      emitted (Provider.dirty_rectangle_bytes
                 0 0 (Provider.width display) (Provider.height display)))
  /\ (32 <= ring_space c ->
      emitted (Provider.dirty_rectangle_bytes x y width height)).
Proof.
  intros Hconn Hq emitted. subst emitted. cbv beta.
  assert (Hsend : forall a b cc d, 16 <= ring_space c ->
            exists rc c',
              libivc_send (Some c) (Provider.dirty_rectangle_bytes a b cc d) 16
              = (rc, Some c')
              /\ List.length (Provider.dirty_rectangle_bytes a b cc d) = 16%nat
              /\ ivc_calls c'
                 = ivc_calls c ++ [CallSend (Provider.dirty_rectangle_bytes a b cc d)]
              /\ (ivc_open c = true -> ivc_send_rc c = 0 ->
                  rc = 0 /\ ivc_ring c'
                            = ivc_ring c ++ Provider.dirty_rectangle_bytes a b cc d)).
  { intros a b cc d Hs.
    destruct (libivc_send_whole c (Provider.dirty_rectangle_bytes a b cc d) 16)
      as (rc & c' & H1 & H2 & H3); [reflexivity|].
    exists rc, c'. repeat split; auto; apply H3; auto. }
  unfold Provider.pv_display_invalidate_region. rewrite Hconn.
  unfold libivc_getAvailableSpace. rewrite Hq.
  change (negb (0 =? 0)) with false. cbv beta iota.
  unfold sizeof_dh_dirty_rectangle.
  split; [|split].
  - intros Hs. apply Z.ltb_lt in Hs. rewrite Hs. reflexivity.
  - intros [Hlo Hhi].
    assert (H16 : (ring_space c <? 16) = false) by (apply Z.ltb_ge; lia).
    assert (H32 : (ring_space c <? 16 * 2) = true) by (apply Z.ltb_lt; lia).
    rewrite H16, H32.
    destruct (Hsend 0 0 (Provider.width display) (Provider.height display) Hlo)
      as (rc & c' & H1 & H2 & H3 & H4).
    exists rc, c'. rewrite H1. auto.
  - intros Hlo.
    assert (H16 : (ring_space c <? 16) = false) by (apply Z.ltb_ge; lia).
    assert (H32 : (ring_space c <? 16 * 2) = false) by (apply Z.ltb_ge; lia).
    rewrite H16, H32.
    destruct (Hsend x y width height) as (rc & c' & H1 & H2 & H3 & H4); [lia|].
    exists rc, c'. rewrite H1. auto.
Qed.

(** [invalidate_region(10, 10, 5, 5)] with 20 bytes free queues the record
    of the whole screen. *)
Lemma invalidate_region_overrun_policy_witness :
  exists rc c',
    Provider.pv_display_invalidate_region Provider.returning_handler
      full_hd_display 10 10 5 5 quiet_world
    = Done (rc, Provider.with_dirty_rectangles_connection full_hd_display
                  (Some c')) quiet_world
    /\ List.length (Provider.dirty_rectangle_bytes 0 0 1920 1080) = 16%nat
    /\ ivc_calls c'
       = ivc_calls nearly_full_ring
           ++ [CallSend (Provider.dirty_rectangle_bytes 0 0 1920 1080)]
    /\ (ivc_open nearly_full_ring = true -> ivc_send_rc nearly_full_ring = 0 ->
        rc = 0 /\ ivc_ring c' = ivc_ring nearly_full_ring
                                 ++ Provider.dirty_rectangle_bytes 0 0 1920 1080).
Proof.
  destruct (invalidate_region_overrun_policy Provider.returning_handler
              full_hd_display 10 10 5 5 nearly_full_ring quiet_world
              eq_refl eq_refl) as (_ & Hfull & _).
  apply Hfull. vm_compute. split; [discriminate | reflexivity].
Defined.

(** ** Receiving a packet body *)

Lemma libivc_recv_enough (c : libivc_client) (len : Z) :
  ivc_recv_rc c = 0 -> 0 <= len <= ring_data c ->
  libivc_recv (Some c) len = (0, oldest c len, Some (after_read c len)).
Proof.
  intros Hrc [H0 Hlen]. unfold libivc_recv. rewrite Hrc.
  apply Z.leb_le in Hlen. rewrite Hlen. reflexivity.
Qed.

Lemma oldest_length (c : libivc_client) (len : Z) :
  0 <= len <= ring_data c -> List.length (oldest c len) = Z.to_nat len.
Proof.
  intros H. unfold oldest, ring_data in *. apply firstn_length_le. lia.
Qed.

Lemma receive_buffer_filled (c : libivc_client) (len : Z) :
  0 <= len <= ring_data c -> store (zeroed len) 0 (oldest c len) = oldest c len.
Proof.
  intros H. apply store_whole. rewrite zeroed_length, oldest_length; auto.
Qed.

Ltac receive_step Hc Harr :=
  destruct Harr as (Hq & Hr & Hmem & Hlen & Hdata);
  cbv zeta; unfold sizeof_dh_footer;
  rewrite Hc; unfold libivc_getAvailableData; rewrite Hq;
  change (negb (0 =? 0)) with false; cbv beta iota;
  rewrite to_size_t_small by lia;
  match goal with
  | |- context [?a <? ?b] =>
    replace (a <? b) with false by (symmetry; apply Z.ltb_ge; lia)
  end;
  unfold bind at 1; rewrite malloc_ok by assumption;
  rewrite libivc_recv_enough by (auto; lia);
  rewrite receive_buffer_filled by lia;
  change (negb (0 =? 0)) with false; cbv beta iota.

(** The provider's control receiver, from the CRC check on, whatever the
    completed packet is handed to. *)
Lemma provider_receive_body_via
  (dispatch : Provider.pv_display_provider -> dh_header -> list byte
              -> M unit)
  (provider : Provider.pv_display_provider) (c : libivc_client) (w : world) :
  Provider.control_channel provider = Some c ->
  body_arrived (Provider.current_packet_header provider) c w ->
  let header := Provider.current_packet_header provider in
  let need := h_length header + 8 in
  let buffer := oldest c need in
  let provider' :=
    Provider.with_header
      (Provider.with_control_channel provider (Some (after_read c need)))
      (set_length header 0) in
  Provider.receive_control_packet_via dispatch provider w
  = if crc_matches header buffer
    then (dispatch provider' (Provider.current_packet_header provider')
                   buffer ;;;
          pv_helper_free ;;; ret (true, provider'))
           (log w [EvMalloc need])
    else (pv_display_error "CRC did not match for a control packet" ;;;
          pv_helper_free ;;;
          Provider.__trigger_fatal_error_on_provider provider' ;;;
          ret (false, provider'))
           (log w [EvMalloc need]).
Proof.
  intros Hc Harr. unfold Provider.receive_control_packet_via.
  receive_step Hc Harr.
  unfold crc_matches. cbn [Provider.current_packet_header
    Provider.with_control_channel Provider.with_header].
  destruct (_ =? _); reflexivity.
Qed.

(** The provider's control receiver, from the CRC check on. *)
Lemma provider_receive_body (provider : Provider.pv_display_provider)
  (c : libivc_client) (w : world) :
  Provider.control_channel provider = Some c ->
  body_arrived (Provider.current_packet_header provider) c w ->
  let header := Provider.current_packet_header provider in
  let need := h_length header + 8 in
  let buffer := oldest c need in
  let provider' :=
    Provider.with_header
      (Provider.with_control_channel provider (Some (after_read c need)))
      (set_length header 0) in
  Provider.__try_to_receive_control_packet provider w
  = if crc_matches header buffer
    then (Provider.__handle_control_packet_receipt
            provider' (Provider.current_packet_header provider') buffer ;;;
          pv_helper_free ;;; ret (true, provider'))
           (log w [EvMalloc need])
    else (pv_display_error "CRC did not match for a control packet" ;;;
          pv_helper_free ;;;
          Provider.__trigger_fatal_error_on_provider provider' ;;;
          ret (false, provider'))
           (log w [EvMalloc need]).
Proof.
  intros Hc Harr. unfold Provider.__try_to_receive_control_packet.
  apply provider_receive_body_via; assumption.
Qed.

(** The consumer's control receiver, from the CRC check on, whatever the
    completed packet is handed to. *)
Lemma consumer_receive_body_via
  (dispatch : Backend.pv_display_consumer -> dh_header -> list byte
              -> M unit)
  (consumer : Backend.pv_display_consumer) (c : libivc_client) (w : world) :
  Backend.control_channel consumer = Some c ->
  body_arrived (Backend.current_packet_header consumer) c w ->
  let header := Backend.current_packet_header consumer in
  let need := h_length header + 8 in
  let buffer := oldest c need in
  let consumer' :=
    Backend.with_header
      (Backend.with_control_channel consumer (Some (after_read c need)))
      (set_length header 0) in
  Backend.receive_control_packet_via dispatch consumer w
  = if crc_matches header buffer
    then (dispatch consumer' (Backend.current_packet_header consumer')
                   buffer ;;;
          pv_helper_free ;;; ret (true, consumer'))
           (log w [EvMalloc need])
    else (pv_display_error "CRC did not match for a control packet" ;;;
          pv_helper_free ;;;
          Backend.__trigger_fatal_error_on_consumer true consumer' ;;;
          ret (false, consumer'))
           (log w [EvMalloc need]).
Proof.
  intros Hc Harr. unfold Backend.receive_control_packet_via.
  receive_step Hc Harr.
  unfold crc_matches. cbn [Backend.current_packet_header
    Backend.with_control_channel Backend.with_header].
  destruct (_ =? _); reflexivity.
Qed.

(** The consumer's control receiver, from the CRC check on. *)
Lemma consumer_receive_body (consumer : Backend.pv_display_consumer)
  (c : libivc_client) (w : world) :
  Backend.control_channel consumer = Some c ->
  body_arrived (Backend.current_packet_header consumer) c w ->
  let header := Backend.current_packet_header consumer in
  let need := h_length header + 8 in
  let buffer := oldest c need in
  let consumer' :=
    Backend.with_header
      (Backend.with_control_channel consumer (Some (after_read c need)))
      (set_length header 0) in
  Backend.__try_to_receive_control_packet consumer w
  = if crc_matches header buffer
    then (Backend.__handle_control_packet_receipt
            consumer' (Backend.current_packet_header consumer') buffer ;;;
          pv_helper_free ;;; ret (true, consumer'))
           (log w [EvMalloc need])
    else (pv_display_error "CRC did not match for a control packet" ;;;
          pv_helper_free ;;;
          Backend.__trigger_fatal_error_on_consumer true consumer' ;;;
          ret (false, consumer'))
           (log w [EvMalloc need]).
Proof.
  intros Hc Harr. unfold Backend.__try_to_receive_control_packet.
  apply consumer_receive_body_via; assumption.
Qed.

(** The consumer's per-display event receiver, from the CRC check on. *)
Lemma backend_receive_body (display : Backend.pv_display_backend)
  (c : libivc_client) (w : world) :
  Backend.event_connection display = Some c ->
  body_arrived (Backend.display_packet_header display) c w ->
  let header := Backend.display_packet_header display in
  let need := h_length header + 8 in
  let buffer := oldest c need in
  let display' :=
    Backend.with_display_header
      (Backend.with_event_connection display (Some (after_read c need)))
      (set_length header 0) in
  Backend.__try_to_receive_event_packet display w
  = if crc_matches header buffer
    then (Backend.__handle_event_packet_receipt
            display' (Backend.display_packet_header display') buffer ;;;
          pv_helper_free ;;; ret (true, display'))
           (log w [EvMalloc need])
    else (pv_display_error "CRC did not match for a control packet" ;;;
          pv_helper_free ;;;
          ret (false, display'))
           (log w [EvMalloc need]).
Proof.
  intros Hc Harr. unfold Backend.__try_to_receive_event_packet.
  receive_step Hc Harr.
  unfold crc_matches. cbn [Backend.display_packet_header
    Backend.with_event_connection Backend.with_display_header].
  destruct (_ =? _); reflexivity.
Qed.

(** ** Dispatch after the header has been invalidated *)

(** C9.  For a control packet that passes the CRC check, on the provider's
    and on the consumer's control channel alike, the receiver first sets
    [current_packet_header.length] to 0 and then hands that same header to
    the packet-type handler.  Whatever function stands in the place of
    [__handle_control_packet_receipt], it is run once, on the header as it
    is stored in the receiver afterwards, whose length is 0 and whose type
    is still the received packet's type, and on the received bytes; the
    buffer is released when it has returned.  With the dispatcher of the
    code in that place, an add-display packet enters the provider's
    add-display handler and a driver-capabilities packet the consumer's
    driver-capabilities handler, each on the received bytes. *)
Theorem dispatched_header_has_zero_length
  (observe_p : Provider.pv_display_provider -> dh_header -> list byte
               -> M unit)
  (observe_c : Backend.pv_display_consumer -> dh_header -> list byte
               -> M unit)
  (provider : Provider.pv_display_provider)
  (consumer : Backend.pv_display_consumer)
  (cp cc : libivc_client) (w : world) (on_add on_capabilities : nat) :
  Provider.control_channel provider = Some cp ->
  body_arrived (Provider.current_packet_header provider) cp w ->
  crc_matches (Provider.current_packet_header provider)
    (oldest cp (h_length (Provider.current_packet_header provider) + 8))
  = true ->
  Backend.control_channel consumer = Some cc ->
  body_arrived (Backend.current_packet_header consumer) cc w ->
  crc_matches (Backend.current_packet_header consumer)
    (oldest cc (h_length (Backend.current_packet_header consumer) + 8))
  = true ->
  (exists provider',
     let seen := Provider.current_packet_header provider' in
     let need := h_length (Provider.current_packet_header provider) + 8 in
     h_length seen = 0
     /\ h_type seen = h_type (Provider.current_packet_header provider)
     /\ Provider.receive_control_packet_via observe_p provider w
        = (observe_p provider' seen (oldest cp need) ;;;
           pv_helper_free ;;; ret (true, provider'))
            (log w [EvMalloc need])
     /\ (h_type seen = PACKET_TYPE_CONTROL_ADD_DISPLAY ->
         Provider.add_display_handler provider = Some on_add ->
         Provider.__try_to_receive_control_packet provider w
         = Done (true, provider')
                (log w [EvMalloc need;
                        EvCall on_add [APtr (oldest cp need)];
                        EvFree])))
  /\ (exists consumer',
     let seen := Backend.current_packet_header consumer' in
     let need := h_length (Backend.current_packet_header consumer) + 8 in
     h_length seen = 0
     /\ h_type seen = h_type (Backend.current_packet_header consumer)
     /\ Backend.receive_control_packet_via observe_c consumer w
        = (observe_c consumer' seen (oldest cc need) ;;;
           pv_helper_free ;;; ret (true, consumer'))
            (log w [EvMalloc need])
     /\ (h_type seen = PACKET_TYPE_CONTROL_DRIVER_CAPABILITIES ->
         Backend.driver_capabilities_handler consumer = Some on_capabilities ->
         Backend.__try_to_receive_control_packet consumer w
         = Done (true, consumer')
                (log w [EvMalloc need;
                        EvCall on_capabilities [APtr (oldest cc need)];
                        EvFree]))).
Proof.
  intros Hp Hparr Hpcrc Hc Hcarr Hccrc. split.
  - exists (Provider.with_header
              (Provider.with_control_channel provider
                 (Some (after_read cp
                          (h_length (Provider.current_packet_header provider)
                           + 8))))
              (set_length (Provider.current_packet_header provider) 0)).
    cbv zeta. split; [reflexivity|]. split; [reflexivity|]. split.
    + rewrite (provider_receive_body_via observe_p provider cp w Hp Hparr).
      cbv zeta. rewrite Hpcrc. reflexivity.
    + intros Htype Hhandler.
      rewrite (provider_receive_body provider cp w Hp Hparr).
      cbv zeta. rewrite Hpcrc.
      unfold Provider.__handle_control_packet_receipt.
      rewrite Htype. cbn [Z.eqb Pos.eqb PACKET_TYPE_CONTROL_ADD_DISPLAY
        PACKET_TYPE_CONTROL_HOST_DISPLAY_LIST].
      unfold Provider.__handle_add_display_request.
      cbn [Provider.add_display_handler Provider.with_header
           Provider.with_control_channel].
      rewrite Hhandler.
      unfold bind, call_user, pv_helper_free, ret.
      rewrite !emit_log, !log_log. reflexivity.
  - exists (Backend.with_header
              (Backend.with_control_channel consumer
                 (Some (after_read cc
                          (h_length (Backend.current_packet_header consumer)
                           + 8))))
              (set_length (Backend.current_packet_header consumer) 0)).
    cbv zeta. split; [reflexivity|]. split; [reflexivity|]. split.
    + rewrite (consumer_receive_body_via observe_c consumer cc w Hc Hcarr).
      cbv zeta. rewrite Hccrc. reflexivity.
    + intros Htype Hhandler.
      rewrite (consumer_receive_body consumer cc w Hc Hcarr).
      cbv zeta. rewrite Hccrc.
      unfold Backend.__handle_control_packet_receipt.
      rewrite Htype. cbn [Z.eqb Pos.eqb
        PACKET_TYPE_CONTROL_DRIVER_CAPABILITIES].
      unfold Backend.__handle_guest_driver_capabilities_event.
      cbn [Backend.driver_capabilities_handler Backend.with_header
           Backend.with_control_channel].
      rewrite Hhandler.
      unfold bind, call_user, pv_helper_free, ret.
      rewrite !emit_log, !log_log. reflexivity.
Qed.

Lemma dispatched_header_has_zero_length_witness :
  let provider := provider_mid_packet add_display_packet in
  let consumer := consumer_mid_packet capabilities_packet in
  let cp := channel_holding (skipn 16 add_display_packet) in
  let cc := channel_holding (skipn 16 capabilities_packet) in
  (exists provider',
     let seen := Provider.current_packet_header provider' in
     let need := h_length (Provider.current_packet_header provider) + 8 in
     h_length seen = 0
     /\ h_type seen = h_type (Provider.current_packet_header provider)
     /\ Provider.receive_control_packet_via header_probe provider quiet_world
        = (header_probe provider' seen (oldest cp need) ;;;
           pv_helper_free ;;; ret (true, provider'))
            (log quiet_world [EvMalloc need])
     /\ (h_type seen = PACKET_TYPE_CONTROL_ADD_DISPLAY ->
         Provider.add_display_handler provider = Some 2%nat ->
         Provider.__try_to_receive_control_packet provider quiet_world
         = Done (true, provider')
                (log quiet_world [EvMalloc need;
                                  EvCall 2 [APtr (oldest cp need)];
                                  EvFree])))
  /\ (exists consumer',
     let seen := Backend.current_packet_header consumer' in
     let need := h_length (Backend.current_packet_header consumer) + 8 in
     h_length seen = 0
     /\ h_type seen = h_type (Backend.current_packet_header consumer)
     /\ Backend.receive_control_packet_via header_probe consumer quiet_world
        = (header_probe consumer' seen (oldest cc need) ;;;
           pv_helper_free ;;; ret (true, consumer'))
            (log quiet_world [EvMalloc need])
     /\ (h_type seen = PACKET_TYPE_CONTROL_DRIVER_CAPABILITIES ->
         Backend.driver_capabilities_handler consumer = Some 1%nat ->
         Backend.__try_to_receive_control_packet consumer quiet_world
         = Done (true, consumer')
                (log quiet_world [EvMalloc need;
                                  EvCall 1 [APtr (oldest cc need)];
                                  EvFree]))).
Proof.
  apply (dispatched_header_has_zero_length
           header_probe header_probe
           (provider_mid_packet add_display_packet)
           (consumer_mid_packet capabilities_packet)
           (channel_holding (skipn 16 add_display_packet))
           (channel_holding (skipn 16 capabilities_packet))
           quiet_world 2%nat 1%nat).
  - reflexivity.
  - unfold body_arrived. vm_compute. intuition discriminate.
  - vm_compute. reflexivity.
  - reflexivity.
  - unfold body_arrived. vm_compute. intuition discriminate.
  - vm_compute. reflexivity.
Defined.

(** ** CRC mismatch on the three receivers *)

(** On the provider's control channel a CRC mismatch zeroes the in-progress
    length, frees the buffer and enters the registered fatal-error handler. *)
Lemma provider_crc_mismatch_is_fatal (provider : Provider.pv_display_provider)
  (c : libivc_client) (w : world) (handler : nat) :
  Provider.control_channel provider = Some c ->
  body_arrived (Provider.current_packet_header provider) c w ->
  Provider.fatal_error_handler provider = Some handler ->
  crc_matches (Provider.current_packet_header provider)
    (oldest c (h_length (Provider.current_packet_header provider) + 8))
  = false ->
  exists provider',
    Provider.__try_to_receive_control_packet provider w
    = Done (false, provider')
           (log w [EvMalloc (h_length (Provider.current_packet_header provider) + 8);
                   EvError "CRC did not match for a control packet";
                   EvFree; EvCall handler []])
    /\ h_length (Provider.current_packet_header provider') = 0.
Proof.
  intros Hc Harr Hh Hcrc. eexists.
  rewrite (provider_receive_body provider c w Hc Harr). cbv zeta.
  rewrite Hcrc.
  unfold bind, pv_display_error, pv_helper_free,
    Provider.__trigger_fatal_error_on_provider, call_user, ret.
  cbn [Provider.fatal_error_handler Provider.with_header
       Provider.with_control_channel]. rewrite Hh.
  rewrite !emit_log, !log_log. cbn [app]. split; reflexivity.
Qed.

(** The consumer's control channel zeroes the length and frees the buffer as
    well, and then calls [__trigger_fatal_error_on_consumer] while it holds
    [consumer->lock], which that function takes first.  Where the mutex
    cannot be taken twice the call never returns and the handler is not
    entered; where it can, the handler is entered. *)
Lemma consumer_crc_mismatch_blocks (consumer : Backend.pv_display_consumer)
  (c : libivc_client) (w : world) (handler : nat) :
  Backend.control_channel consumer = Some c ->
  body_arrived (Backend.current_packet_header consumer) c w ->
  Backend.fatal_error_handler consumer = Some handler ->
  crc_matches (Backend.current_packet_header consumer)
    (oldest c (h_length (Backend.current_packet_header consumer) + 8))
  = false ->
  let need := h_length (Backend.current_packet_header consumer) + 8 in
  (w_recursive_mutex w = false ->
   Backend.__try_to_receive_control_packet consumer w
   = Crash Deadlock
       (log w [EvMalloc need;
               EvError "CRC did not match for a control packet"; EvFree]))
  /\ (w_recursive_mutex w = true ->
      exists consumer',
        Backend.__try_to_receive_control_packet consumer w
        = Done (false, consumer')
               (log w [EvMalloc need;
                       EvError "CRC did not match for a control packet";
                       EvFree; EvCall handler [];
                       EvError " triggering consumer error"])
        /\ h_length (Backend.current_packet_header consumer') = 0).
Proof.
  intros Hc Harr Hh Hcrc need.
  rewrite (consumer_receive_body consumer c w Hc Harr). cbv zeta.
  rewrite Hcrc.
  split; intros Hkind;
    unfold bind at 1, pv_display_error; rewrite emit_log;
    unfold bind at 1, pv_helper_free; rewrite emit_log, !log_log;
    unfold bind at 1, Backend.__trigger_fatal_error_on_consumer;
    unfold bind at 1, pv_helper_lock;
    rewrite mutex_kind_log, Hkind; cbn [andb negb].
  - reflexivity.
  - eexists.
    cbn [Backend.fatal_error_handler Backend.with_header
         Backend.with_control_channel]. rewrite Hh.
    unfold bind, call_user, pv_display_error, ret.
    rewrite !emit_log, !log_log. split; reflexivity.
Qed.

(** The per-display event receiver resets the length and frees the buffer,
    and returns: no fatal-error handler is entered, whatever is registered. *)
Lemma backend_crc_mismatch_is_not_fatal (display : Backend.pv_display_backend)
  (c : libivc_client) (w : world) :
  Backend.event_connection display = Some c ->
  body_arrived (Backend.display_packet_header display) c w ->
  crc_matches (Backend.display_packet_header display)
    (oldest c (h_length (Backend.display_packet_header display) + 8))
  = false ->
  exists display',
    Backend.__try_to_receive_event_packet display w
    = Done (false, display')
           (log w [EvMalloc (h_length (Backend.display_packet_header display) + 8);
                   EvError "CRC did not match for a control packet";
                   EvFree])
    /\ h_length (Backend.display_packet_header display') = 0
    /\ Backend.display_fatal_error_handler display'
       = Backend.display_fatal_error_handler display.
Proof.
  intros Hc Harr Hcrc. eexists.
  rewrite (backend_receive_body display c w Hc Harr). cbv zeta.
  rewrite Hcrc.
  unfold bind, pv_display_error, pv_helper_free, ret.
  rewrite !emit_log, !log_log. cbn [app]. repeat split; reflexivity.
Qed.

(** C4, evaluated.  A SET_DISPLAY packet whose footer CRC was xor'd by 1
    arrives on the event channel of a display backend whose fatal-error
    handler (address 19) is registered: the receiver frees its buffer and
    zeroes the in-progress length, and no handler is entered; the handler
    stays registered.  The same damage on the provider's control channel
    enters the session's fatal-error handler (address 9).  On the
    consumer's control channel the receiver frees its buffer and then
    waits for [consumer->lock], which its own thread holds: the handler
    (address 9) is not entered and the callback does not return; only where
    the mutex lets its owner in again is the handler entered. *)
Theorem event_channel_crc_mismatch_raises_nothing :
  (exists display',
     Backend.__handle_event_channel_event 4
       (backend_holding (with_damaged_crc set_display_packet)) quiet_world
     = Done display'
         (log quiet_world
            [EvMalloc 20;
             EvError "CRC did not match for a control packet";
             EvFree])
     /\ h_length (Backend.display_packet_header display') = 0
     /\ Backend.display_fatal_error_handler display' = Some 19%nat)
  /\ trace_of (Provider.__handle_control_channel_event 4
                 (provider_holding (with_damaged_crc add_display_packet))
                 quiet_world)
     = [EvMalloc 28; EvError "CRC did not match for a control packet";
        EvFree; EvCall 9 []]
  /\ Backend.__handle_control_channel_event 4
       (consumer_holding (with_damaged_crc capabilities_packet)) quiet_world
     = Crash Deadlock
         (log quiet_world
            [EvMalloc 24;
             EvError "CRC did not match for a control packet";
             EvFree])
  /\ trace_of (Backend.__handle_control_channel_event 4
                 (consumer_holding (with_damaged_crc capabilities_packet))
                 quiet_reentrant_world)
     = [EvMalloc 24; EvError "CRC did not match for a control packet";
        EvFree; EvCall 9 []; EvError " triggering consumer error"].
Proof.
  split; [|split; [|split]].
  - eexists. split; [vm_compute; reflexivity|]. split; reflexivity.
  - vm_compute. reflexivity.
  - vm_compute. reflexivity.
  - vm_compute. reflexivity.
Qed.

(** ** Handler registration and absent handlers *)

(** Registering a display-backend handler replaces the registered one and
    nothing else. *)
Lemma display_register_replaces (d : Backend.pv_display_backend)
  (first second : option nat) :
  Backend.dirty_rectangle_handler
    (Backend.display_register_dirty_rectangle_handler
       (Backend.display_register_dirty_rectangle_handler d first) second)
  = second
  /\ Backend.set_display_handler
       (Backend.display_register_set_display_handler
          (Backend.display_register_set_display_handler d first) second)
     = second
  /\ Backend.update_cursor_handler
       (Backend.display_register_update_cursor_handler
          (Backend.display_register_update_cursor_handler d first) second)
     = second
  /\ Backend.move_cursor_handler
       (Backend.display_register_move_cursor_handler
          (Backend.display_register_move_cursor_handler d first) second)
     = second
  /\ Backend.blank_display_handler
       (Backend.display_register_blank_display_handler
          (Backend.display_register_blank_display_handler d first) second)
     = second.
Proof. repeat split. Qed.

(** An event packet for which no handler is registered is dropped: the four
    event handlers test the pointer before they use it. *)
Lemma event_without_handler_is_dropped (d : Backend.pv_display_backend)
  (request : list byte) (w : world) :
  (Backend.set_display_handler d = None ->
   Backend.__handle_set_display_request d request w = Done tt w)
  /\ (Backend.update_cursor_handler d = None ->
      Backend.__handle_update_cursor_request d request w = Done tt w)
  /\ (Backend.move_cursor_handler d = None ->
      Backend.__handle_move_cursor_request d request w = Done tt w)
  /\ (Backend.blank_display_handler d = None ->
      Backend.__handle_blank_display_request d request w = Done tt w).
Proof.
  unfold Backend.__handle_set_display_request,
    Backend.__handle_update_cursor_request,
    Backend.__handle_move_cursor_request,
    Backend.__handle_blank_display_request.
  repeat split; intros ->; reflexivity.
Qed.

(** The dirty-rectangle callback calls through the pointer without testing
    it: with a record to read and no handler registered, the call is a call
    through NULL. *)
Lemma dirty_rectangle_without_handler_crashes
  (d : Backend.pv_display_backend) (c : libivc_client) (fuel : nat)
  (w : world) :
  Backend.dirty_rectangles_connection d = Some c ->
  ivc_open c = true -> ivc_query_rc c = 0 -> 16 <= ring_data c ->
  Backend.dirty_rectangle_handler d = None ->
  Backend.__handle_dirty_rectangle_event (S fuel) d w = Crash NullCall w.
Proof.
  intros Hc Hopen Hq Hdata Hh.
  unfold Backend.__handle_dirty_rectangle_event.
  rewrite Hc. unfold libivc_getAvailableData. rewrite Hq.
  change (0 =? 0) with true. cbv beta iota.
  cbn [Backend.dirty_rectangle_loop]. rewrite Hc.
  unfold libivc_isOpen, sizeof_dh_dirty_rectangle. rewrite Hopen.
  replace (ring_data c >=? 16) with true
    by (symmetry; apply Z.geb_le; lia).
  cbn [andb].
  destruct (libivc_recv (Some c) 16) as [[rc data] client].
  cbn [Backend.dirty_rectangle_handler
       Backend.with_dirty_rectangles_connection].
  rewrite Hh. reflexivity.
Qed.

(** C6, evaluated.  With no dirty-rectangle handler registered, a record
    arriving on the dirty-rectangle channel is not dropped: the callback
    calls through the NULL pointer.  A SET_DISPLAY packet arriving on the
    same display's event channel, with no set-display handler registered,
    is dropped as the claim says. *)
Theorem dirty_rectangle_null_handler_is_called :
  Backend.__handle_dirty_rectangle_event 4 fresh_backend_with_record
    quiet_world
  = Crash NullCall quiet_world
  /\ trace_of (Backend.__handle_event_channel_event 4
                 (Backend.with_event_connection fresh_backend_with_record
                    (Some (channel_holding set_display_packet)))
                 quiet_world)
     = [EvMalloc 20; EvFree].
Proof. split; vm_compute; reflexivity. Qed.

(** ** Advertising capabilities *)

Lemma le_combine_split_small (n : nat) (z : Z) :
  0 <= z < 2 ^ (Z.of_nat n * 8) -> le_combine (le_split n z) = z.
Proof. intros H. rewrite le_combine_split. apply Z.mod_small. assumption. Qed.

Lemma driver_capabilities_roundtrip (r : Provider.dh_driver_capabilities) :
  0 <= Provider.max_displays r < 2 ^ 32 ->
  0 <= Provider.version r < 2 ^ 32 ->
  0 <= Provider.flags r < 2 ^ 32 ->
  0 <= Provider.capabilities_reserved_word r < 2 ^ 32 ->
  Provider.driver_capabilities_of_bytes (Provider.driver_capabilities_bytes r)
  = r.
Proof.
  intros Hm Hv Hf Hr. destruct r as [m v f r].
  unfold Provider.driver_capabilities_of_bytes,
    Provider.driver_capabilities_bytes.
  cbn [Provider.max_displays Provider.version Provider.flags
       Provider.capabilities_reserved_word] in *.
  rewrite (load_front (le_split 4 m)) by reflexivity.
  rewrite (load_middle (le_split 4 m) (le_split 4 v)) by reflexivity.
  rewrite (app_assoc (le_split 4 m) (le_split 4 v)).
  rewrite (load_middle (le_split 4 m ++ le_split 4 v) (le_split 4 f))
    by reflexivity.
  rewrite (app_assoc (le_split 4 m ++ le_split 4 v) (le_split 4 f)).
  rewrite <- (app_nil_r (le_split 4 r)).
  rewrite (load_middle ((le_split 4 m ++ le_split 4 v) ++ le_split 4 f)
                       (le_split 4 r) []) by reflexivity.
  rewrite !le_combine_split_small by assumption. reflexivity.
Qed.

Lemma capability_bit (x : Z) (bit i : Z) :
  0 <= bit -> 0 <= i < 32 ->
  Z.testbit (to_uint32 (Z.lor x (Z.shiftl 1 bit))) i
  = Z.testbit x i || (i =? bit).
Proof.
  intros Hb Hi. unfold to_uint32.
  rewrite Z.mod_pow2_bits_low by lia.
  rewrite Z.lor_spec, Z.shiftl_1_l, Z.pow2_bits_eqb by lia.
  rewrite (Z.eqb_sym bit i). reflexivity.
Qed.

(** C2, as the code has it.  [advertise_capabilities] sends, on an open
    control channel with room for it, a driver-capabilities packet that
    carries the caller's [max_displays], version 0x00000001, and a flags
    field of 0: the members the initializer does not name are zero, and the
    provider's capability bitmap is neither read nor changed.  That bitmap
    is OR'd on registration: bit 2 (RESIZE) by the host-display-change
    registration, bit 4 (HOTPLUG) by the add-display and remove-display
    registrations. *)
Theorem advertise_capabilities_sends_zero_flags
  (provider : Provider.pv_display_provider) (c : libivc_client)
  (max_displays : Z) (handler : option nat) (w : world) :
  Provider.control_channel provider = Some c ->
  ivc_open c = true -> ivc_query_rc c = 0 -> ivc_send_rc c = 0 ->
  40 <= ring_space c ->
  w_out_of_memory w = false ->
  0 <= max_displays < 2 ^ 32 ->
  (exists provider' c' w' payload,
     Provider.provider_advertise_capabilities provider max_displays w
     = Done (0, provider') w'
     /\ Provider.control_channel provider' = Some c'
     /\ ivc_ring c'
        = ivc_ring c
            ++ packet_bytes PACKET_TYPE_CONTROL_DRIVER_CAPABILITIES payload
     /\ Provider.driver_capabilities_of_bytes payload
        = {| Provider.max_displays := max_displays;
             Provider.version := PV_DRIVER_INTERFACE_VERSION;
             Provider.flags := 0;
             Provider.capabilities_reserved_word := 0 |}
     /\ Provider.capabilities provider' = Provider.capabilities provider)
  /\ (forall i, 0 <= i < 32 ->
      Z.testbit (Provider.capabilities
                   (Provider.provider_register_host_display_change_handler
                      provider handler)) i
      = Z.testbit (Provider.capabilities provider) i || (i =? 2))
  /\ (forall i, 0 <= i < 32 ->
      Z.testbit (Provider.capabilities
                   (Provider.provider_register_add_display_request_handler
                      provider handler)) i
      = Z.testbit (Provider.capabilities provider) i || (i =? 4))
  /\ (forall i, 0 <= i < 32 ->
      Z.testbit (Provider.capabilities
                   (Provider.provider_register_remove_display_request_handler
                      provider handler)) i
      = Z.testbit (Provider.capabilities provider) i || (i =? 4)).
Proof.
  intros Hc Hopen Hq Hs Hspace Hmem Hmax.
  split; [|repeat split; intros i Hi; apply capability_bit; lia].
  set (caps := {| Provider.max_displays := max_displays;
                  Provider.version := PV_DRIVER_INTERFACE_VERSION;
                  Provider.flags := 0;
                  Provider.capabilities_reserved_word := 0 |}).
  set (payload := Provider.driver_capabilities_bytes caps).
  assert (Hsend :
    __send_packet (Some c) PACKET_TYPE_CONTROL_DRIVER_CAPABILITIES payload 16 w
    = Done (0, libivc_notify_remote (libivc_notify_remote
                 (Some (ivc_update c (ivc_ring c ++ packet_bytes
                          PACKET_TYPE_CONTROL_DRIVER_CAPABILITIES payload)
                          (ivc_calls c ++ [CallSend (packet_bytes
                             PACKET_TYPE_CONTROL_DRIVER_CAPABILITIES payload)])))))
           (log w [EvMalloc 40; EvFree])).
  { change 16 with (Z.of_nat (List.length payload)).
    rewrite send_packet_open by (auto; vm_compute; reflexivity).
    cbv zeta. change (16 + Z.of_nat (List.length payload) + 8) with 40.
    replace (ring_space c <? 40) with false by (symmetry; apply Z.ltb_ge; lia).
    unfold libivc_send. rewrite Hs, Hopen.
    replace (40 <=? ring_space c) with true by (symmetry; apply Z.leb_le; lia).
    change (negb (0 =? 0)) with false. cbn [andb]. cbv beta iota.
    rewrite firstn_all2 by (rewrite packet_bytes_length; simpl; lia).
    reflexivity. }
  eexists. eexists. exists (log w [EvMalloc 40; EvFree]), payload.
  unfold Provider.provider_advertise_capabilities, bind. rewrite Hc.
  fold caps. fold payload. rewrite Hsend.
  change (negb (0 =? 0)) with false. cbv beta iota.
  cbn [libivc_notify_remote].
  split; [reflexivity|]. split; [reflexivity|]. split; [reflexivity|].
  split; [|reflexivity].
  subst payload. apply driver_capabilities_roundtrip; subst caps; simpl;
    try lia. vm_compute. split; [discriminate | reflexivity].
Qed.

Lemma advertise_capabilities_sends_zero_flags_witness :
  exists provider' c' w' payload,
    Provider.provider_advertise_capabilities connected_provider 2 quiet_world
    = Done (0, provider') w'
    /\ Provider.control_channel provider' = Some c'
    /\ ivc_ring c'
       = ivc_ring idle_channel
           ++ packet_bytes PACKET_TYPE_CONTROL_DRIVER_CAPABILITIES payload
    /\ Provider.driver_capabilities_of_bytes payload
       = {| Provider.max_displays := 2;
            Provider.version := PV_DRIVER_INTERFACE_VERSION;
            Provider.flags := 0;
            Provider.capabilities_reserved_word := 0 |}
    /\ Provider.capabilities provider'
       = Provider.capabilities connected_provider.
Proof.
  refine (proj1 (advertise_capabilities_sends_zero_flags connected_provider
                   idle_channel 2 None quiet_world
                   eq_refl eq_refl eq_refl eq_refl _ eq_refl _)).
  - vm_compute. discriminate.
  - vm_compute. split; [discriminate | reflexivity].
Defined.

(** C2 as stated fails.  A provider registers a host-display-change handler,
    so that its capability bitmap is DH_CAP_RESIZE, and advertises: the
    flags field of the packet on the wire is 0, not the bitmap. *)
Lemma advertised_flags_are_not_the_capabilities :
  let provider :=
    Provider.provider_register_host_display_change_handler
      connected_provider (Some 1%nat) in
  Provider.capabilities provider = DH_CAP_RESIZE
  /\ exists provider' c' w' payload,
       Provider.provider_advertise_capabilities provider 2 quiet_world
       = Done (0, provider') w'
       /\ Provider.control_channel provider' = Some c'
       /\ ivc_ring c'
          = packet_bytes PACKET_TYPE_CONTROL_DRIVER_CAPABILITIES payload
       /\ Provider.flags (Provider.driver_capabilities_of_bytes payload)
          <> Provider.capabilities provider.
Proof.
  cbv zeta. split; [reflexivity|].
  eexists. eexists. eexists.
  exists (Provider.driver_capabilities_bytes
            (Provider.mk_capabilities 2 PV_DRIVER_INTERFACE_VERSION 0 0)).
  split; [vm_compute; reflexivity|].
  split; [reflexivity|]. split; [vm_compute; reflexivity|].
  vm_compute. discriminate.
Qed.

(** ** Fatal-error notifications under chains of disconnects *)

Lemma calls_in_progress b w : calls (in_progress b w) = calls w.
Proof. reflexivity. Qed.

Lemma calls_error w msg : calls (log w [EvError msg]) = calls w.
Proof. rewrite calls_log. simpl. lia. Qed.

Lemma calls_call w fn args : calls (log w [EvCall fn args]) = S (calls w).
Proof. rewrite calls_log. simpl. lia. Qed.

(** *** Provider side: a nesting guard *)

(** While a disconnect is being handled, a further disconnect callback
    returns without entering user code. *)
Lemma provider_disconnect_nested (user : Provider.display_user_code)
  (connection : option libivc_client) (d : Provider.pv_display) (w : world) :
  w_handler_in_progress w = true ->
  exists w',
    Provider.__handle_disconnect_for_connection user connection d w
    = Done d w'
    /\ calls w' = calls w /\ w_handler_in_progress w' = true.
Proof.
  intros Hw. unfold Provider.__handle_disconnect_for_connection.
  destruct connection.
  - unfold bind, get_handler_in_progress. rewrite Hw. unfold ret. eauto.
  - unfold bind, pv_display_checkp_failed, ret. rewrite emit_log.
    eexists. split; [reflexivity|]. split; [apply calls_error | assumption].
Qed.

Lemma provider_callback_nested (user : Provider.display_user_code)
  (c : channel) (d : Provider.pv_display) (w : world) :
  w_handler_in_progress w = true ->
  exists w',
    Provider.disconnect_callback user c d w = Done d w'
    /\ calls w' = calls w /\ w_handler_in_progress w' = true.
Proof.
  intros Hw. destruct c; cbn [Provider.disconnect_callback];
    unfold Provider.__framebuffer_disconnect_handler,
      Provider.__event_disconnect_handler,
      Provider.__dirty_rectangles_disconnect_handler,
      Provider.__cursor_image_disconnect_handler;
    try (apply provider_disconnect_nested; assumption).
  unfold bind, pv_display_error. rewrite emit_log.
  destruct (provider_disconnect_nested user
              (Provider.cursor_image_connection d) d
              (log w [EvError "Hardware cursor connection broken. Forcing reconnect."]))
    as (w' & H1 & H2 & H3); [assumption|].
  exists w'. rewrite H1. rewrite calls_error in H2. auto.
Qed.

Lemma provider_callbacks_nested (user : Provider.display_user_code)
  (cs : list channel) (d : Provider.pv_display) (w : world) :
  w_handler_in_progress w = true ->
  exists w',
    Provider.run_callbacks user cs d w = Done d w'
    /\ calls w' = calls w /\ w_handler_in_progress w' = true.
Proof.
  revert w. induction cs as [|c cs IH]; intros w Hw.
  - exists w. auto.
  - cbn [Provider.run_callbacks]. unfold bind.
    destruct (provider_callback_nested user c d w Hw) as (w1 & H1 & H2 & H3).
    rewrite H1. destruct (IH w1 H3) as (w2 & H4 & H5 & H6).
    exists w2. rewrite H4. split; [reflexivity|]. split; [lia | assumption].
Qed.

(** Outside of a handler, a disconnect callback enters the registered
    handler once, whatever the handler's teardown provokes, and leaves the
    guard open again. *)
Lemma provider_disconnect_top (script : nat -> list channel) (fuel : nat)
  (connection : option libivc_client) (d : Provider.pv_display) (w : world) :
  w_handler_in_progress w = false ->
  exists w',
    Provider.__handle_disconnect_for_connection
      (Provider.tearing_down script (S fuel)) connection d w
    = Done d w'
    /\ w_handler_in_progress w' = false
    /\ (calls w' <= S (calls w))%nat
    /\ (connection <> None -> Provider.display_fatal_error_handler d <> None ->
        calls w' = S (calls w)).
Proof.
  intros Hw. unfold Provider.__handle_disconnect_for_connection.
  destruct connection as [conn|].
  - unfold bind at 1, get_handler_in_progress. rewrite Hw.
    unfold bind at 1, set_handler_in_progress.
    fold (in_progress true w).
    unfold bind at 1, Provider.__trigger_fatal_error_on_display.
    destruct (Provider.display_fatal_error_handler d) as [fn|] eqn:Hh.
    + cbn [Provider.tearing_down]. unfold bind at 1, call_user.
      rewrite emit_log.
      destruct (provider_callbacks_nested
                  (Provider.tearing_down script fuel) (script fn) d
                  (log (in_progress true w) [EvCall fn []]))
        as (w1 & H1 & H2 & H3); [reflexivity|].
      rewrite H1. unfold bind, ret.
      eexists. split; [reflexivity|]. cbn [w_handler_in_progress].
      split; [reflexivity|].
      rewrite calls_call, calls_in_progress in H2.
      unfold calls in *. cbn [w_trace].
      split; [lia|]. intros _ _. lia.
    + unfold ret, bind. eexists. split; [reflexivity|].
      cbn [w_handler_in_progress]. split; [reflexivity|].
      unfold calls, in_progress. cbn [w_trace].
      split; [lia|]. intros _ H. congruence.
  - unfold bind, pv_display_checkp_failed, ret. rewrite emit_log.
    eexists. split; [reflexivity|]. split; [assumption|].
    rewrite calls_error. split; [lia|]. intros H. congruence.
Qed.

Lemma provider_callback_top (script : nat -> list channel) (fuel : nat)
  (c : channel) (d : Provider.pv_display) (w : world) :
  w_handler_in_progress w = false ->
  exists w',
    Provider.disconnect_callback (Provider.tearing_down script (S fuel)) c d w
    = Done d w'
    /\ w_handler_in_progress w' = false
    /\ (calls w' <= S (calls w))%nat
    /\ (connection_of c d <> None ->
        Provider.display_fatal_error_handler d <> None ->
        calls w' = S (calls w)).
Proof.
  intros Hw. destruct c; cbn [Provider.disconnect_callback connection_of];
    unfold Provider.__framebuffer_disconnect_handler,
      Provider.__event_disconnect_handler,
      Provider.__dirty_rectangles_disconnect_handler,
      Provider.__cursor_image_disconnect_handler;
    try (apply provider_disconnect_top; assumption).
  unfold bind, pv_display_error. rewrite emit_log.
  destruct (provider_disconnect_top script fuel
              (Provider.cursor_image_connection d) d
              (log w [EvError "Hardware cursor connection broken. Forcing reconnect."]))
    as (w' & H1 & H2 & H3 & H4); [assumption|].
  exists w'. rewrite H1. rewrite calls_error in H3, H4. auto.
Qed.

(** *** Consumer side: a latch, under a lock *)

Lemma backend_callback_is_trigger (user : Backend.backend_user_code)
  (held : bool) (c : channel) (d : Backend.pv_display_backend) :
  Backend.disconnect_callback user held c d
  = Backend.__trigger_fatal_error_on_display_backend user held d.
Proof. destruct c; reflexivity. Qed.

(** Once the handler has been taken out of the display, a disconnect
    callback that can take [fatal_lock] does nothing. *)
Lemma backend_trigger_latched (user : Backend.backend_user_code)
  (held : bool) (d : Backend.pv_display_backend) (w : world) :
  Backend.display_fatal_error_handler d = None ->
  held && negb (w_recursive_mutex w) = false ->
  Backend.__trigger_fatal_error_on_display_backend user held d w = Done d w.
Proof.
  intros Hd Hlock. unfold Backend.__trigger_fatal_error_on_display_backend.
  unfold bind, pv_helper_lock. rewrite Hlock, Hd. reflexivity.
Qed.

Lemma backend_callbacks_latched (user : Backend.backend_user_code)
  (held : bool) (cs : list channel) (d : Backend.pv_display_backend)
  (w : world) :
  Backend.display_fatal_error_handler d = None ->
  held && negb (w_recursive_mutex w) = false ->
  Backend.run_callbacks user held cs d w = Done d w.
Proof.
  intros Hd Hlock. induction cs as [|c cs IH]; [reflexivity|].
  cbn [Backend.run_callbacks]. unfold bind.
  rewrite backend_callback_is_trigger, backend_trigger_latched by assumption.
  assumption.
Qed.

(** A disconnect callback provoked on the thread that holds [fatal_lock]
    waits for it, where the mutex cannot be taken twice. *)
Lemma backend_nested_callback_blocks (user : Backend.backend_user_code)
  (c : channel) (cs : list channel) (d : Backend.pv_display_backend)
  (w : world) :
  w_recursive_mutex w = false ->
  Backend.run_callbacks user true (c :: cs) d w = Crash Deadlock w.
Proof.
  intros Hkind. cbn [Backend.run_callbacks]. unfold bind at 1.
  rewrite backend_callback_is_trigger.
  unfold Backend.__trigger_fatal_error_on_display_backend.
  unfold bind, pv_helper_lock. rewrite Hkind. reflexivity.
Qed.

(** What a chain of disconnect callbacks does to a display backend whose
    handler tears further channels down. *)
Lemma backend_teardown_outcome (script : nat -> list channel) (fuel : nat)
  (cs : list channel) (d : Backend.pv_display_backend) (w : world) :
  Backend.run_callbacks (Backend.tearing_down script (S fuel)) false cs d w
  = match Backend.display_fatal_error_handler d, cs with
    | Some fn, _ :: _ =>
      let latched := Backend.with_fatal_error_handler d None in
      match script fn with
      | [] => Done latched (log w [EvCall fn []])
      | _ :: _ =>
        if w_recursive_mutex w then Done latched (log w [EvCall fn []])
        else Crash Deadlock (log w [EvCall fn []])
      end
    | _, _ => Done d w
    end.
Proof.
  destruct (Backend.display_fatal_error_handler d) as [fn|] eqn:Hd.
  2:{ rewrite backend_callbacks_latched by (assumption || reflexivity).
      destruct cs; reflexivity. }
  destruct cs as [|c cs]; [reflexivity|].
  cbn [Backend.run_callbacks]. unfold bind at 1.
  rewrite backend_callback_is_trigger.
  unfold Backend.__trigger_fatal_error_on_display_backend.
  unfold bind at 1, pv_helper_lock. cbn [andb]. rewrite Hd.
  cbn [Backend.tearing_down]. unfold bind at 1, call_user.
  rewrite emit_log. cbv zeta.
  set (latched := Backend.with_fatal_error_handler d None).
  destruct (script fn) as [|c2 rest].
  - cbn [Backend.run_callbacks]. unfold ret.
    apply backend_callbacks_latched; reflexivity.
  - destruct (w_recursive_mutex w) eqn:Hkind.
    + rewrite backend_callbacks_latched
        by (reflexivity || (rewrite mutex_kind_log, Hkind; reflexivity)).
      apply backend_callbacks_latched; reflexivity.
    + rewrite backend_nested_callback_blocks
        by (rewrite mutex_kind_log; assumption).
      reflexivity.
Qed.

Lemma provider_callbacks_top (script : nat -> list channel) (fuel : nat)
  (cs : list channel) (d : Provider.pv_display) (w : world) :
  w_handler_in_progress w = false ->
  exists w',
    Provider.run_callbacks (Provider.tearing_down script (S fuel)) cs d w
    = Done d w'
    /\ w_handler_in_progress w' = false
    /\ (calls w' <= calls w + List.length cs)%nat
    /\ ((forall c, In c cs -> connection_of c d <> None) ->
        Provider.display_fatal_error_handler d <> None ->
        calls w' = (calls w + List.length cs)%nat).
Proof.
  revert w. induction cs as [|c cs IH]; intros w Hw.
  - exists w. cbn [Provider.run_callbacks List.length]. unfold ret.
    repeat split; auto; lia.
  - cbn [Provider.run_callbacks]. unfold bind.
    destruct (provider_callback_top script fuel c d w Hw)
      as (w1 & H1 & H2 & H3 & H4).
    rewrite H1. destruct (IH w1 H2) as (w2 & H5 & H6 & H7 & H8).
    exists w2. rewrite H5. split; [reflexivity|]. split; [assumption|].
    cbn [List.length]. split; [lia|].
    intros Hconn Hh.
    rewrite H8 by (auto; intros c' Hin; apply Hconn; right; assumption).
    rewrite H4 by (auto; apply Hconn; left; reflexivity). lia.
Qed.

(** C5, as the code has it.  On the consumer side the fatal-error handler
    of a display backend is taken out of the display before it is entered,
    so that any chain of disconnects on its four channels, with any
    teardown inside the handler, enters it at most once.  The handler runs
    with [display->fatal_lock] held: the chain returns when the handler
    provokes no further disconnect callback, or where the mutex lets its
    owner in again; where it does not, a disconnect callback provoked on
    the handler's thread from inside the handler waits for the lock for
    ever, the handler having been entered once.  On the provider side the
    guard only covers the time a handler is running: disconnects provoked
    inside the handler are absorbed, but every disconnect callback that
    arrives after the handler returned enters it again, so a chain of n
    disconnects enters the registered handler up to n times, and exactly n
    times when the channels exist and a handler is registered. *)
Theorem fatal_error_notifications
  (script : nat -> list channel) (fuel : nat) (cs : list channel)
  (backend : Backend.pv_display_backend) (display : Provider.pv_display)
  (w : world) :
  w_handler_in_progress w = false ->
  let teardown :=
    Backend.run_callbacks (Backend.tearing_down script (S fuel)) false cs
                          backend w in
  (entered teardown <= calls w + 1)%nat
  /\ (w_recursive_mutex w = true \/ (forall fn, script fn = []) ->
      exists backend' w', teardown = Done backend' w')
  /\ (forall fn,
        w_recursive_mutex w = false ->
        Backend.display_fatal_error_handler backend = Some fn ->
        script fn <> [] -> cs <> [] ->
        teardown = Crash Deadlock (log w [EvCall fn []]))
  /\ (exists w',
     Provider.run_callbacks (Provider.tearing_down script (S fuel)) cs
                            display w
     = Done display w'
     /\ (calls w' <= calls w + List.length cs)%nat
     /\ ((forall c, In c cs -> connection_of c display <> None) ->
         Provider.display_fatal_error_handler display <> None ->
         calls w' = (calls w + List.length cs)%nat)).
Proof.
  intros Hw teardown. subst teardown.
  rewrite backend_teardown_outcome.
  split; [|split; [|split]].
  - unfold entered.
    destruct (Backend.display_fatal_error_handler backend) as [fn|].
    + destruct cs as [|c cs']; [cbn [trace_of]; unfold calls; lia|].
      cbv zeta.
      assert (Hone : (calls (log w [EvCall fn []]) <= calls w + 1)%nat)
        by (rewrite calls_call; lia).
      destruct (script fn); [|destruct (w_recursive_mutex w)];
        cbn [trace_of]; exact Hone.
    + destruct cs; cbn [trace_of]; unfold calls; lia.
  - intros Hreturns.
    destruct (Backend.display_fatal_error_handler backend) as [fn|];
      [|eauto].
    destruct cs as [|c cs']; [eauto|]. cbv zeta.
    destruct Hreturns as [Hkind | Hscript].
    + rewrite Hkind. destruct (script fn); eauto.
    + rewrite Hscript. eauto.
  - intros fn Hkind Hhandler Hscript Hcs.
    rewrite Hhandler, Hkind.
    destruct cs as [|c cs']; [contradiction|]. cbv zeta.
    destruct (script fn); [contradiction | reflexivity].
  - destruct (provider_callbacks_top script fuel cs display w Hw)
      as (w' & H1 & _ & H3 & H4).
    exists w'. auto.
Qed.

Lemma fatal_error_notifications_witness :
  let teardown :=
    Backend.run_callbacks (Backend.tearing_down tears_everything_down 2)
                          false [Event] (backend_holding []) quiet_world in
  (entered teardown <= calls quiet_world + 1)%nat
  /\ (w_recursive_mutex quiet_world = true
      \/ (forall fn, tears_everything_down fn = []) ->
      exists backend' w', teardown = Done backend' w')
  /\ (forall fn,
        w_recursive_mutex quiet_world = false ->
        Backend.display_fatal_error_handler (backend_holding []) = Some fn ->
        tears_everything_down fn <> [] -> [Event] <> [] ->
        teardown = Crash Deadlock (log quiet_world [EvCall fn []]))
  /\ (exists w',
     Provider.run_callbacks
       (Provider.tearing_down tears_everything_down 2) [Event]
       full_hd_display quiet_world
     = Done full_hd_display w'
     /\ (calls w' <= calls quiet_world + List.length [Event])%nat
     /\ ((forall c, In c [Event] ->
                    connection_of c full_hd_display <> None) ->
         Provider.display_fatal_error_handler full_hd_display <> None ->
         calls w' = (calls quiet_world + List.length [Event])%nat)).
Proof.
  apply (fatal_error_notifications tears_everything_down 1
           [Event] (backend_holding []) full_hd_display
           quiet_world eq_refl).
Defined.

(** C5 as stated fails on the provider side.  The event channel and then
    the framebuffer channel of one display report their disconnect, each
    once, to a handler that provokes no further disconnect: the display's
    registered fatal-error handler (address 7) is entered twice. *)
Lemma provider_fatal_handler_entered_twice :
  exists w',
    Provider.run_callbacks
      (Provider.tearing_down tears_nothing_down 2) [Event; Framebuffer]
      full_hd_display quiet_world
    = Done full_hd_display w'
    /\ filter is_call (w_trace w') = [EvCall 7 []; EvCall 7 []]
    /\ calls w' = 2%nat.
Proof.
  eexists. split; [vm_compute; reflexivity|]. split; reflexivity.
Qed.

(** ** The cursor image *)




Section CursorRows.

(** A source image of [source_height] rows of [source_stride] bytes each. *)
Variable source : list byte.
Variables source_height source_stride : Z.
Hypothesis stride_range : 0 <= source_stride <= 256.
Hypothesis height_nonneg : 0 <= source_height.
Hypothesis source_size :
  Z.of_nat (List.length source) = source_stride * source_height.






End CursorRows.





(** ** The CRC detects every single-bit error *)

Lemma land_lxor_distr (a b c : Z) :
  Z.land (Z.lxor a b) c = Z.lxor (Z.land a c) (Z.land b c).
Proof.
  apply Z.bits_inj'. intros n Hn.
  rewrite !Z.lxor_spec, !Z.land_spec, Z.lxor_spec.
  destruct (Z.testbit a n), (Z.testbit b n), (Z.testbit c n); reflexivity.
Qed.

Lemma lxor_interchange (a b c d : Z) :
  Z.lxor (Z.lxor a b) (Z.lxor c d) = Z.lxor (Z.lxor a c) (Z.lxor b d).
Proof.
  rewrite !Z.lxor_assoc. f_equal.
  rewrite <- !Z.lxor_assoc. f_equal. apply Z.lxor_comm.
Qed.

Lemma mod_pow2_lxor (a b n : Z) :
  0 <= n -> Z.lxor a b mod 2 ^ n = Z.lxor (a mod 2 ^ n) (b mod 2 ^ n).
Proof.
  intros Hn. rewrite <- !Z.land_ones by assumption. apply land_lxor_distr.
Qed.

Lemma to_uint16_lxor a b :
  to_uint16 (Z.lxor a b) = Z.lxor (to_uint16 a) (to_uint16 b).
Proof. apply mod_pow2_lxor. lia. Qed.

Lemma to_uint8_lxor a b :
  to_uint8 (Z.lxor a b) = Z.lxor (to_uint8 a) (to_uint8 b).
Proof. apply mod_pow2_lxor. lia. Qed.

Lemma to_uint16_range z : 0 <= to_uint16 z < 2 ^ 16.
Proof. apply Z.mod_pos_bound. lia. Qed.

Lemma lxor_uint16_range a b :
  0 <= a < 2 ^ 16 -> 0 <= b < 2 ^ 16 -> 0 <= Z.lxor a b < 2 ^ 16.
Proof.
  intros Ha Hb.
  rewrite <- (Z.mod_small a (2 ^ 16)), <- (Z.mod_small b (2 ^ 16))
    by assumption.
  rewrite <- mod_pow2_lxor by lia. apply Z.mod_pos_bound. lia.
Qed.

Lemma lxor_changes (x d : Z) : d <> 0 -> Z.lxor x d <> x.
Proof.
  intros Hd H. apply Hd.
  assert (H0 : d = Z.lxor x (Z.lxor x d))
    by (rewrite <- Z.lxor_assoc, Z.lxor_nilpotent, Z.lxor_0_l; reflexivity).
  rewrite H, Z.lxor_nilpotent in H0. assumption.
Qed.

Ltac enumerate16 i :=
  let H := fresh "H" in
  assert (H : i = 0 \/ i = 1 \/ i = 2 \/ i = 3 \/ i = 4 \/ i = 5 \/ i = 6
              \/ i = 7 \/ i = 8 \/ i = 9 \/ i = 10 \/ i = 11 \/ i = 12
              \/ i = 13 \/ i = 14 \/ i = 15) by lia;
  repeat (destruct H as [H | H]); subst i.

(** The nibble table is linear over xor. *)
Lemma crc_entry_lxor (i j : Z) :
  0 <= i < 16 -> 0 <= j < 16 ->
  crc_entry (Z.lxor i j) = Z.lxor (crc_entry i) (crc_entry j).
Proof.
  intros Hi Hj. enumerate16 i; enumerate16 j; reflexivity.
Qed.

Lemma land_15_range x : 0 <= Z.land x 15 < 16.
Proof.
  change 15 with (Z.ones 4). rewrite Z.land_ones by lia.
  apply Z.mod_pos_bound. lia.
Qed.

(** One table step is linear over xor, in the state and in the data. *)
Lemma crc_step_lxor (a a' c c' : Z) :
  crc_step (Z.lxor a a') (Z.lxor c c')
  = Z.lxor (crc_step a c) (crc_step a' c').
Proof.
  unfold crc_step. fold (crc_entry (Z.land (Z.lxor (Z.lxor a a') (Z.lxor c c')) 15)).
  fold (crc_entry (Z.land (Z.lxor a c) 15)).
  fold (crc_entry (Z.land (Z.lxor a' c') 15)).
  rewrite <- to_uint16_lxor. f_equal.
  rewrite Z.shiftr_lxor, land_lxor_distr.
  rewrite (lxor_interchange a a' c c'), land_lxor_distr.
  rewrite crc_entry_lxor by apply land_15_range.
  apply lxor_interchange.
Qed.

Lemma crc_byte_unsigned crc b :
  crc_byte crc b = crc_byte_z crc (byte.unsigned b).
Proof. reflexivity. Qed.

Lemma crc_byte_z_lxor (a a' c c' : Z) :
  crc_byte_z (Z.lxor a a') (Z.lxor c c')
  = Z.lxor (crc_byte_z a c) (crc_byte_z a' c').
Proof.
  unfold crc_byte_z.
  rewrite crc_step_lxor, Z.shiftr_lxor, to_uint8_lxor.
  apply crc_step_lxor.
Qed.

Lemma crc_step_range a c : 0 <= crc_step a c < 2 ^ 16.
Proof. unfold crc_step. apply to_uint16_range. Qed.

Lemma crc_byte_range a b : 0 <= crc_byte a b < 2 ^ 16.
Proof. unfold crc_byte. apply crc_step_range. Qed.

Lemma crc_entry_low_or_large (l : Z) :
  0 <= l < 16 ->
  crc_entry l = 0 /\ l = 0 \/ 4096 <= crc_entry l < 2 ^ 16.
Proof.
  intros Hl. enumerate16 l;
    first [ left; split; reflexivity
          | right; vm_compute; split; [discriminate | reflexivity] ].
Qed.

(** A step on zero data maps no state but 0 to 0. *)
Lemma crc_step_nonzero (d : Z) :
  0 <= d < 2 ^ 16 -> d <> 0 -> crc_step d 0 <> 0.
Proof.
  intros Hd Hnz. unfold crc_step. rewrite Z.lxor_0_r.
  fold (crc_entry (Z.land d 15)).
  assert (Hlow : Z.land d 15 = d mod 16).
  { change 15 with (Z.ones 4). rewrite Z.land_ones by lia. reflexivity. }
  assert (Hhigh : Z.land (Z.shiftr d 4) 0xfff = d / 16).
  { change 0xfff with (Z.ones 12). rewrite Z.land_ones by lia.
    rewrite Z.shiftr_div_pow2 by lia. change (2 ^ 4) with 16.
    apply Z.mod_small. split.
    - apply Z.div_pos; lia.
    - apply Z.div_lt_upper_bound; lia. }
  rewrite Hlow, Hhigh.
  assert (Hh : 0 <= d / 16 < 4096).
  { split; [apply Z.div_pos; lia | apply Z.div_lt_upper_bound; lia]. }
  assert (Hl : 0 <= d mod 16 < 16) by (apply Z.mod_pos_bound; lia).
  assert (Hd16 : d = 16 * (d / 16) + d mod 16) by (apply Z.div_mod; lia).
  set (h := d / 16) in *. set (l := d mod 16) in *.
  pose proof (crc_entry_low_or_large l Hl) as Hentry.
  intros Hzero.
  assert (Hx : 0 <= Z.lxor h (crc_entry l) < 2 ^ 16).
  { apply lxor_uint16_range; [lia|]. destruct Hentry as [[-> _]|]; lia. }
  unfold to_uint16 in Hzero. rewrite Z.mod_small in Hzero by assumption.
  apply Z.lxor_eq in Hzero.
  destruct Hentry as [[He Hl0]|He]; lia.
Qed.

Lemma crc_byte_z_nonzero (d : Z) :
  0 <= d < 2 ^ 16 -> d <> 0 -> crc_byte_z d 0 <> 0.
Proof.
  intros Hd Hnz. unfold crc_byte_z.
  change (to_uint8 (Z.shiftr 0 4)) with 0.
  apply crc_step_nonzero; [apply crc_step_range|].
  apply crc_step_nonzero; assumption.
Qed.

(** Two different states stay different over the same data. *)
Lemma crc_fold_injective (m : list byte) :
  forall s s', 0 <= s < 2 ^ 16 -> 0 <= s' < 2 ^ 16 -> s <> s' ->
               fold_left crc_byte m s <> fold_left crc_byte m s'.
Proof.
  induction m as [|b m IH]; intros s s' Hs Hs' Hne; [assumption|].
  cbn [fold_left]. apply IH; try apply crc_byte_range.
  rewrite !crc_byte_unsigned.
  set (d := Z.lxor s s').
  assert (Hd : 0 <= d < 2 ^ 16) by (apply lxor_uint16_range; assumption).
  assert (Hdnz : d <> 0)
    by (intros H0; apply Hne; apply Z.lxor_eq; assumption).
  assert (Hs'd : s' = Z.lxor s d).
  { subst d. rewrite <- Z.lxor_assoc, Z.lxor_nilpotent, Z.lxor_0_l.
    reflexivity. }
  rewrite Hs'd.
  rewrite <- (Z.lxor_0_r (byte.unsigned b)) at 2.
  rewrite crc_byte_z_lxor.
  intros H. symmetry in H. revert H. apply lxor_changes.
  apply crc_byte_z_nonzero; assumption.
Qed.

Lemma flip_bit_unsigned (k : Z) (b : byte) :
  0 <= k < 8 -> byte.unsigned (flip_bit k b) = Z.lxor (byte.unsigned b) (2 ^ k).
Proof.
  intros Hk. unfold flip_bit. rewrite byte.unsigned_of_Z. unfold byte.wrap.
  rewrite mod_pow2_lxor by lia.
  rewrite (Z.mod_small (byte.unsigned b)) by apply byte.unsigned_range.
  rewrite (Z.mod_small (2 ^ k)); [reflexivity|].
  split; [apply Z.pow_nonneg; lia | apply Z.pow_lt_mono_r; lia].
Qed.

Lemma flip_bit_changes (k : Z) (b : byte) : 0 <= k < 8 -> flip_bit k b <> b.
Proof.
  intros Hk H. apply (f_equal byte.unsigned) in H.
  rewrite flip_bit_unsigned in H by assumption.
  revert H. apply lxor_changes.
  apply Z.pow_nonzero; lia.
Qed.

Lemma flip_at_length i k m : List.length (flip_at i k m) = List.length m.
Proof.
  revert i. induction m as [|b m IH]; intros [|i]; cbn; auto.
Qed.

Lemma flip_at_changes i k m :
  0 <= k < 8 -> (i < List.length m)%nat -> flip_at i k m <> m.
Proof.
  intros Hk. revert i. induction m as [|b m IH]; intros [|i] Hi; cbn in *;
    try lia.
  - intros H. injection H as H. revert H. apply flip_bit_changes. assumption.
  - intros H. injection H as H. revert H. apply IH. lia.
Qed.

Lemma flip_at_app_l i k (a b : list byte) :
  (i < List.length a)%nat -> flip_at i k (a ++ b) = flip_at i k a ++ b.
Proof.
  revert i. induction a as [|x a IH]; intros [|i] Hi; cbn in *; try lia.
  - reflexivity.
  - f_equal. apply IH. lia.
Qed.

Lemma flip_at_app_r i k (a b : list byte) :
  (List.length a <= i)%nat ->
  flip_at i k (a ++ b) = a ++ flip_at (i - List.length a) k b.
Proof.
  revert i. induction a as [|x a IH]; intros i Hi; cbn in *.
  - rewrite Nat.sub_0_r. reflexivity.
  - destruct i as [|i]; [lia|]. cbn. f_equal. apply IH. lia.
Qed.

(** The CRC state after a flipped byte differs from the state after the
    original byte. *)
Lemma crc_byte_flip (s : Z) (k : Z) (b : byte) :
  0 <= k < 8 -> crc_byte s (flip_bit k b) <> crc_byte s b.
Proof.
  intros Hk. rewrite !crc_byte_unsigned, flip_bit_unsigned by assumption.
  rewrite <- (Z.lxor_0_r s) at 1. rewrite crc_byte_z_lxor.
  apply lxor_changes.
  assert (H : k = 0 \/ k = 1 \/ k = 2 \/ k = 3 \/ k = 4 \/ k = 5 \/ k = 6
              \/ k = 7) by lia.
  repeat (destruct H as [H | H]); subst k; vm_compute; discriminate.
Qed.

Lemma crc_fold_flip (m : list byte) :
  forall (i : nat) (k : Z) (s : Z),
    0 <= k < 8 -> (i < List.length m)%nat -> 0 <= s < 2 ^ 16 ->
    fold_left crc_byte (flip_at i k m) s <> fold_left crc_byte m s.
Proof.
  induction m as [|b m IH]; intros i k s Hk Hi Hs; cbn in Hi; [lia|].
  destruct i as [|i]; cbn [flip_at fold_left].
  - apply crc_fold_injective; try apply crc_byte_range.
    apply crc_byte_flip. assumption.
  - apply IH; [assumption | lia | apply crc_byte_range].
Qed.

Lemma crc_fold_range (m : list byte) (s : Z) :
  0 <= s < 2 ^ 16 -> 0 <= fold_left crc_byte m s < 2 ^ 16.
Proof.
  revert s. induction m as [|b m IH]; intros s Hs; [assumption|].
  cbn [fold_left]. apply IH. apply crc_byte_range.
Qed.

Lemma crc_complement (x : Z) :
  0 <= x < 2 ^ 16 ->
  to_uint16 (to_int16 (Z.land (Z.lnot x) 0xffff)) = 65535 - x.
Proof.
  intros Hx.
  change (Z.land (Z.lnot x) 0xffff) with (Z.land (Z.lnot x) (Z.ones 16)).
  rewrite Z.land_ones by lia.
  assert (Hnot : Z.lnot x mod 2 ^ 16 = 65535 - x).
  { unfold Z.lnot.
    replace (Z.pred (- x)) with (65535 - x + (- 1) * 2 ^ 16) by lia.
    rewrite Z_mod_plus_full. apply Z.mod_small. lia. }
  rewrite Hnot. unfold to_int16, to_uint16.
  rewrite (Z.mod_small (65535 - x)) by lia.
  destruct (65535 - x <? 2 ^ 15).
  - apply Z.mod_small. lia.
  - replace (65535 - x - 2 ^ 16) with (65535 - x + (- 1) * 2 ^ 16) by lia.
    rewrite Z_mod_plus_full. apply Z.mod_small. lia.
Qed.

Lemma crc_of_range (m : list byte) : 0 <= crc_of m < 2 ^ 16.
Proof. unfold crc_of. apply to_uint16_range. Qed.

(** Inverting any one bit of a message changes its checksum. *)
Lemma crc_of_flip (m : list byte) (i : nat) (k : Z) :
  0 <= k < 8 -> (i < List.length m)%nat -> crc_of (flip_at i k m) <> crc_of m.
Proof.
  intros Hk Hi. unfold crc_of.
  rewrite !crc_complement by (apply crc_fold_range; lia).
  pose proof (crc_fold_flip m i k 0xffff Hk Hi ltac:(lia)). lia.
Qed.

Lemma blob_checksum_whole (m : list byte) :
  __pv_helper_blob_checksum m (Z.of_nat (List.length m)) = crc_of m.
Proof.
  unfold __pv_helper_blob_checksum, __pv_helper_checksum, crc_of.
  cbn [crc_sections]. unfold crc_section.
  rewrite Nat2Z.id, firstn_all. reflexivity.
Qed.

Lemma packet_checksum_whole (header : dh_header) (buffer : list byte)
  (len : Z) :
  __pv_helper_packet_checksum header buffer len
  = crc_of (header_bytes header ++ firstn (Z.to_nat len) buffer).
Proof.
  unfold __pv_helper_packet_checksum, __pv_helper_checksum, crc_of.
  cbn [crc_sections]. unfold crc_section, sizeof_dh_header.
  rewrite fold_left_app.
  rewrite (firstn_all2 (header_bytes header))
    by (rewrite header_bytes_length; lia).
  reflexivity.
Qed.

(** ** Headers in memory *)

Lemma header_of_header_bytes (h : dh_header) :
  0 <= h_magic1 h < 2 ^ 16 -> 0 <= h_magic2 h < 2 ^ 16 ->
  0 <= h_type h < 2 ^ 32 -> 0 <= h_length h < 2 ^ 32 ->
  0 <= h_reserved_word h < 2 ^ 32 ->
  header_of_bytes (header_bytes h) = h.
Proof.
  intros H1 H2 H3 H4 H5. destruct h as [m1 m2 ty ln rs].
  unfold header_of_bytes, header_bytes.
  cbn [h_magic1 h_magic2 h_type h_length h_reserved_word] in *.
  rewrite (load_front (le_split 2 m1)) by reflexivity.
  rewrite (load_middle (le_split 2 m1) (le_split 2 m2)) by reflexivity.
  rewrite (app_assoc (le_split 2 m1) (le_split 2 m2)).
  rewrite (load_middle (le_split 2 m1 ++ le_split 2 m2) (le_split 4 ty))
    by reflexivity.
  rewrite (app_assoc (le_split 2 m1 ++ le_split 2 m2) (le_split 4 ty)).
  rewrite (load_middle ((le_split 2 m1 ++ le_split 2 m2) ++ le_split 4 ty)
             (le_split 4 ln)) by reflexivity.
  rewrite (app_assoc ((le_split 2 m1 ++ le_split 2 m2) ++ le_split 4 ty)
             (le_split 4 ln)).
  rewrite <- (app_nil_r (le_split 4 rs)).
  rewrite (load_middle
             (((le_split 2 m1 ++ le_split 2 m2) ++ le_split 4 ty)
                ++ le_split 4 ln) (le_split 4 rs) []) by reflexivity.
  rewrite !le_combine_split_small by assumption. reflexivity.
Qed.

Lemma header_bytes_of_header (bs : list byte) :
  List.length bs = 16%nat -> header_bytes (header_of_bytes bs) = bs.
Proof.
  intros Hlen.
  do 16 (destruct bs as [|? bs]; [discriminate|]).
  destruct bs; [|discriminate].
  unfold header_bytes, header_of_bytes.
  cbn [h_magic1 h_magic2 h_type h_length h_reserved_word].
  match goal with
  | |- context [load ?l 0 2] =>
    change (load l 0 2) with (firstn 2 l);
    change (load l 2 2) with (firstn 2 (skipn 2 l));
    change (load l 4 4) with (firstn 4 (skipn 4 l));
    change (load l 8 4) with (firstn 4 (skipn 8 l));
    change (load l 12 4) with (firstn 4 (skipn 12 l))
  end.
  cbn [firstn skipn].
  rewrite (split_le_combine [_; _]), (split_le_combine [_; _]).
  rewrite (split_le_combine [_; _; _; _]), (split_le_combine [_; _; _; _]),
    (split_le_combine [_; _; _; _]).
  reflexivity.
Qed.

(** ** Flipped bits and slices *)

Lemma firstn_flip_at_before (m : list byte) :
  forall (n i : nat) k, (n <= i)%nat -> firstn n (flip_at i k m) = firstn n m.
Proof.
  induction m as [|b m IH]; intros n i k Hn; [destruct i; reflexivity|].
  destruct n as [|n]; [reflexivity|]. destruct i as [|i]; [lia|].
  cbn. f_equal. apply IH. lia.
Qed.

Lemma firstn_flip_at_within (m : list byte) :
  forall (n i : nat) k,
    (i < n)%nat -> firstn n (flip_at i k m) = flip_at i k (firstn n m).
Proof.
  induction m as [|b m IH]; intros n i k Hn.
  - destruct i; rewrite !firstn_nil; reflexivity.
  - destruct n as [|n]; [lia|]. destruct i as [|i]; cbn; [reflexivity|].
    f_equal. apply IH. lia.
Qed.

Lemma skipn_flip_at_before (m : list byte) :
  forall (n i : nat) k, (i < n)%nat -> skipn n (flip_at i k m) = skipn n m.
Proof.
  induction m as [|b m IH]; intros n i k Hn.
  - destruct i; rewrite !skipn_nil; reflexivity.
  - destruct n as [|n]; [lia|]. destruct i as [|i]; cbn; [reflexivity|].
    apply IH. lia.
Qed.

Lemma skipn_flip_at_within (m : list byte) :
  forall (n i : nat) k,
    (n <= i)%nat -> skipn n (flip_at i k m) = flip_at (i - n) k (skipn n m).
Proof.
  induction m as [|b m IH]; intros n i k Hn.
  - cbn [flip_at]. rewrite !skipn_nil. reflexivity.
  - destruct n as [|n]; [rewrite Nat.sub_0_r; reflexivity|].
    destruct i as [|i]; [lia|]. cbn. apply IH. lia.
Qed.

Lemma load_flip_at_outside (m : list byte) (off n : Z) (i : nat) k :
  0 <= off -> 0 <= n ->
  (Z.of_nat i < off \/ off + n <= Z.of_nat i) ->
  load (flip_at i k m) off n = load m off n.
Proof.
  intros Ho Hn Hi. unfold load. destruct Hi as [Hi | Hi].
  - rewrite skipn_flip_at_before by lia. reflexivity.
  - rewrite skipn_flip_at_within by lia.
    apply firstn_flip_at_before. lia.
Qed.

Lemma load_firstn (m : list byte) (len : nat) (off n : Z) :
  0 <= off -> 0 <= n -> off + n <= Z.of_nat len ->
  load (firstn len m) off n = load m off n.
Proof.
  intros Ho Hn H. unfold load.
  rewrite skipn_firstn_comm, firstn_firstn. f_equal. lia.
Qed.

Lemma firstn_then_more (m : list byte) (a b : nat) :
  firstn a m ++ firstn b (skipn a m) = firstn (a + b) m.
Proof.
  revert m. induction a as [|a IH]; intros m; [reflexivity|].
  destruct m as [|x m]; [cbn; rewrite firstn_nil; reflexivity|].
  cbn. f_equal. apply IH.
Qed.

(** ** The shape of a packet on the wire *)

Lemma firstn_app_exact (a b : list byte) (n : nat) :
  n = List.length a -> firstn n (a ++ b) = a.
Proof.
  intros ->. rewrite firstn_app, Nat.sub_diag, firstn_all. cbn.
  apply app_nil_r.
Qed.

Lemma skipn_app_exact (a b : list byte) (n : nat) :
  n = List.length a -> skipn n (a ++ b) = b.
Proof.
  intros ->. rewrite skipn_app, Nat.sub_diag, skipn_all. reflexivity.
Qed.

Section PacketShape.

Variable type : Z.
Variable payload : list byte.

Let n : nat := List.length payload.
Let hb : list byte := header_bytes (packet_header type payload).
Let cb : list byte := le_split 2 (packet_crc type payload).
Let pkt : list byte := packet_bytes type payload.

Lemma packet_firstn_header : firstn 16 pkt = hb.
Proof. apply firstn_app_exact. reflexivity. Qed.

Lemma packet_skipn_header : skipn 16 pkt = payload ++ cb ++ zeroed 6.
Proof. apply (skipn_app_exact hb). reflexivity. Qed.

Lemma packet_firstn_body : firstn (16 + n) pkt = hb ++ payload.
Proof.
  subst pkt. unfold packet_bytes. fold hb. rewrite app_assoc.
  apply firstn_app_exact. rewrite length_app. reflexivity.
Qed.

Lemma packet_skipn_body : skipn (16 + n) pkt = cb ++ zeroed 6.
Proof.
  subst pkt. unfold packet_bytes. fold hb. rewrite app_assoc.
  apply skipn_app_exact. rewrite length_app. reflexivity.
Qed.

Lemma packet_crc_field : load pkt (16 + Z.of_nat n) 2 = cb.
Proof.
  unfold load. replace (Z.to_nat (16 + Z.of_nat n)) with (16 + n)%nat by lia.
  rewrite packet_skipn_body. apply firstn_app_exact. reflexivity.
Qed.

Lemma packet_length_field : load pkt 8 4 = le_split 4 (Z.of_nat n).
Proof. reflexivity. Qed.

Lemma packet_crc_whole : packet_crc type payload = crc_of (hb ++ payload).
Proof.
  unfold packet_crc. fold hb. rewrite <- blob_checksum_whole.
  f_equal. rewrite length_app. subst hb.
  rewrite header_bytes_length. unfold sizeof_dh_header. lia.
Qed.

Lemma packet_crc_in_footer : le_combine cb = packet_crc type payload.
Proof.
  subst cb. apply le_combine_split_small.
  rewrite packet_crc_whole. apply crc_of_range.
Qed.

End PacketShape.

(** The CRC comparison of the receivers, in terms of the byte stream the
    header and the body were read from. *)
Lemma crc_matches_on_stream (bytes : list byte) (n : Z) :
  (16 <= List.length bytes)%nat ->
  h_length (header_of_bytes (firstn 16 bytes)) = n -> 0 <= n ->
  crc_matches (header_of_bytes (firstn 16 bytes)) (skipn 16 bytes)
  = (crc_of (firstn (16 + Z.to_nat n) bytes)
     =? le_combine (load bytes (16 + n) 2)).
Proof.
  intros Hlen Hn Hn0. unfold crc_matches.
  rewrite packet_checksum_whole, Hn.
  rewrite header_bytes_of_header by (apply firstn_length_le; assumption).
  rewrite firstn_then_more.
  unfold footer_of_bytes, f_crc, load.
  change (Z.to_nat 0) with 0%nat. rewrite skipn_O, skipn_skipn.
  replace (Z.to_nat (16 + n)) with (Z.to_nat n + 16)%nat by lia.
  reflexivity.
Qed.

Lemma packet_header_read (type : Z) (payload : list byte) :
  0 <= type < 2 ^ 32 -> Z.of_nat (List.length payload) < 2 ^ 32 ->
  header_of_bytes (firstn 16 (packet_bytes type payload))
  = packet_header type payload.
Proof.
  intros Ht Hn. rewrite packet_firstn_header.
  apply header_of_header_bytes; cbn; try lia.
  - vm_compute. split; [discriminate | reflexivity].
  - vm_compute. split; [discriminate | reflexivity].
Qed.

(** An intact packet passes the comparison. *)
Lemma intact_packet_passes_crc (type : Z) (payload : list byte) :
  0 <= type < 2 ^ 32 -> Z.of_nat (List.length payload) < 2 ^ 32 ->
  crc_matches (header_of_bytes (firstn 16 (packet_bytes type payload)))
              (skipn 16 (packet_bytes type payload)) = true.
Proof.
  intros Ht Hn.
  rewrite (crc_matches_on_stream _ (Z.of_nat (List.length payload))).
  - rewrite Nat2Z.id, packet_firstn_body, packet_crc_field,
      packet_crc_in_footer, <- packet_crc_whole.
    apply Z.eqb_refl.
  - rewrite packet_bytes_length. lia.
  - rewrite packet_header_read by assumption. reflexivity.
  - lia.
Qed.

(** A packet with one covered bit flipped is read with the same length and
    fails the comparison. *)
Lemma flipped_packet_fails_crc (type : Z) (payload : list byte)
  (i : nat) (k : Z) :
  0 <= type < 2 ^ 32 -> Z.of_nat (List.length payload) < 2 ^ 32 ->
  0 <= k < 8 -> covered (List.length payload) i ->
  let flipped := flip_at i k (packet_bytes type payload) in
  h_length (header_of_bytes (firstn 16 flipped))
  = Z.of_nat (List.length payload)
  /\ crc_matches (header_of_bytes (firstn 16 flipped)) (skipn 16 flipped)
     = false.
Proof.
  intros Ht Hn Hk Hi flipped.
  set (n := List.length payload) in *.
  assert (Hlen : h_length (header_of_bytes (firstn 16 flipped)) = Z.of_nat n).
  { unfold header_of_bytes, h_length.
    rewrite load_firstn by lia. subst flipped.
    rewrite load_flip_at_outside by (unfold covered in Hi; lia).
    rewrite packet_length_field. apply le_combine_split_small. lia. }
  split; [assumption|].
  rewrite (crc_matches_on_stream _ (Z.of_nat n)); try assumption; try lia.
  2: { subst flipped. rewrite flip_at_length, packet_bytes_length. lia. }
  rewrite Nat2Z.id. apply Z.eqb_neq. subst flipped.
  destruct (Nat.lt_ge_cases i (16 + n)) as [Hin | Hout].
  - subst n. rewrite firstn_flip_at_within by assumption.
    rewrite load_flip_at_outside by lia.
    rewrite packet_firstn_body, packet_crc_field, packet_crc_in_footer,
      packet_crc_whole.
    apply crc_of_flip; [assumption|].
    rewrite length_app, header_bytes_length. lia.
  - subst n. rewrite firstn_flip_at_before by assumption.
    rewrite packet_firstn_body, <- packet_crc_whole.
    rewrite <- (packet_crc_in_footer type payload) at 1.
    unfold load.
    rewrite skipn_flip_at_within by lia.
    rewrite firstn_flip_at_within by (unfold covered in Hi; lia).
    replace (Z.to_nat (16 + Z.of_nat (List.length payload)))
      with (16 + List.length payload)%nat by lia.
    rewrite packet_skipn_body.
    rewrite firstn_app_exact by reflexivity.
    intros Heq. apply le_combine_inj in Heq.
    + symmetry in Heq. revert Heq. apply flip_at_changes; [assumption|].
      rewrite length_le_split. unfold covered in Hi. lia.
    + rewrite flip_at_length. reflexivity.
Qed.

(** ** The provider's control decoder over one packet *)

Lemma provider_same_channel (p : Provider.pv_display_provider)
  (c : libivc_client) :
  Provider.control_channel p = Some c ->
  Provider.with_control_channel p (Some c) = p.
Proof. destruct p. cbn. intros ->. reflexivity. Qed.

(** With less than a header in the ring and no packet in progress, the loop
    reads nothing and stops. *)
Lemma provider_loop_idle (fuel : nat) (continue_to_read : bool)
  (p : Provider.pv_display_provider) (c : libivc_client) (w : world) :
  Provider.control_channel p = Some c ->
  ivc_recv_rc c = 0 -> ring_data c < 16 ->
  h_length (Provider.current_packet_header p) = 0 ->
  Provider.control_channel_loop (S fuel) continue_to_read p w = Done p w.
Proof.
  intros Hc Hr Hdata Hlen. cbn [Provider.control_channel_loop].
  rewrite Hlen. change (0 =? 0) with true. cbv beta iota.
  unfold Provider.__try_to_read_header. rewrite Hc.
  unfold libivc_recv, sizeof_dh_header. rewrite Hr.
  change (negb (0 =? 0)) with false. cbv beta iota.
  replace (16 <=? ring_data c) with false by (symmetry; apply Z.leb_gt; lia).
  change (IVC_REFUSED =? SUCCESS) with false. cbv beta iota.
  rewrite (provider_same_channel p c Hc).
  unfold bind, ret. rewrite Hlen. reflexivity.
Qed.

(** An idle provider whose control ring holds exactly one packet-sized run
    of bytes: the loop reads the header, reads the body, and dispatches or
    rejects according to the CRC comparison; then it stops. *)
Lemma provider_decodes_one_packet (fuel : nat)
  (p : Provider.pv_display_provider) (c : libivc_client) (w : world) :
  Provider.control_channel p = Some c ->
  ivc_query_rc c = 0 -> ivc_recv_rc c = 0 -> w_out_of_memory w = false ->
  h_length (Provider.current_packet_header p) = 0 ->
  let header := header_of_bytes (firstn 16 (ivc_ring c)) in
  let need := h_length header + 8 in
  1 <= h_length header < 2 ^ 32 ->
  ring_data c = 16 + need ->
  let body := skipn 16 (ivc_ring c) in
  let p' :=
    Provider.with_header (Provider.with_control_channel p (Some (drained c)))
                         (set_length header 0) in
  Provider.__handle_control_channel_event (S (S fuel)) p w
  = if crc_matches header body
    then (Provider.__handle_control_packet_receipt p' (set_length header 0)
                                                   body ;;;
          pv_helper_free ;;; ret p') (log w [EvMalloc need])
    else (pv_display_error "CRC did not match for a control packet" ;;;
          pv_helper_free ;;;
          Provider.__trigger_fatal_error_on_provider p' ;;;
          ret p') (log w [EvMalloc need]).
Proof.
  intros Hc Hq Hr Hmem Hlen header need Hn Hdata body p'.
  unfold Provider.__handle_control_channel_event.
  cbn [Provider.control_channel_loop].
  rewrite Hlen. change (0 =? 0) with true. cbv beta iota.
  (* the header *)
  unfold Provider.__try_to_read_header at 1. rewrite Hc.
  rewrite libivc_recv_enough by (unfold sizeof_dh_header; auto; lia).
  change (0 =? SUCCESS) with true. cbv beta iota.
  unfold oldest, sizeof_dh_header. change (Z.to_nat 16) with 16%nat.
  fold header.
  set (c1 := after_read c 16).
  set (p1 := Provider.with_header
               (Provider.with_control_channel p (Some c1)) header).
  unfold bind at 1, ret at 1.
  change (h_length (Provider.current_packet_header p1)) with (h_length header).
  replace (h_length header >? 0) with true
    by (symmetry; apply Z.gtb_lt; lia).
  (* the body *)
  assert (Hring1 : ivc_ring c1 = body) by reflexivity.
  assert (Hdata1 : ring_data c1 = need).
  { unfold ring_data in *. rewrite Hring1. subst body.
    rewrite length_skipn. lia. }
  assert (Harr : body_arrived (Provider.current_packet_header p1) c1 w).
  { unfold body_arrived. cbn [Provider.current_packet_header p1
      Provider.with_header]. subst need. repeat split; auto; lia. }
  unfold bind at 1.
  rewrite (provider_receive_body p1 c1 w eq_refl Harr). cbv zeta.
  change (Provider.current_packet_header p1) with header. fold need.
  assert (Hold : oldest c1 need = body).
  { unfold oldest. rewrite Hring1. apply firstn_all2.
    unfold ring_data in Hdata1. rewrite Hring1 in Hdata1. lia. }
  assert (Hafter : after_read c1 need = drained c).
  { unfold after_read, drained. rewrite Hring1.
    rewrite skipn_all2; [reflexivity|].
    unfold ring_data in Hdata1. rewrite Hring1 in Hdata1. lia. }
  rewrite Hold, Hafter.
  change (Provider.with_header
            (Provider.with_control_channel p1 (Some (drained c)))
            (set_length header 0)) with p'.
  change (Provider.current_packet_header p') with (set_length header 0).
  destruct (crc_matches header body).
  - unfold bind.
    destruct (Provider.__handle_control_packet_receipt p'
                (set_length header 0) body (log w [EvMalloc need]))
      as [[] w1 | why w1 |]; try reflexivity.
    unfold pv_helper_free. rewrite emit_log. unfold ret. cbv beta iota.
    apply (provider_loop_idle fuel true p' (drained c));
      solve [reflexivity | assumption].
  - unfold bind, pv_display_error, pv_helper_free. rewrite !emit_log.
    destruct (Provider.__trigger_fatal_error_on_provider p' _)
      as [[] w1 | why w1 |]; reflexivity.
Qed.

(** ** Round trip and single-bit damage *)

(** [__send_packet] on an open, working channel with room for the packet. *)
(** C1, as the code has it.  A packet of any type with a payload of 1 to
    4064 bytes, encoded by [__send_packet] into an empty ring and decoded by
    the provider's control receiver from the same bytes, is dispatched once:
    the packet-type handler runs on a header of that type and on a buffer
    that starts with that payload, and nothing else is read.  If one bit of
    the encoded header other than its length field, of the payload, or of
    the footer's CRC field has been inverted, the recomputed CRC differs
    from the footer's: nothing is dispatched, the in-progress length is
    reset and the fatal-error handler is entered. *)
Theorem packet_round_trip_and_bit_flips
  (type : Z) (payload : list byte) (sender receiver : libivc_client)
  (provider : Provider.pv_display_provider) (w : world) (fuel : nat) :
  0 <= type < 2 ^ 32 ->
  1 <= Z.of_nat (List.length payload) <= 4064 ->
  ivc_open sender = true -> ivc_query_rc sender = 0 ->
  ivc_send_rc sender = 0 -> ivc_ring sender = [] ->
  16 + Z.of_nat (List.length payload) + 8 <= ivc_capacity sender ->
  w_out_of_memory w = false ->
  Provider.control_channel provider = Some receiver ->
  ivc_query_rc receiver = 0 -> ivc_recv_rc receiver = 0 ->
  h_length (Provider.current_packet_header provider) = 0 ->
  exists sender' w1,
    __send_packet (Some sender) type payload
                  (Z.of_nat (List.length payload)) w
    = Done (0, Some sender') w1
    /\ ivc_ring sender' = packet_bytes type payload
    /\ (ivc_ring receiver = ivc_ring sender' ->
        let delivered :=
          {| h_magic1 := PV_DRIVER_MAGIC1; h_magic2 := PV_DRIVER_MAGIC2;
             h_type := type; h_length := 0; h_reserved_word := 0 |} in
        let provider' :=
          Provider.with_header
            (Provider.with_control_channel provider (Some (drained receiver)))
            delivered in
        Provider.__handle_control_channel_event (S (S fuel)) provider w1
        = (Provider.__handle_control_packet_receipt provider' delivered
             (payload ++ le_split 2 (packet_crc type payload) ++ zeroed 6) ;;;
           pv_helper_free ;;; ret provider')
            (log w1 [EvMalloc (Z.of_nat (List.length payload) + 8)]))
    /\ (forall (i : nat) (k : Z),
        covered (List.length payload) i -> 0 <= k < 8 ->
        ivc_ring receiver = flip_at i k (ivc_ring sender') ->
        exists provider',
          Provider.__handle_control_channel_event (S (S fuel)) provider w1
          = Done provider'
              (log w1 ([EvMalloc (Z.of_nat (List.length payload) + 8);
                        EvError "CRC did not match for a control packet";
                        EvFree]
                       ++ match Provider.fatal_error_handler provider with
                          | Some handler => [EvCall handler []]
                          | None => []
                          end))
          /\ h_length (Provider.current_packet_header provider') = 0).
Proof.
  intros Ht Hn Hopen Hq Hs Hring Hcap Hmem Hc Hrq Hrr Hidle.
  assert (Hn32 : Z.of_nat (List.length payload) < 2 ^ 32) by lia.
  eexists. eexists. split.
  { apply send_packet_succeeds; try assumption.
    unfold ring_space. rewrite Hring. cbn [List.length]. lia. }
  set (w1 := log w _).
  assert (Hmem1 : w_out_of_memory w1 = false) by assumption.
  cbn [ivc_ring ivc_update]. rewrite Hring. cbn [app].
  split; [reflexivity|]. split.
  - intros Hrecv. cbv zeta.
    pose proof (provider_decodes_one_packet fuel provider receiver w1
                  Hc Hrq Hrr Hmem1 Hidle) as Hdec.
    cbv zeta in Hdec. rewrite Hrecv in Hdec.
    rewrite packet_header_read in Hdec by assumption.
    cbn [h_length packet_header] in Hdec.
    rewrite Hdec.
    + rewrite <- (packet_header_read type payload) by assumption.
      rewrite intact_packet_passes_crc by assumption.
      rewrite packet_header_read by assumption.
      rewrite packet_skipn_header. reflexivity.
    + lia.
    + unfold ring_data. rewrite Hrecv, packet_bytes_length. lia.
  - intros i k Hi Hk Hrecv.
    destruct (flipped_packet_fails_crc type payload i k Ht Hn32 Hk Hi)
      as [Hlen Hcrc]. cbv zeta in Hlen, Hcrc.
    pose proof (provider_decodes_one_packet fuel provider receiver w1
                  Hc Hrq Hrr Hmem1 Hidle) as Hdec.
    cbv zeta in Hdec. rewrite Hrecv, Hlen, Hcrc in Hdec.
    eexists. rewrite Hdec.
    + unfold bind, pv_display_error, pv_helper_free,
        Provider.__trigger_fatal_error_on_provider, call_user, ret.
      cbn [Provider.fatal_error_handler Provider.with_header
           Provider.with_control_channel].
      rewrite !emit_log, !log_log.
      destruct (Provider.fatal_error_handler provider).
      * rewrite emit_log, log_log. split; reflexivity.
      * split; reflexivity.
    + lia.
    + unfold ring_data. rewrite Hrecv, flip_at_length, packet_bytes_length.
      lia.
Qed.

Lemma packet_round_trip_and_bit_flips_witness :
  let type := PACKET_TYPE_CONTROL_ADD_DISPLAY in
  let payload := add_display_payload in
  let receiver := channel_holding add_display_packet in
  let provider := provider_holding add_display_packet in
  exists sender' w1,
    __send_packet (Some idle_channel) type payload
                  (Z.of_nat (List.length payload)) quiet_world
    = Done (0, Some sender') w1
    /\ ivc_ring sender' = packet_bytes type payload
    /\ (ivc_ring receiver = ivc_ring sender' ->
        let delivered :=
          {| h_magic1 := PV_DRIVER_MAGIC1; h_magic2 := PV_DRIVER_MAGIC2;
             h_type := type; h_length := 0; h_reserved_word := 0 |} in
        let provider' :=
          Provider.with_header
            (Provider.with_control_channel provider (Some (drained receiver)))
            delivered in
        Provider.__handle_control_channel_event 2 provider w1
        = (Provider.__handle_control_packet_receipt provider' delivered
             (payload ++ le_split 2 (packet_crc type payload) ++ zeroed 6) ;;;
           pv_helper_free ;;; ret provider')
            (log w1 [EvMalloc (Z.of_nat (List.length payload) + 8)]))
    /\ (forall (i : nat) (k : Z),
        covered (List.length payload) i -> 0 <= k < 8 ->
        ivc_ring receiver = flip_at i k (ivc_ring sender') ->
        exists provider',
          Provider.__handle_control_channel_event 2 provider w1
          = Done provider'
              (log w1 ([EvMalloc (Z.of_nat (List.length payload) + 8);
                        EvError "CRC did not match for a control packet";
                        EvFree]
                       ++ match Provider.fatal_error_handler provider with
                          | Some handler => [EvCall handler []]
                          | None => []
                          end))
          /\ h_length (Provider.current_packet_header provider') = 0).
Proof.
  cbv zeta.
  apply (packet_round_trip_and_bit_flips PACKET_TYPE_CONTROL_ADD_DISPLAY
           add_display_payload idle_channel
           (channel_holding add_display_packet)
           (provider_holding add_display_packet) quiet_world 0).
  - vm_compute. split; [discriminate | reflexivity].
  - vm_compute. split; discriminate.
  - reflexivity.
  - reflexivity.
  - reflexivity.
  - reflexivity.
  - vm_compute. discriminate.
  - reflexivity.
  - reflexivity.
  - reflexivity.
  - reflexivity.
  - reflexivity.
Defined.

(** C1 as stated fails in three places.
    - A packet with an empty payload is not dispatched: once its header has
      been read, the length 0 means that no packet is in progress, and the
      8 bytes of the footer stay in the ring.
    - A flipped bit in the reserved part of the footer (here bit 0 of the
      last byte of the packet) is not noticed: the packet is dispatched to
      the add-display handler.
    - A flipped bit in the length field of the header (here bit 5 of byte 8,
      which turns the length 20 into 52) makes the receiver wait for bytes
      that do not come: nothing is dispatched and nothing is rejected. *)
Lemma round_trip_and_bit_flip_exceptions :
  (let run :=
     Provider.__handle_control_channel_event 4
       (listening_provider (packet_bytes PACKET_TYPE_CONTROL_ADD_DISPLAY []))
       quiet_world in
   trace_of run = []
   /\ List.length (ring_after run Provider.control_channel) = 8%nat)
  /\ trace_of
       (Provider.__handle_control_channel_event 4
          (listening_provider (flip_at 43 0 add_display_packet)) quiet_world)
     = [EvMalloc 28;
        EvCall 2 [APtr (skipn 16 (flip_at 43 0 add_display_packet))];
        EvFree]
  /\ (let run :=
        Provider.__handle_control_channel_event 4
          (listening_provider (flip_at 8 5 add_display_packet)) quiet_world in
      trace_of run = []
      /\ List.length (ring_after run Provider.control_channel) = 28%nat).
Proof.
  cbv zeta. repeat split; vm_compute; reflexivity.
Qed.

(** * Further properties *)

(** ** Page alignment *)

Lemma page_mask_value : PAGE_MASK = 2 ^ 64 - 4096.
Proof. reflexivity. Qed.

Lemma land_page_mask (x : Z) :
  0 <= x < 2 ^ 64 -> Z.land x PAGE_MASK = x - x mod 4096.
Proof.
  intros Hx. rewrite page_mask_value.
  assert (Hmask : 2 ^ 64 - 4096 = Z.ldiff (Z.ones 64) (Z.ones 12))
    by reflexivity.
  rewrite Hmask.
  assert (Hbits : Z.land x (Z.ldiff (Z.ones 64) (Z.ones 12))
                  = Z.ldiff (Z.land x (Z.ones 64)) (Z.ones 12)).
  { apply Z.bits_inj'. intros n Hn.
    rewrite !Z.land_spec, !Z.ldiff_spec, Z.land_spec.
    destruct (Z.testbit x n), (Z.testbit (Z.ones 64) n),
      (Z.testbit (Z.ones 12) n); reflexivity. }
  rewrite Hbits, Z.land_ones, Z.mod_small, Z.ldiff_ones_r by lia.
  rewrite Z.shiftl_mul_pow2, Z.shiftr_div_pow2 by lia.
  change (2 ^ 12) with 4096.
  pose proof (Z.div_mod x 4096). lia.
Qed.

(** X1.  [align_to_next_page] rounds an address up to the next multiple of
    the page size: for every address that leaves room for one more page
    below 2^64, the result is a multiple of [PAGE_SIZE], is not below the
    address and is less than one page above it; an address that is already
    page-aligned is returned as it is. *)
Theorem align_to_next_page_rounds_up (address : Z) :
  0 <= address <= 2 ^ 64 - PAGE_SIZE ->
  let aligned := align_to_next_page address in
  aligned mod PAGE_SIZE = 0
  /\ address <= aligned < address + PAGE_SIZE
  /\ (address mod PAGE_SIZE = 0 -> aligned = address).
Proof.
  intros Ha. cbv zeta. unfold PAGE_SIZE in *.
  unfold align_to_next_page.
  change (to_size_t (Z.lnot PAGE_MASK)) with 4095.
  rewrite to_size_t_small by lia.
  rewrite land_page_mask by lia.
  pose proof (Z.mod_pos_bound (address + 4095) 4096 ltac:(lia)) as Hr.
  pose proof (Z.div_mod (address + 4095) 4096 ltac:(lia)) as Hq.
  assert (Hmul : (address + 4095 - (address + 4095) mod 4096) mod 4096 = 0).
  { replace (address + 4095 - (address + 4095) mod 4096)
      with ((address + 4095) / 4096 * 4096) by lia.
    apply Z_mod_mult. }
  split; [assumption|]. split.
  - pose proof (Z.mod_pos_bound address 4096 ltac:(lia)) as Hra.
    pose proof (Z.div_mod address 4096 ltac:(lia)) as Hqa.
    assert (Hlow : address <= address + 4095 - (address + 4095) mod 4096).
    { destruct (Z.eq_dec (address mod 4096) 0) as [H0 | Hn0].
      - assert (H : (address + 4095) mod 4096 = 4095).
        { replace (address + 4095) with (4095 + address / 4096 * 4096) by lia.
          rewrite Z_mod_plus_full. reflexivity. }
        lia.
      - assert (H : (address + 4095) mod 4096 = address mod 4096 - 1).
        { replace (address + 4095)
            with (address mod 4096 - 1 + (address / 4096 + 1) * 4096) by lia.
          rewrite Z_mod_plus_full. apply Z.mod_small. lia. }
        lia. }
    lia.
  - intros H0.
    pose proof (Z.div_mod address 4096 ltac:(lia)) as Hqa.
    assert (H : (address + 4095) mod 4096 = 4095).
    { replace (address + 4095) with (4095 + address / 4096 * 4096) by lia.
      rewrite Z_mod_plus_full. reflexivity. }
    lia.
Qed.

Lemma align_to_next_page_rounds_up_witness :
  let aligned := align_to_next_page (CURSOR_IMAGE_SIZE + 1) in
  aligned mod PAGE_SIZE = 0
  /\ CURSOR_IMAGE_SIZE + 1 <= aligned < CURSOR_IMAGE_SIZE + 1 + PAGE_SIZE
  /\ ((CURSOR_IMAGE_SIZE + 1) mod PAGE_SIZE = 0 ->
      aligned = CURSOR_IMAGE_SIZE + 1).
Proof.
  apply (align_to_next_page_rounds_up (CURSOR_IMAGE_SIZE + 1)).
  vm_compute. split; discriminate.
Defined.

(** ** The checksum over sections and over adjacent bytes *)

Lemma crc_sections_concat (sections : list (list byte)) :
  forall crc,
    crc_sections crc sections
                 (map (fun s => Z.of_nat (List.length s)) sections)
    = fold_left crc_byte (List.concat sections) crc.
Proof.
  induction sections as [|s sections IH]; intros crc; [reflexivity|].
  cbn [crc_sections map List.concat]. rewrite IH, fold_left_app.
  unfold crc_section. rewrite Nat2Z.id, firstn_all. reflexivity.
Qed.

(** X2.  The checksum of data handed over in sections is the checksum of
    the sections laid end to end: [__pv_helper_checksum] on any list of
    sections, each with its full length, returns what it returns on their
    concatenation as one section.  In particular the checksum the receivers
    compute over a header and a payload, as two sections, is the checksum
    the sender computes over the contiguous transmit buffer. *)
Theorem checksum_of_sections_is_checksum_of_whole
  (sections : list (list byte)) :
  __pv_helper_checksum sections
                       (map (fun s => Z.of_nat (List.length s)) sections)
  = __pv_helper_checksum [List.concat sections]
                         [Z.of_nat (List.length (List.concat sections))]
  /\ (forall (header : dh_header) (payload : list byte),
      __pv_helper_packet_checksum header payload
                                  (Z.of_nat (List.length payload))
      = __pv_helper_blob_checksum
          (header_bytes header ++ payload)
          (sizeof_dh_header + Z.of_nat (List.length payload))).
Proof.
  split.
  - unfold __pv_helper_checksum.
    rewrite crc_sections_concat.
    cbn [crc_sections]. unfold crc_section.
    rewrite Nat2Z.id, firstn_all. reflexivity.
  - intros header payload.
    rewrite packet_checksum_whole, Nat2Z.id, firstn_all.
    rewrite <- blob_checksum_whole, length_app, header_bytes_length.
    unfold sizeof_dh_header. f_equal. lia.
Qed.

(** The 256 byte values. *)
Lemma byte_values_complete (d : Z) :
  0 <= d < 256 -> In d (map Z.of_nat (seq 0 256)).
Proof.
  intros Hd. apply in_map_iff. exists (Z.to_nat d). split; [lia|].
  apply in_seq. lia.
Qed.

(** No difference confined to two adjacent bytes leaves the CRC state
    unchanged: checked on the 65535 differences. *)
Lemma crc_two_bytes_nonzero (d1 d2 : Z) :
  0 <= d1 < 256 -> 0 <= d2 < 256 -> (d1 <> 0 \/ d2 <> 0) ->
  crc_byte_z (crc_byte_z 0 d1) d2 <> 0.
Proof.
  intros H1 H2 Hnz.
  assert (Hall :
    forallb (fun a =>
      forallb (fun b =>
        ((a =? 0) && (b =? 0))
        || negb (crc_byte_z (crc_byte_z 0 a) b =? 0))
        (map Z.of_nat (seq 0 256)))
      (map Z.of_nat (seq 0 256)) = true) by (vm_compute; reflexivity).
  rewrite forallb_forall in Hall.
  specialize (Hall d1 (byte_values_complete d1 H1)).
  rewrite forallb_forall in Hall.
  specialize (Hall d2 (byte_values_complete d2 H2)).
  apply orb_true_iff in Hall. destruct Hall as [Hz | Hne].
  - apply andb_true_iff in Hz. destruct Hz as [Ha Hb].
    apply Z.eqb_eq in Ha, Hb. lia.
  - apply negb_true_iff, Z.eqb_neq in Hne. assumption.
Qed.

Lemma byte_lxor_range (x y : byte) :
  0 <= Z.lxor (byte.unsigned x) (byte.unsigned y) < 256.
Proof.
  pose proof (byte.unsigned_range x) as Hx.
  pose proof (byte.unsigned_range y) as Hy.
  change 256 with (2 ^ 8).
  rewrite <- (Z.mod_small (byte.unsigned x) (2 ^ 8)),
    <- (Z.mod_small (byte.unsigned y) (2 ^ 8)) by assumption.
  rewrite <- mod_pow2_lxor by lia. apply Z.mod_pos_bound. lia.
Qed.

Lemma byte_lxor_zero (x y : byte) :
  Z.lxor (byte.unsigned x) (byte.unsigned y) = 0 -> x = y.
Proof.
  intros H. apply Z.lxor_eq in H.
  rewrite <- (byte.of_Z_unsigned x), <- (byte.of_Z_unsigned y), H.
  reflexivity.
Qed.

Lemma lxor_cancel_l (x y : Z) : Z.lxor x (Z.lxor x y) = y.
Proof.
  rewrite <- Z.lxor_assoc, Z.lxor_nilpotent. apply Z.lxor_0_l.
Qed.

(** The CRC states after two different pairs of bytes differ. *)
Lemma crc_two_bytes_differ (s : Z) (x1 x2 y1 y2 : byte) :
  (x1, x2) <> (y1, y2) ->
  crc_byte (crc_byte s x1) x2 <> crc_byte (crc_byte s y1) y2.
Proof.
  intros Hne. rewrite !crc_byte_unsigned.
  set (d1 := Z.lxor (byte.unsigned x1) (byte.unsigned y1)).
  set (d2 := Z.lxor (byte.unsigned x2) (byte.unsigned y2)).
  assert (Hy1 : byte.unsigned y1 = Z.lxor (byte.unsigned x1) d1)
    by (subst d1; symmetry; apply lxor_cancel_l).
  assert (Hy2 : byte.unsigned y2 = Z.lxor (byte.unsigned x2) d2)
    by (subst d2; symmetry; apply lxor_cancel_l).
  rewrite Hy1, Hy2.
  rewrite <- (Z.lxor_0_r s) at 2.
  rewrite !crc_byte_z_lxor.
  intros H. symmetry in H. revert H. apply lxor_changes.
  apply crc_two_bytes_nonzero; try apply byte_lxor_range.
  destruct (Z.eq_dec d1 0) as [H1 | H1]; [|left; assumption].
  destruct (Z.eq_dec d2 0) as [H2 | H2]; [|right; assumption].
  exfalso. apply Hne.
  rewrite (byte_lxor_zero x1 y1 H1), (byte_lxor_zero x2 y2 H2).
  reflexivity.
Qed.

(** X3.  The checksum detects every error confined to two adjacent bytes:
    two messages of the same length that differ only in two adjacent bytes
    (in one of them, or in both; in particular in any run of up to nine
    consecutive bits) have different blob checksums. *)
Theorem blob_checksum_detects_adjacent_byte_errors
  (before after : list byte) (x1 x2 y1 y2 : byte) :
  (x1, x2) <> (y1, y2) ->
  let sent := before ++ x1 :: x2 :: after in
  let received := before ++ y1 :: y2 :: after in
  __pv_helper_blob_checksum received (Z.of_nat (List.length received))
  <> __pv_helper_blob_checksum sent (Z.of_nat (List.length sent)).
Proof.
  intros Hne sent received.
  rewrite !blob_checksum_whole. unfold crc_of.
  rewrite !crc_complement by (apply crc_fold_range; lia).
  subst sent received. rewrite !fold_left_app. cbn [fold_left].
  assert (Hs : 0 <= fold_left crc_byte before 65535 < 2 ^ 16)
    by (apply crc_fold_range; lia).
  set (s := fold_left crc_byte before 65535) in *.
  pose proof (crc_fold_injective after
                (crc_byte (crc_byte s y1) y2) (crc_byte (crc_byte s x1) x2)
                (crc_byte_range _ _) (crc_byte_range _ _)) as Hinj.
  assert (Hd : crc_byte (crc_byte s y1) y2 <> crc_byte (crc_byte s x1) x2).
  { intros H. symmetry in H. revert H. apply crc_two_bytes_differ.
    assumption. }
  specialize (Hinj Hd). lia.
Qed.

Lemma blob_checksum_detects_adjacent_byte_errors_witness :
  let sent := header_bytes (mk_header 0xC0DE 0x5AFE 4 20 0)
                ++ Byte.x01 :: Byte.x02 :: le_split 4 2000 in
  let received := header_bytes (mk_header 0xC0DE 0x5AFE 4 20 0)
                    ++ Byte.x03 :: Byte.x00 :: le_split 4 2000 in
  __pv_helper_blob_checksum received (Z.of_nat (List.length received))
  <> __pv_helper_blob_checksum sent (Z.of_nat (List.length sent)).
Proof.
  apply (blob_checksum_detects_adjacent_byte_errors
           (header_bytes (mk_header 0xC0DE 0x5AFE 4 20 0))
           (le_split 4 2000) Byte.x01 Byte.x02 Byte.x03 Byte.x00).
  discriminate.
Defined.

(** ** The transmit buffer of [__send_packet] *)

(** X4.  [__send_packet] allocates its transmit buffer before it asks the
    transport how much space is left, and releases it only after the send.
    On an open channel, with memory available: when the space query answers
    and the packet fits, the buffer is allocated and released; when the
    query fails, or the packet does not fit, the function returns with the
    buffer still allocated. *)
Theorem send_packet_releases_buffer_only_after_send
  (c : libivc_client) (type : Z) (data : list byte) (w : world) :
  Z.of_nat (List.length data) < 2 ^ 32 ->
  w_out_of_memory w = false ->
  ivc_open c = true ->
  let packet_length := 16 + Z.of_nat (List.length data) + 8 in
  let sent :=
    __send_packet (Some c) type data (Z.of_nat (List.length data)) w in
  (ivc_query_rc c = 0 -> packet_length <= ring_space c ->
   trace_of sent = w_trace w ++ [EvMalloc packet_length; EvFree])
  /\ (ivc_query_rc c <> 0 \/ ring_space c < packet_length ->
      trace_of sent = w_trace w ++ [EvMalloc packet_length]
      /\ exists rc, sent = Done (rc, Some c) (log w [EvMalloc packet_length])
                    /\ rc <> 0).
Proof.
  intros Hlen Hmem Hopen. cbv zeta. split.
  - intros Hq Hspace. rewrite send_packet_open by assumption. cbv zeta.
    replace (ring_space c <? 16 + Z.of_nat (List.length data) + 8) with false
      by (symmetry; apply Z.ltb_ge; lia).
    destruct (libivc_send _ _ _) as [rc c']. reflexivity.
  - intros Hfail.
    destruct (Z.eq_dec (ivc_query_rc c) 0) as [Hq | Hq].
    + destruct Hfail as [Hfail | Hspace]; [contradiction|].
      rewrite send_packet_open by assumption. cbv zeta.
      replace (ring_space c <? 16 + Z.of_nat (List.length data) + 8)
        with true by (symmetry; apply Z.ltb_lt; lia).
      split; [reflexivity|]. eexists. split; [reflexivity|].
      unfold ENOMEM. lia.
    + unfold __send_packet, libivc_isOpen. rewrite Hopen.
      cbn [negb]. cbv beta iota.
      unfold sizeof_dh_header, sizeof_dh_footer.
      rewrite !to_size_t_small by lia.
      unfold bind. rewrite malloc_ok by assumption.
      unfold libivc_getAvailableSpace.
      replace (ivc_query_rc c =? 0) with false
        by (symmetry; apply Z.eqb_neq; assumption).
      cbn [negb]. cbv beta iota. unfold ret.
      split; [reflexivity|]. eexists. split; [reflexivity | assumption].
Qed.

Lemma send_packet_releases_buffer_only_after_send_witness :
  let data := le_split 4 1 in
  let packet_length := 16 + Z.of_nat (List.length data) + 8 in
  let sent :=
    __send_packet (Some nearly_full_ring) PACKET_TYPE_CONTROL_TEXT_MODE data
                  (Z.of_nat (List.length data)) quiet_world in
  (ivc_query_rc nearly_full_ring = 0 ->
   packet_length <= ring_space nearly_full_ring ->
   trace_of sent = w_trace quiet_world ++ [EvMalloc packet_length; EvFree])
  /\ (ivc_query_rc nearly_full_ring <> 0
      \/ ring_space nearly_full_ring < packet_length ->
      trace_of sent = w_trace quiet_world ++ [EvMalloc packet_length]
      /\ exists rc,
          sent = Done (rc, Some nearly_full_ring)
                      (log quiet_world [EvMalloc packet_length])
          /\ rc <> 0).
Proof.
  apply (send_packet_releases_buffer_only_after_send
           nearly_full_ring PACKET_TYPE_CONTROL_TEXT_MODE (le_split 4 1)
           quiet_world).
  - vm_compute. reflexivity.
  - reflexivity.
  - reflexivity.
Defined.

(** ** Packets followed by more bytes *)

Section PacketThenMore.

Variable type : Z.
Variable payload rest : list byte.
Hypothesis type_range : 0 <= type < 2 ^ 32.
Hypothesis payload_range : Z.of_nat (List.length payload) < 2 ^ 32.

Let stream := packet_bytes type payload ++ rest.
Let body := payload ++ le_split 2 (packet_crc type payload) ++ zeroed 6.

Lemma body_length :
  List.length body = (List.length payload + 8)%nat.
Proof.
  subst body. rewrite !length_app, length_le_split, zeroed_length. lia.
Qed.

Lemma stream_header :
  header_of_bytes (firstn 16 stream) = packet_header type payload.
Proof.
  subst stream. rewrite firstn_app, packet_bytes_length.
  replace (16 - (16 + List.length payload + 8))%nat with 0%nat by lia.
  rewrite firstn_O, app_nil_r. apply packet_header_read; assumption.
Qed.

Lemma stream_after_header : skipn 16 stream = body ++ rest.
Proof.
  subst stream body. rewrite skipn_app, packet_bytes_length.
  replace (16 - (16 + List.length payload + 8))%nat with 0%nat by lia.
  rewrite skipn_O, packet_skipn_header, <- !app_assoc. reflexivity.
Qed.

Lemma stream_body :
  firstn (List.length payload + 8) (skipn 16 stream) = body.
Proof.
  rewrite stream_after_header, <- body_length. apply firstn_app_exact.
  reflexivity.
Qed.

Lemma stream_rest :
  skipn (List.length payload + 8) (skipn 16 stream) = rest.
Proof.
  rewrite stream_after_header, <- body_length. apply skipn_app_exact.
  reflexivity.
Qed.

Lemma stream_length :
  List.length stream
  = (16 + List.length payload + 8 + List.length rest)%nat.
Proof. subst stream. rewrite length_app, packet_bytes_length. lia. Qed.

Lemma stream_crc_matches :
  crc_matches (packet_header type payload) body = true.
Proof.
  pose proof (intact_packet_passes_crc type payload type_range payload_range)
    as H.
  rewrite packet_header_read, packet_skipn_header in H by assumption.
  exact H.
Qed.

End PacketThenMore.

(** ** The event decoder of a display backend *)

Lemma backend_same_events (d : Backend.pv_display_backend)
  (c : libivc_client) :
  Backend.event_connection d = Some c ->
  Backend.with_event_connection d (Some c) = d.
Proof. destruct d. cbn. intros ->. reflexivity. Qed.

(** With less than a header waiting and no packet in progress, the loop
    reads nothing and stops. *)
Lemma backend_loop_idle (fuel : nat) (continue_to_read : bool)
  (d : Backend.pv_display_backend) (c : libivc_client) (w : world) :
  Backend.event_connection d = Some c ->
  ring_data c < 16 ->
  h_length (Backend.display_packet_header d) = 0 ->
  Backend.event_channel_loop (S fuel) continue_to_read d w = Done d w.
Proof.
  intros Hc Hdata Hlen. cbn [Backend.event_channel_loop].
  rewrite Hlen. change (0 =? 0) with true. cbv beta iota.
  unfold Backend.__try_to_read_event_header. rewrite Hc.
  unfold libivc_getAvailableData, sizeof_dh_header.
  assert (Hlt : forall a, a = ring_data c \/ a = 0 -> (a >=? 16) = false).
  { intros a [-> | ->]; [|reflexivity].
    rewrite Z.geb_leb. apply Z.leb_gt. assumption. }
  rewrite Hlt by (destruct (ivc_query_rc c =? 0); auto).
  unfold bind, ret. rewrite Hlen. reflexivity.
Qed.

(** An idle display backend with at least one whole packet-sized run of
    bytes waiting: the loop reads the header and the body, and according to
    the CRC comparison dispatches and goes round again, or rejects and
    stops. *)
Lemma backend_reads_one_packet (fuel : nat) (continue_to_read : bool)
  (d : Backend.pv_display_backend) (c : libivc_client) (w : world) :
  Backend.event_connection d = Some c ->
  ivc_query_rc c = 0 -> ivc_recv_rc c = 0 -> w_out_of_memory w = false ->
  h_length (Backend.display_packet_header d) = 0 ->
  let header := header_of_bytes (firstn 16 (ivc_ring c)) in
  let need := h_length header + 8 in
  1 <= h_length header < 2 ^ 32 ->
  16 + need <= ring_data c ->
  let body := firstn (Z.to_nat need) (skipn 16 (ivc_ring c)) in
  let c' :=
    ivc_update c (skipn (Z.to_nat need) (skipn 16 (ivc_ring c)))
               (ivc_calls c) in
  let d' :=
    Backend.with_display_header
      (Backend.with_event_connection d (Some c')) (set_length header 0) in
  Backend.event_channel_loop (S fuel) continue_to_read d w
  = if crc_matches header body
    then (Backend.__handle_event_packet_receipt d' (set_length header 0)
                                                 body ;;;
          pv_helper_free ;;;
          Backend.event_channel_loop fuel true d') (log w [EvMalloc need])
    else (pv_display_error "CRC did not match for a control packet" ;;;
          pv_helper_free ;;; ret d') (log w [EvMalloc need]).
Proof.
  intros Hc Hq Hr Hmem Hlen header need Hn Hdata body c' d'.
  cbn [Backend.event_channel_loop].
  rewrite Hlen. change (0 =? 0) with true. cbv beta iota.
  (* the header *)
  unfold Backend.__try_to_read_event_header at 1. rewrite Hc.
  unfold libivc_getAvailableData. rewrite Hq.
  change (0 =? 0) with true. cbv beta iota.
  unfold sizeof_dh_header.
  replace (ring_data c >=? 16) with true
    by (symmetry; rewrite Z.geb_leb; apply Z.leb_le; lia).
  rewrite libivc_recv_enough by (auto; lia).
  change (0 =? SUCCESS) with true. cbv beta iota.
  unfold oldest. change (Z.to_nat 16) with 16%nat.
  fold header.
  set (c1 := after_read c 16).
  set (d1 := Backend.with_display_header
               (Backend.with_event_connection d (Some c1)) header).
  unfold bind at 1, ret at 1.
  change (h_length (Backend.display_packet_header d1)) with (h_length header).
  replace (h_length header >? 0) with true
    by (symmetry; apply Z.gtb_lt; lia).
  (* the body *)
  assert (Hring1 : ivc_ring c1 = skipn 16 (ivc_ring c)) by reflexivity.
  assert (Hdata1 : need <= ring_data c1).
  { unfold ring_data in *. rewrite Hring1, length_skipn. lia. }
  assert (Harr : body_arrived (Backend.display_packet_header d1) c1 w).
  { unfold body_arrived. cbn [Backend.display_packet_header d1
      Backend.with_display_header]. subst need. repeat split; auto; lia. }
  unfold bind at 1.
  rewrite (backend_receive_body d1 c1 w eq_refl Harr). cbv zeta.
  change (Backend.display_packet_header d1) with header. fold need.
  assert (Hold : oldest c1 need = body) by reflexivity.
  assert (Hafter : after_read c1 need = c') by reflexivity.
  rewrite Hold, Hafter.
  change (Backend.with_display_header
            (Backend.with_event_connection d1 (Some c'))
            (set_length header 0)) with d'.
  change (Backend.display_packet_header d') with (set_length header 0).
  destruct (crc_matches header body).
  - unfold bind.
    destruct (Backend.__handle_event_packet_receipt d'
                (set_length header 0) body (log w [EvMalloc need]))
      as [[] w1 | why w1 |]; reflexivity.
  - unfold bind, pv_display_error, pv_helper_free. rewrite !emit_log.
    reflexivity.
Qed.

(** The same, for a framed packet followed by more bytes. *)
Lemma backend_decodes_first_packet (fuel : nat) (continue_to_read : bool)
  (d : Backend.pv_display_backend) (c : libivc_client) (w : world)
  (type : Z) (payload rest : list byte) :
  Backend.event_connection d = Some c ->
  ivc_query_rc c = 0 -> ivc_recv_rc c = 0 -> w_out_of_memory w = false ->
  h_length (Backend.display_packet_header d) = 0 ->
  0 <= type < 2 ^ 32 ->
  1 <= Z.of_nat (List.length payload) < 2 ^ 32 ->
  ivc_ring c = packet_bytes type payload ++ rest ->
  let header := set_length (packet_header type payload) 0 in
  let body := payload ++ le_split 2 (packet_crc type payload) ++ zeroed 6 in
  let d' :=
    Backend.with_display_header
      (Backend.with_event_connection d
         (Some (ivc_update c rest (ivc_calls c)))) header in
  Backend.event_channel_loop (S fuel) continue_to_read d w
  = (Backend.__handle_event_packet_receipt d' header body ;;;
     pv_helper_free ;;;
     Backend.event_channel_loop fuel true d')
      (log w [EvMalloc (Z.of_nat (List.length payload) + 8)]).
Proof.
  intros Hc Hq Hr Hmem Hlen Ht Hn Hring header body d'.
  pose proof (backend_reads_one_packet fuel continue_to_read d c w
                Hc Hq Hr Hmem Hlen) as Hdec.
  cbv zeta in Hdec. rewrite Hring in Hdec.
  rewrite stream_header in Hdec by (assumption || lia).
  cbn [h_length packet_header] in Hdec.
  replace (Z.to_nat (Z.of_nat (List.length payload) + 8))
    with (List.length payload + 8)%nat in Hdec by lia.
  rewrite stream_body, stream_rest in Hdec.
  rewrite stream_crc_matches in Hdec by (assumption || lia).
  apply Hdec; [lia|].
  unfold ring_data. rewrite Hring, length_app, packet_bytes_length. lia.
Qed.

(** ** Dispatch of the four events *)

Lemma read_u32_ok (buf : list byte) (off : Z) (w : world) :
  off + 4 <= Z.of_nat (List.length buf) ->
  read_u32 buf off w = Done (le_combine (load buf off 4)) w.
Proof.
  intros H. unfold read_u32.
  replace (off + 4 <=? Z.of_nat (List.length buf)) with true
    by (symmetry; apply Z.leb_le; assumption).
  reflexivity.
Qed.

Lemma load_word_0 (a : Z) (tail : list byte) :
  uint32 a -> le_combine (load (le_split 4 a ++ tail) 0 4) = a.
Proof.
  intros Ha. rewrite load_front by reflexivity.
  apply le_combine_split_small. exact Ha.
Qed.

Lemma load_word_4 (a b : Z) (tail : list byte) :
  uint32 b ->
  le_combine (load (le_split 4 a ++ le_split 4 b ++ tail) 4 4) = b.
Proof.
  intros Hb. rewrite load_middle by reflexivity.
  apply le_combine_split_small. exact Hb.
Qed.

Lemma load_word_8 (a b c : Z) (tail : list byte) :
  uint32 c ->
  le_combine
    (load (le_split 4 a ++ le_split 4 b ++ le_split 4 c ++ tail) 8 4) = c.
Proof.
  intros Hc0.
  rewrite (app_assoc (le_split 4 a) (le_split 4 b)).
  rewrite (load_middle (le_split 4 a ++ le_split 4 b) (le_split 4 c))
    by reflexivity.
  apply le_combine_split_small. exact Hc0.
Qed.

Lemma event_payload_length (e : display_event) :
  (8 <= List.length (event_payload e) <= 12)%nat.
Proof.
  destruct e; cbn [event_payload];
    unfold Provider.set_display_bytes, Provider.move_cursor_bytes,
      Provider.blanking_bytes;
    rewrite !length_app, !length_le_split; lia.
Qed.

Lemma event_type_range (e : display_event) : 0 <= event_type e < 2 ^ 32.
Proof. destruct e; vm_compute; split; discriminate || reflexivity. Qed.

(** The dispatcher enters the handler registered for the event with the
    values the event carries. *)
Lemma event_dispatch (d : Backend.pv_display_backend) (e : display_event)
  (tail : list byte) (w : world) :
  event_in_range e ->
  Backend.__handle_event_packet_receipt
    d (set_length (packet_header (event_type e) (event_payload e)) 0)
    (event_payload e ++ tail) w
  = Done tt (log w (event_call d e)).
Proof.
  intros Hrange.
  unfold Backend.__handle_event_packet_receipt.
  destruct e as [width height stride | xhot yhot show | x y | color reason];
    cbn [event_type event_payload event_call set_length packet_header h_type]
      in *.
  - change (PACKET_TYPE_EVENT_SET_DISPLAY =? PACKET_TYPE_EVENT_SET_DISPLAY)
      with true. cbv beta iota.
    unfold Backend.__handle_set_display_request.
    destruct (Backend.set_display_handler d) as [fn|];
      [|rewrite log_nil; reflexivity].
    destruct Hrange as (Hw & Hh & Hs).
    unfold Provider.set_display_bytes. rewrite <- !app_assoc.
    unfold bind.
    rewrite !read_u32_ok
      by (rewrite !length_app, !length_le_split; lia).
    rewrite load_word_0, load_word_4, load_word_8 by assumption.
    unfold call_user. apply emit_log.
  - change (PACKET_TYPE_EVENT_UPDATE_CURSOR =? PACKET_TYPE_EVENT_SET_DISPLAY)
      with false.
    change (PACKET_TYPE_EVENT_UPDATE_CURSOR
            =? PACKET_TYPE_EVENT_BLANK_DISPLAY) with false.
    change (PACKET_TYPE_EVENT_UPDATE_CURSOR
            =? PACKET_TYPE_EVENT_UPDATE_CURSOR) with true.
    cbv beta iota.
    unfold Backend.__handle_update_cursor_request.
    destruct (Backend.update_cursor_handler d) as [fn|];
      [|rewrite log_nil; reflexivity].
    destruct Hrange as (Hx & Hy & Hs).
    rewrite <- !app_assoc.
    unfold bind.
    rewrite !read_u32_ok
      by (rewrite !length_app, !length_le_split; lia).
    rewrite load_word_0, load_word_4, load_word_8 by assumption.
    unfold call_user. apply emit_log.
  - change (PACKET_TYPE_EVENT_MOVE_CURSOR =? PACKET_TYPE_EVENT_SET_DISPLAY)
      with false.
    change (PACKET_TYPE_EVENT_MOVE_CURSOR =? PACKET_TYPE_EVENT_BLANK_DISPLAY)
      with false.
    change (PACKET_TYPE_EVENT_MOVE_CURSOR =? PACKET_TYPE_EVENT_UPDATE_CURSOR)
      with false.
    change (PACKET_TYPE_EVENT_MOVE_CURSOR =? PACKET_TYPE_EVENT_MOVE_CURSOR)
      with true.
    cbv beta iota.
    unfold Backend.__handle_move_cursor_request.
    destruct (Backend.move_cursor_handler d) as [fn|];
      [|rewrite log_nil; reflexivity].
    destruct Hrange as (Hx & Hy).
    unfold Provider.move_cursor_bytes. rewrite <- !app_assoc.
    unfold bind.
    rewrite !read_u32_ok
      by (rewrite !length_app, !length_le_split; lia).
    rewrite load_word_0, load_word_4 by assumption.
    unfold call_user. apply emit_log.
  - change (PACKET_TYPE_EVENT_BLANK_DISPLAY =? PACKET_TYPE_EVENT_SET_DISPLAY)
      with false.
    change (PACKET_TYPE_EVENT_BLANK_DISPLAY
            =? PACKET_TYPE_EVENT_BLANK_DISPLAY) with true.
    cbv beta iota.
    unfold Backend.__handle_blank_display_request.
    destruct (Backend.blank_display_handler d) as [fn|];
      [|rewrite log_nil; reflexivity].
    destruct Hrange as (Hc & Hr).
    unfold Provider.blanking_bytes. rewrite <- !app_assoc.
    unfold bind.
    rewrite !read_u32_ok
      by (rewrite !length_app, !length_le_split; lia).
    rewrite load_word_4 by assumption.
    unfold call_user. apply emit_log.
Qed.

Lemma same_backend_refl (d : Backend.pv_display_backend) :
  same_backend_apart_from_events d d.
Proof. unfold same_backend_apart_from_events. repeat split. Qed.

Lemma event_call_same (d d' : Backend.pv_display_backend)
  (e : display_event) :
  same_backend_apart_from_events d d' -> event_call d' e = event_call d e.
Proof.
  unfold same_backend_apart_from_events.
  intros (A1 & A2 & A3 & A4 & A5 & A6 & A7 & A8 & A9 & A10).
  destruct e; cbn [event_call]; rewrite ?A5, ?A6, ?A7, ?A8; reflexivity.
Qed.

(** The event loop over a queue of events. *)
Lemma backend_drains_events (events : list display_event)
  (rest : list byte) :
  Forall event_in_range events ->
  (List.length rest < 16)%nat ->
  forall (continue_to_read : bool) (d : Backend.pv_display_backend)
         (c : libivc_client) (w : world),
    Backend.event_connection d = Some c ->
    ivc_query_rc c = 0 -> ivc_recv_rc c = 0 -> w_out_of_memory w = false ->
    h_length (Backend.display_packet_header d) = 0 ->
    ivc_ring c = List.concat (map event_packet events) ++ rest ->
    exists d',
      Backend.event_channel_loop (S (List.length events)) continue_to_read
                                 d w
      = Done d' (log w (List.concat (map (event_delivery d) events)))
      /\ same_backend_apart_from_events d d'
      /\ pending_events d' = rest
      /\ h_length (Backend.display_packet_header d') = 0.
Proof.
  intros Hrange Hrest. induction Hrange as [|e events He Hrange IH];
    intros continue_to_read d c w Hc Hq Hr Hmem Hlen Hring.
  - cbn [map List.concat app List.length] in *.
    exists d. rewrite log_nil. split; [|split; [|split]].
    + apply (backend_loop_idle 0 continue_to_read d c); try assumption.
      unfold ring_data. rewrite Hring. lia.
    + apply same_backend_refl.
    + unfold pending_events. rewrite Hc. assumption.
    + assumption.
  - cbn [map List.concat List.length] in *.
    unfold event_packet at 1 in Hring. rewrite <- app_assoc in Hring.
    pose proof (event_payload_length e) as Hpl.
    rewrite (backend_decodes_first_packet _ continue_to_read d c w
               (event_type e) (event_payload e) _ Hc Hq Hr Hmem Hlen
               (event_type_range e) ltac:(lia) Hring).
    set (d1 := Backend.with_display_header _ _).
    unfold bind at 1.
    rewrite event_dispatch by assumption.
    unfold bind at 1, pv_helper_free. rewrite emit_log.
    rewrite !log_log.
    assert (Hsame : same_backend_apart_from_events d d1).
    { unfold same_backend_apart_from_events. repeat split. }
    destruct (IH true d1 (ivc_update c _ (ivc_calls c))
                 (log w ([EvMalloc (Z.of_nat (List.length (event_payload e))
                                    + 8)]
                         ++ event_call d1 e ++ [EvFree]))
                 eq_refl Hq Hr Hmem eq_refl eq_refl)
      as (d' & Hrun & Hsame' & Hpend & Hlen').
    exists d'. split; [|split; [|split]]; try assumption.
    assert (Hmap : map (event_delivery d1) events
                     = map (event_delivery d) events).
    { apply map_ext. intros e'. unfold event_delivery.
      rewrite (event_call_same d d1 e' Hsame). reflexivity. }
    rewrite Hrun, log_log, Hmap, (event_call_same d d1 e Hsame).
    reflexivity.
Qed.

(** X5.  Events queued on the event channel are all delivered, in order, by
    one run of the event callback.  A connected display backend with no
    packet in progress, whose event ring holds the packets of any list of
    in-range events followed by less than one header, enters for each event
    the handler registered for it with the values the event carries (and
    enters nothing for an event without a handler), allocating and
    releasing one receive buffer per event; it leaves the trailing bytes in
    the ring and no packet in progress. *)
Theorem event_channel_delivers_queued_events
  (events : list display_event) (rest : list byte)
  (d : Backend.pv_display_backend) (c : libivc_client) (w : world) :
  Forall event_in_range events ->
  (List.length rest < 16)%nat ->
  Backend.disconnected d = false ->
  Backend.event_connection d = Some c ->
  ivc_query_rc c = 0 -> ivc_recv_rc c = 0 -> w_out_of_memory w = false ->
  h_length (Backend.display_packet_header d) = 0 ->
  ivc_ring c = List.concat (map event_packet events) ++ rest ->
  exists d',
    Backend.__handle_event_channel_event (S (List.length events)) d w
    = Done d' (log w (List.concat (map (event_delivery d) events)))
    /\ same_backend_apart_from_events d d'
    /\ pending_events d' = rest
    /\ h_length (Backend.display_packet_header d') = 0.
Proof.
  intros Hrange Hrest Hconn Hc Hq Hr Hmem Hlen Hring.
  unfold Backend.__handle_event_channel_event. rewrite Hconn.
  apply (backend_drains_events events rest Hrange Hrest false d c w);
    assumption.
Qed.

Lemma event_channel_delivers_queued_events_witness :
  let events := [SetDisplay 1920 1080 7680; MoveCursor 5 6;
                 UpdateCursor 1 2 1; BlankDisplay 0 2] in
  let bytes := List.concat (map event_packet events) ++ [] in
  let d := backend_holding bytes in
  exists d',
    Backend.__handle_event_channel_event (S (List.length events)) d
                                         quiet_world
    = Done d' (log quiet_world (List.concat (map (event_delivery d) events)))
    /\ same_backend_apart_from_events d d'
    /\ pending_events d' = []
    /\ h_length (Backend.display_packet_header d') = 0.
Proof.
  apply (event_channel_delivers_queued_events
           [SetDisplay 1920 1080 7680; MoveCursor 5 6;
            UpdateCursor 1 2 1; BlankDisplay 0 2] []
           (backend_holding
              (List.concat
                 (map event_packet
                      [SetDisplay 1920 1080 7680; MoveCursor 5 6;
                       UpdateCursor 1 2 1; BlankDisplay 0 2]) ++ []))
           (channel_holding
              (List.concat
                 (map event_packet
                      [SetDisplay 1920 1080 7680; MoveCursor 5 6;
                       UpdateCursor 1 2 1; BlankDisplay 0 2]) ++ []))
           quiet_world).
  - repeat constructor; unfold uint32; lia.
  - cbn. lia.
  - reflexivity.
  - reflexivity.
  - reflexivity.
  - reflexivity.
  - reflexivity.
  - reflexivity.
  - reflexivity.
Defined.

(** ** From a display to its backend *)

Ltac payload_size :=
  cbn [event_payload];
  unfold Provider.set_display_bytes, Provider.move_cursor_bytes,
    Provider.blanking_bytes;
  rewrite ?length_app, ?length_le_split.

(** One event sent by [__send_packet] on an empty, working event channel and
    received by the backend from the same bytes. *)
Lemma event_round_trip (e : display_event) (sender receiver : libivc_client)
  (backend : Backend.pv_display_backend) (w wb : world) :
  event_in_range e ->
  can_send sender (16 + Z.of_nat (List.length (event_payload e)) + 8) ->
  w_out_of_memory w = false ->
  listening backend receiver ->
  w_out_of_memory wb = false ->
  let sender' :=
    ivc_update sender (event_packet e)
               (ivc_calls sender
                  ++ [CallSend (event_packet e); CallNotify; CallNotify]) in
  __send_packet (Some sender) (event_type e) (event_payload e)
                (Z.of_nat (List.length (event_payload e))) w
  = Done (0, Some sender')
         (log w [EvMalloc (16 + Z.of_nat (List.length (event_payload e)) + 8);
                 EvFree])
  /\ (ivc_ring receiver = ivc_ring sender' ->
      exists backend',
        Backend.__handle_event_channel_event 2 backend wb
        = Done backend' (log wb (event_delivery backend e))
        /\ same_backend_apart_from_events backend backend'
        /\ pending_events backend' = []
        /\ h_length (Backend.display_packet_header backend') = 0).
Proof.
  intros He (Hopen & Hq & Hs & Hring & Hcap) Hmem
         (Hconn & Hc & (Hrq & Hrr) & Hidle) Hmemb sender'.
  pose proof (event_payload_length e) as Hpl.
  split.
  - rewrite send_packet_succeeds; try assumption; try lia.
    + subst sender'. rewrite Hring. reflexivity.
    + unfold ring_space. rewrite Hring. cbn [List.length]. lia.
  - intros Hrecv. cbn [ivc_ring ivc_update sender'] in Hrecv.
    unfold Backend.__handle_event_channel_event. rewrite Hconn.
    destruct (backend_drains_events [e] [] (Forall_cons e He (Forall_nil _))
                ltac:(cbn; lia) false backend receiver wb Hc Hrq Hrr Hmemb
                Hidle)
      as (backend' & Hrun & Hrest).
    { rewrite Hrecv. cbn [map List.concat]. rewrite !app_nil_r.
      reflexivity. }
    exists backend'. cbn [map List.concat List.length] in Hrun.
    rewrite app_nil_r in Hrun. split; assumption.
Qed.

(** X6.  A change of resolution reaches the backend's set-display handler.
    [pv_display_change_resolution] on a display whose event channel is open,
    working and empty, with room for the packet, returns 0 and records the
    new geometry; a display backend that reads the same bytes enters its
    set-display handler once, with that width, height and stride.  The
    geometry is recorded in the display even when the notification cannot
    be sent: for any display the function returns, and the display it
    leaves has the new width, height and stride. *)
Theorem change_resolution_reaches_backend
  (display : Provider.pv_display) (sender receiver : libivc_client)
  (backend : Backend.pv_display_backend) (handler : nat)
  (width height stride : Z) (w wb : world) :
  uint32 width -> uint32 height -> uint32 stride ->
  Provider.event_connection display = Some sender ->
  can_send sender 36 -> w_out_of_memory w = false ->
  listening backend receiver -> w_out_of_memory wb = false ->
  Backend.set_display_handler backend = Some handler ->
  (exists display' sender',
    Provider.pv_display_change_resolution display width height stride w
    = Done (0, display') (log w [EvMalloc 36; EvFree])
    /\ Provider.event_connection display' = Some sender'
    /\ (Provider.width display', Provider.height display',
        Provider.stride display') = (width, height, stride)
    /\ (ivc_ring receiver = ivc_ring sender' ->
        exists backend',
          Backend.__handle_event_channel_event 2 backend wb
          = Done backend'
              (log wb [EvMalloc 20;
                       EvCall handler [AInt width; AInt height; AInt stride];
                       EvFree])
          /\ pending_events backend' = []))
  /\ (forall (other : Provider.pv_display) (w0 : world),
      exists rc other' w1,
        Provider.pv_display_change_resolution other width height stride w0
        = Done (rc, other') w1
        /\ (Provider.width other', Provider.height other',
            Provider.stride other') = (width, height, stride)).
Proof.
  intros Hw Hh Hs Hc Hsender Hmem Hlisten Hmemb Hhandler.
  split.
  - assert (He : event_in_range (SetDisplay width height stride))
      by (cbn [event_in_range]; auto).
    destruct (event_round_trip _ sender receiver backend w wb He Hsender
                Hmem Hlisten Hmemb) as [Hsent Hrecv].
    cbv zeta in Hsent, Hrecv.
    eexists. eexists. split; [|split; [|split]].
    + unfold Provider.pv_display_change_resolution.
      cbn [Provider.event_connection]. rewrite Hc. unfold bind.
      cbn [event_type event_payload] in Hsent.
      change (Z.of_nat (List.length
                          (Provider.set_display_bytes width height stride)))
        with 12 in Hsent.
      rewrite Hsent. reflexivity.
    + reflexivity.
    + reflexivity.
    + intros Hbytes. destruct (Hrecv Hbytes) as (backend' & Hrun & _ & Hp & _).
      exists backend'. split; [|assumption].
      rewrite Hrun. unfold event_delivery. cbn [event_call].
      rewrite Hhandler. reflexivity.
  - intros other w0.
    unfold Provider.pv_display_change_resolution.
    cbn [Provider.event_connection].
    destruct (send_packet_returns (Provider.event_connection other)
                PACKET_TYPE_EVENT_SET_DISPLAY
                (Provider.set_display_bytes width height stride) 12 w0)
      as (rc & ch & w1 & Hret).
    exists rc. eexists. exists w1. unfold bind. rewrite Hret.
    split; reflexivity.
Qed.

Ltac concrete :=
  unfold uint32, can_send, can_receive, listening, has_cursor;
  repeat split;
  first [ reflexivity | discriminate | lia
        | vm_compute; discriminate | vm_compute; lia ].

Lemma change_resolution_reaches_backend_witness :
  let event := event_packet (SetDisplay 1280 720 5120) in
  (exists display' sender',
    Provider.pv_display_change_resolution full_hd_display 1280 720 5120
                                          quiet_world
    = Done (0, display') (log quiet_world [EvMalloc 36; EvFree])
    /\ Provider.event_connection display' = Some sender'
    /\ (Provider.width display', Provider.height display',
        Provider.stride display') = (1280, 720, 5120)
    /\ (ivc_ring (channel_holding event) = ivc_ring sender' ->
        exists backend',
          Backend.__handle_event_channel_event 2 (backend_holding event)
                                               quiet_world
          = Done backend'
              (log quiet_world
                   [EvMalloc 20;
                    EvCall 11 [AInt 1280; AInt 720; AInt 5120];
                    EvFree])
          /\ pending_events backend' = []))
  /\ (forall (other : Provider.pv_display) (w0 : world),
      exists rc other' w1,
        Provider.pv_display_change_resolution other 1280 720 5120 w0
        = Done (rc, other') w1
        /\ (Provider.width other', Provider.height other',
            Provider.stride other') = (1280, 720, 5120)).
Proof.
  apply (change_resolution_reaches_backend
           full_hd_display idle_channel
           (channel_holding (event_packet (SetDisplay 1280 720 5120)))
           (backend_holding (event_packet (SetDisplay 1280 720 5120)))
           11%nat 1280 720 5120 quiet_world quiet_world); concrete.
Defined.

(** X7.  A cursor movement reaches the backend's move-cursor handler.
    On a display with hardware-cursor support whose event channel (the
    channel the movement travels on) is open, working and empty, with room
    for the packet, [pv_display_move_cursor] returns 0 and leaves the
    display's own state as it was; a display backend that reads the same
    bytes enters its move-cursor handler once, with the same coordinates. *)
Theorem move_cursor_reaches_backend
  (display : Provider.pv_display) (sender receiver : libivc_client)
  (backend : Backend.pv_display_backend) (handler : nat)
  (x y : Z) (w wb : world) :
  uint32 x -> uint32 y ->
  has_cursor display ->
  Provider.event_connection display = Some sender ->
  can_send sender 32 -> w_out_of_memory w = false ->
  listening backend receiver -> w_out_of_memory wb = false ->
  Backend.move_cursor_handler backend = Some handler ->
  exists sender',
    Provider.pv_display_move_cursor display x y w
    = Done (0, Provider.with_event_connection display (Some sender'))
           (log w [EvMalloc 32; EvFree])
    /\ (ivc_ring receiver = ivc_ring sender' ->
        exists backend',
          Backend.__handle_event_channel_event 2 backend wb
          = Done backend'
              (log wb [EvMalloc 16; EvCall handler [AInt x; AInt y]; EvFree])
          /\ pending_events backend' = []).
Proof.
  intros Hx Hy [Himage Hconn] Hc Hsender Hmem Hlisten Hmemb Hhandler.
  assert (He : event_in_range (MoveCursor x y))
    by (cbn [event_in_range]; auto).
  destruct (event_round_trip _ sender receiver backend w wb He Hsender
              Hmem Hlisten Hmemb) as [Hsent Hrecv].
  cbv zeta in Hsent, Hrecv.
  eexists. split.
  - unfold Provider.pv_display_move_cursor.
    destruct (Provider.image (Provider.cursor display)); [|contradiction].
    destruct (Provider.cursor_image_connection display); [|contradiction].
    unfold Provider.__send_cursor_movement_unsynchronized.
    rewrite Hc. unfold bind.
    cbn [event_type event_payload] in Hsent.
    change (Z.of_nat (List.length (Provider.move_cursor_bytes x y)))
      with 8 in Hsent.
    rewrite Hsent. reflexivity.
  - intros Hbytes. destruct (Hrecv Hbytes) as (backend' & Hrun & _ & Hp & _).
    exists backend'. split; [|assumption].
    rewrite Hrun. unfold event_delivery. cbn [event_call].
    rewrite Hhandler. reflexivity.
Qed.

Lemma move_cursor_reaches_backend_witness :
  let event := event_packet (MoveCursor 640 400) in
  exists sender',
    Provider.pv_display_move_cursor full_hd_display 640 400 quiet_world
    = Done (0, Provider.with_event_connection full_hd_display (Some sender'))
           (log quiet_world [EvMalloc 32; EvFree])
    /\ (ivc_ring (channel_holding event) = ivc_ring sender' ->
        exists backend',
          Backend.__handle_event_channel_event 2 (backend_holding event)
                                               quiet_world
          = Done backend'
              (log quiet_world
                   [EvMalloc 16; EvCall 13 [AInt 640; AInt 400]; EvFree])
          /\ pending_events backend' = []).
Proof.
  apply (move_cursor_reaches_backend
           full_hd_display idle_channel
           (channel_holding (event_packet (MoveCursor 640 400)))
           (backend_holding (event_packet (MoveCursor 640 400)))
           13%nat 640 400 quiet_world quiet_world); concrete.
Defined.

(** X8.  Blanking reaches the backend's blank-display handler with the
    reason the two flags select.  [pv_display_blank_display] sends colour 0
    and a reason that is 0 (DPMS sleep) or 2 (modesetting fill on) when
    blanking, 1 (DPMS wake) or 3 (modesetting fill off) when unblanking,
    the first of each pair when [dpms] is set; on an event channel that is
    open, working and empty, with room for the packet, it returns 0, and a
    display backend that reads the same bytes enters its blank-display
    handler once, with that reason.  The four combinations of the flags
    give four different reasons. *)
Theorem blank_display_reaches_backend
  (display : Provider.pv_display) (sender receiver : libivc_client)
  (backend : Backend.pv_display_backend) (handler : nat)
  (dpms blank : bool) (w wb : world) :
  Provider.event_connection display = Some sender ->
  can_send sender 32 -> w_out_of_memory w = false ->
  listening backend receiver -> w_out_of_memory wb = false ->
  Backend.blank_display_handler backend = Some handler ->
  let reason := (if dpms then 0 else 2) + (if blank then 0 else 1) in
  exists sender',
    Provider.pv_display_blank_display display dpms blank w
    = Done (0, Provider.with_event_connection display (Some sender'))
           (log w [EvMalloc 32; EvFree])
    /\ ivc_ring sender' = event_packet (BlankDisplay 0 reason)
    /\ (ivc_ring receiver = ivc_ring sender' ->
        exists backend',
          Backend.__handle_event_channel_event 2 backend wb
          = Done backend'
              (log wb [EvMalloc 16; EvCall handler [AInt reason]; EvFree])
          /\ pending_events backend' = []).
Proof.
  intros Hc Hsender Hmem Hlisten Hmemb Hhandler reason.
  assert (He : event_in_range (BlankDisplay 0 reason)).
  { subst reason. cbn [event_in_range]. unfold uint32.
    destruct dpms, blank; cbn; lia. }
  destruct (event_round_trip _ sender receiver backend w wb He Hsender
              Hmem Hlisten Hmemb) as [Hsent Hrecv].
  cbv zeta in Hsent, Hrecv.
  eexists. split; [|split].
  - unfold Provider.pv_display_blank_display.
    rewrite Hc. unfold bind.
    cbn [event_type event_payload] in Hsent.
    change (Z.of_nat (List.length (Provider.blanking_bytes 0 reason)))
      with 8 in Hsent.
    assert (Hreason :
      (if blank
       then (if dpms then PACKET_BLANKING_DPMS_SLEEP
             else PACKET_BLANKING_MODESETTING_FILL_ENABLE)
       else (if dpms then PACKET_BLANKING_DPMS_WAKE
             else PACKET_BLANKING_MODESETTING_FILL_DISABLE)) = reason)
      by (subst reason; destruct dpms, blank; reflexivity).
    rewrite Hreason, Hsent. reflexivity.
  - reflexivity.
  - intros Hbytes. destruct (Hrecv Hbytes) as (backend' & Hrun & _ & Hp & _).
    exists backend'. split; [|assumption].
    rewrite Hrun. unfold event_delivery. cbn [event_call].
    rewrite Hhandler. reflexivity.
Qed.

Lemma blank_display_reaches_backend_witness :
  let event := event_packet (BlankDisplay 0 1) in
  let reason := (if true then 0 else 2) + (if false then 0 else 1) in
  exists sender',
    Provider.pv_display_blank_display full_hd_display true false quiet_world
    = Done (0, Provider.with_event_connection full_hd_display (Some sender'))
           (log quiet_world [EvMalloc 32; EvFree])
    /\ ivc_ring sender' = event_packet (BlankDisplay 0 reason)
    /\ (ivc_ring (channel_holding event) = ivc_ring sender' ->
        exists backend',
          Backend.__handle_event_channel_event 2 (backend_holding event)
                                               quiet_world
          = Done backend'
              (log quiet_world
                   [EvMalloc 16; EvCall 14 [AInt reason]; EvFree])
          /\ pending_events backend' = []).
Proof.
  apply (blank_display_reaches_backend
           full_hd_display idle_channel
           (channel_holding (event_packet (BlankDisplay 0 1)))
           (backend_holding (event_packet (BlankDisplay 0 1)))
           14%nat true false quiet_world quiet_world); concrete.
Defined.

(** ** The hardware cursor *)

(** X9.  The hot spot of the cursor is bounded by the cursor size,
    inclusively.  On a display with hardware-cursor support,
    [pv_display_set_cursor_hotspot] rejects a hot spot whose x or y exceeds
    64 with [-EINVAL], sending nothing and leaving the display as it was;
    a hot spot of up to 64 in both directions (64 itself included) is
    stored in the display, next to the bitmap and the visibility it had,
    whatever the notification of the display handler then returns. *)
Theorem cursor_hotspot_bounds (display : Provider.pv_display)
  (hotspot_x hotspot_y : Z) (w : world) :
  has_cursor display ->
  (PV_DRIVER_CURSOR_WIDTH < hotspot_x \/ PV_DRIVER_CURSOR_HEIGHT < hotspot_y ->
   Provider.pv_display_set_cursor_hotspot display hotspot_x hotspot_y w
   = Done (- EINVAL, display) w)
  /\ (hotspot_x <= PV_DRIVER_CURSOR_WIDTH ->
      hotspot_y <= PV_DRIVER_CURSOR_HEIGHT ->
      exists rc display' w',
        Provider.pv_display_set_cursor_hotspot display hotspot_x hotspot_y w
        = Done (rc, display') w'
        /\ Provider.cursor display'
           = Provider.mk_cursor (Provider.image (Provider.cursor display))
                                hotspot_x hotspot_y
                                (Provider.visible (Provider.cursor display))).
Proof.
  intros [Himage Hconn].
  unfold Provider.pv_display_set_cursor_hotspot,
    PV_DRIVER_CURSOR_WIDTH, PV_DRIVER_CURSOR_HEIGHT.
  destruct (Provider.image (Provider.cursor display)) as [image_|];
    [|contradiction].
  destruct (Provider.cursor_image_connection display); [|contradiction].
  split.
  - intros Hout.
    destruct (hotspot_x >? 64) eqn:Hx; [reflexivity|].
    destruct (hotspot_y >? 64) eqn:Hy; [reflexivity|].
    rewrite Z.gtb_ltb in Hx, Hy. apply Z.ltb_ge in Hx, Hy. lia.
  - intros Hx Hy.
    replace (hotspot_x >? 64) with false
      by (symmetry; rewrite Z.gtb_ltb; apply Z.ltb_ge; lia).
    replace (hotspot_y >? 64) with false
      by (symmetry; rewrite Z.gtb_ltb; apply Z.ltb_ge; lia).
    unfold Provider.__send_cursor_update_unsynchronized.
    match goal with
    | |- context [__send_packet ?ch ?ty ?data ?len] =>
      destruct (send_packet_returns ch ty data len w)
        as (rc & ch' & w' & Hret)
    end.
    exists rc. eexists. exists w'. unfold bind. rewrite Hret.
    split; reflexivity.
Qed.

Lemma cursor_hotspot_bounds_witness :
  (PV_DRIVER_CURSOR_WIDTH < 64 \/ PV_DRIVER_CURSOR_HEIGHT < 65 ->
   Provider.pv_display_set_cursor_hotspot full_hd_display 64 65 quiet_world
   = Done (- EINVAL, full_hd_display) quiet_world)
  /\ (64 <= PV_DRIVER_CURSOR_WIDTH ->
      65 <= PV_DRIVER_CURSOR_HEIGHT ->
      exists rc display' w',
        Provider.pv_display_set_cursor_hotspot full_hd_display 64 65
                                               quiet_world
        = Done (rc, display') w'
        /\ Provider.cursor display'
           = Provider.mk_cursor
               (Provider.image (Provider.cursor full_hd_display)) 64 65
               (Provider.visible (Provider.cursor full_hd_display))).
Proof.
  apply (cursor_hotspot_bounds full_hd_display 64 65 quiet_world).
  concrete.
Defined.

(** X10.  Cursor updates reach the backend's update-cursor handler.  On a
    display with hardware-cursor support whose event channel is open,
    working and empty, with room for the packet, setting an in-range hot
    spot and setting the visibility each return 0; a display backend that
    reads the bytes they sent enters its update-cursor handler once, with
    the hot spot now stored in the display and with [show] 1 for a visible
    cursor and 0 for a hidden one. *)
Theorem cursor_updates_reach_backend
  (display : Provider.pv_display) (sender receiver : libivc_client)
  (backend : Backend.pv_display_backend) (handler : nat)
  (hotspot_x hotspot_y : Z) (visible : bool) (w wb : world) :
  0 <= hotspot_x <= PV_DRIVER_CURSOR_WIDTH ->
  0 <= hotspot_y <= PV_DRIVER_CURSOR_HEIGHT ->
  uint32 (Provider.hotspot_x (Provider.cursor display)) ->
  uint32 (Provider.hotspot_y (Provider.cursor display)) ->
  has_cursor display ->
  Provider.event_connection display = Some sender ->
  can_send sender 36 -> w_out_of_memory w = false ->
  listening backend receiver -> w_out_of_memory wb = false ->
  Backend.update_cursor_handler backend = Some handler ->
  (exists display' sender',
    Provider.pv_display_set_cursor_hotspot display hotspot_x hotspot_y w
    = Done (0, display') (log w [EvMalloc 36; EvFree])
    /\ Provider.event_connection display' = Some sender'
    /\ (ivc_ring receiver = ivc_ring sender' ->
        exists backend',
          Backend.__handle_event_channel_event 2 backend wb
          = Done backend'
              (log wb
                 [EvMalloc 20;
                  EvCall handler
                    [AInt hotspot_x; AInt hotspot_y;
                     AInt (if Provider.visible (Provider.cursor display)
                           then 1 else 0)];
                  EvFree])))
  /\ (exists display' sender',
       Provider.pv_display_set_cursor_visibility display visible w
       = Done (0, display') (log w [EvMalloc 36; EvFree])
       /\ Provider.event_connection display' = Some sender'
       /\ Provider.visible (Provider.cursor display') = visible
       /\ (ivc_ring receiver = ivc_ring sender' ->
           exists backend',
             Backend.__handle_event_channel_event 2 backend wb
             = Done backend'
                 (log wb
                    [EvMalloc 20;
                     EvCall handler
                       [AInt (Provider.hotspot_x (Provider.cursor display));
                        AInt (Provider.hotspot_y (Provider.cursor display));
                        AInt (if visible then 1 else 0)];
                     EvFree]))).
Proof.
  unfold PV_DRIVER_CURSOR_WIDTH, PV_DRIVER_CURSOR_HEIGHT.
  intros Hx Hy Hox Hoy [Himage Hconn] Hc Hsender Hmem Hlisten Hmemb Hhandler.
  destruct (Provider.image (Provider.cursor display)) as [image_|] eqn:Eimage;
    [|contradiction].
  destruct (Provider.cursor_image_connection display) as [cc|] eqn:Econn;
    [|contradiction].
  assert (Hshow : forall b : bool, uint32 (if b then 1 else 0))
    by (intros []; unfold uint32; lia).
  split.
  - assert (He : event_in_range
                   (UpdateCursor hotspot_x hotspot_y
                      (if Provider.visible (Provider.cursor display)
                       then 1 else 0)))
      by (cbn [event_in_range]; unfold uint32 in *; repeat split;
          try lia; apply Hshow).
    destruct (event_round_trip _ sender receiver backend w wb He Hsender
                Hmem Hlisten Hmemb) as [Hsent Hrecv].
    cbv zeta in Hsent, Hrecv.
    eexists. eexists. split; [|split].
    + unfold Provider.pv_display_set_cursor_hotspot,
        PV_DRIVER_CURSOR_WIDTH, PV_DRIVER_CURSOR_HEIGHT.
      rewrite Eimage, Econn.
      replace (hotspot_x >? 64) with false
        by (symmetry; rewrite Z.gtb_ltb; apply Z.ltb_ge; lia).
      replace (hotspot_y >? 64) with false
        by (symmetry; rewrite Z.gtb_ltb; apply Z.ltb_ge; lia).
      unfold Provider.__send_cursor_update_unsynchronized,
        Provider.update_cursor_bytes.
      cbn [Provider.event_connection Provider.with_cursor Provider.cursor
           Provider.hotspot_x Provider.hotspot_y Provider.visible].
      rewrite Hc. unfold bind.
      cbn [event_type event_payload] in Hsent.
      match type of Hsent with
      | context [Z.of_nat (List.length ?p)] =>
        change (Z.of_nat (List.length p)) with 12 in Hsent
      end.
      rewrite Hsent. reflexivity.
    + reflexivity.
    + intros Hbytes. destruct (Hrecv Hbytes) as (backend' & Hrun & _).
      exists backend'. rewrite Hrun. unfold event_delivery.
      cbn [event_call]. rewrite Hhandler. reflexivity.
  - assert (He : event_in_range
                   (UpdateCursor
                      (Provider.hotspot_x (Provider.cursor display))
                      (Provider.hotspot_y (Provider.cursor display))
                      (if visible then 1 else 0)))
      by (cbn [event_in_range]; repeat split; try apply Hox; try apply Hoy;
          apply Hshow).
    destruct (event_round_trip _ sender receiver backend w wb He Hsender
                Hmem Hlisten Hmemb) as [Hsent Hrecv].
    cbv zeta in Hsent, Hrecv.
    eexists. eexists. split; [|split; [|split]].
    + unfold Provider.pv_display_set_cursor_visibility.
      rewrite Eimage, Econn.
      unfold Provider.__send_cursor_update_unsynchronized,
        Provider.update_cursor_bytes.
      cbn [Provider.event_connection Provider.with_cursor Provider.cursor
           Provider.hotspot_x Provider.hotspot_y Provider.visible].
      rewrite Hc. unfold bind.
      cbn [event_type event_payload] in Hsent.
      match type of Hsent with
      | context [Z.of_nat (List.length ?p)] =>
        change (Z.of_nat (List.length p)) with 12 in Hsent
      end.
      rewrite Hsent. reflexivity.
    + reflexivity.
    + reflexivity.
    + intros Hbytes. destruct (Hrecv Hbytes) as (backend' & Hrun & _).
      exists backend'. rewrite Hrun. unfold event_delivery.
      cbn [event_call]. rewrite Hhandler. reflexivity.
Qed.

Lemma cursor_updates_reach_backend_witness :
  let shown := event_packet (UpdateCursor 3 4 1) in
  exists display' sender',
    Provider.pv_display_set_cursor_hotspot full_hd_display 3 4 quiet_world
    = Done (0, display') (log quiet_world [EvMalloc 36; EvFree])
    /\ Provider.event_connection display' = Some sender'
    /\ (ivc_ring (channel_holding shown) = ivc_ring sender' ->
        exists backend',
          Backend.__handle_event_channel_event 2 (backend_holding shown)
                                               quiet_world
          = Done backend'
              (log quiet_world
                 [EvMalloc 20;
                  EvCall 12
                    [AInt 3; AInt 4;
                     AInt (if Provider.visible
                                (Provider.cursor full_hd_display)
                           then 1 else 0)];
                  EvFree])).
Proof.
  apply (cursor_updates_reach_backend
           full_hd_display idle_channel
           (channel_holding (event_packet (UpdateCursor 3 4 1)))
           (backend_holding (event_packet (UpdateCursor 3 4 1)))
           12%nat 3 4 false quiet_world quiet_world); concrete.
Defined.

(** X11.  Without hardware-cursor support no cursor operation does
    anything.  On a display for which [pv_display_supports_cursor] answers
    0 (no shared cursor bitmap), loading a cursor image of any size from any
    pointer, setting the hot spot, setting the visibility and moving the
    cursor all return [-EINVAL] and leave the display, its connections
    included, exactly as it was: nothing is sent and no user code is
    entered. *)
Theorem cursor_operations_need_cursor_support
  (display : Provider.pv_display) (image_ : option (list byte))
  (source_width source_height x y : Z) (visible : bool) (w : world) :
  Provider.pv_display_supports_cursor display = 0 ->
  (exists w',
     Provider.pv_display_load_cursor_image display image_ source_width
                                           source_height w
     = Done (- EINVAL, display) w' /\ calls w' = calls w)
  /\ (exists w',
        Provider.pv_display_set_cursor_hotspot display x y w
        = Done (- EINVAL, display) w' /\ calls w' = calls w)
  /\ (exists w',
        Provider.pv_display_set_cursor_visibility display visible w
        = Done (- EINVAL, display) w' /\ calls w' = calls w)
  /\ (exists w',
        Provider.pv_display_move_cursor display x y w
        = Done (- EINVAL, display) w' /\ calls w' = calls w).
Proof.
  unfold Provider.pv_display_supports_cursor.
  intros Hnone.
  destruct (Provider.image (Provider.cursor display)) eqn:Himage;
    [discriminate|].
  unfold Provider.pv_display_load_cursor_image,
    Provider.pv_display_set_cursor_hotspot,
    Provider.pv_display_set_cursor_visibility,
    Provider.pv_display_move_cursor.
  rewrite Himage.
  unfold pv_display_checkp_failed, pv_display_error, bind.
  repeat split.
  - destruct ((source_width >? PV_DRIVER_CURSOR_WIDTH)
              || (source_height >? PV_DRIVER_CURSOR_HEIGHT)).
    + rewrite emit_log. eexists. split; [reflexivity | apply calls_error].
    + destruct image_.
      * exists w. split; reflexivity.
      * rewrite emit_log. eexists. split; [reflexivity | apply calls_error].
  - rewrite emit_log. eexists. split; [reflexivity | apply calls_error].
  - rewrite emit_log. eexists. split; [reflexivity | apply calls_error].
  - rewrite emit_log. eexists. split; [reflexivity | apply calls_error].
Qed.

Lemma cursor_operations_need_cursor_support_witness :
  (exists w',
     Provider.pv_display_load_cursor_image software_cursor_display
       (Some opaque_white_32x48) 32 48 quiet_world
     = Done (- EINVAL, software_cursor_display) w'
     /\ calls w' = calls quiet_world)
  /\ (exists w',
        Provider.pv_display_set_cursor_hotspot software_cursor_display 3 4
                                               quiet_world
        = Done (- EINVAL, software_cursor_display) w'
        /\ calls w' = calls quiet_world)
  /\ (exists w',
        Provider.pv_display_set_cursor_visibility software_cursor_display
                                                  true quiet_world
        = Done (- EINVAL, software_cursor_display) w'
        /\ calls w' = calls quiet_world)
  /\ (exists w',
        Provider.pv_display_move_cursor software_cursor_display 3 4
                                        quiet_world
        = Done (- EINVAL, software_cursor_display) w'
        /\ calls w' = calls quiet_world).
Proof.
  apply (cursor_operations_need_cursor_support
           software_cursor_display (Some opaque_white_32x48) 32 48 3 4 true
           quiet_world).
  reflexivity.
Defined.

(** ** The control decoder of the consumer *)

Lemma consumer_same_channel (p : Backend.pv_display_consumer)
  (c : libivc_client) :
  Backend.control_channel p = Some c ->
  Backend.with_control_channel p (Some c) = p.
Proof. destruct p. cbn. intros ->. reflexivity. Qed.

(** With less than a header in the ring and no packet in progress, the loop
    reads nothing and stops. *)
Lemma consumer_loop_idle (fuel : nat) (continue_to_read : bool)
  (p : Backend.pv_display_consumer) (c : libivc_client) (w : world) :
  Backend.control_channel p = Some c ->
  ivc_recv_rc c = 0 -> ring_data c < 16 ->
  h_length (Backend.current_packet_header p) = 0 ->
  Backend.control_channel_loop (S fuel) continue_to_read p w = Done p w.
Proof.
  intros Hc Hr Hdata Hlen. cbn [Backend.control_channel_loop].
  rewrite Hlen. change (0 =? 0) with true. cbv beta iota.
  unfold Backend.__try_to_read_header. rewrite Hc.
  unfold libivc_recv, sizeof_dh_header. rewrite Hr.
  change (negb (0 =? 0)) with false. cbv beta iota.
  replace (16 <=? ring_data c) with false by (symmetry; apply Z.leb_gt; lia).
  change (IVC_REFUSED =? SUCCESS) with false. cbv beta iota.
  rewrite (consumer_same_channel p c Hc).
  unfold bind, ret. rewrite Hlen. reflexivity.
Qed.

(** An idle consumer with at least one whole packet-sized run of bytes in
    its control ring. *)
Lemma consumer_reads_one_packet (fuel : nat) (continue_to_read : bool)
  (p : Backend.pv_display_consumer) (c : libivc_client) (w : world) :
  Backend.control_channel p = Some c ->
  ivc_query_rc c = 0 -> ivc_recv_rc c = 0 -> w_out_of_memory w = false ->
  h_length (Backend.current_packet_header p) = 0 ->
  let header := header_of_bytes (firstn 16 (ivc_ring c)) in
  let need := h_length header + 8 in
  1 <= h_length header < 2 ^ 32 ->
  16 + need <= ring_data c ->
  let body := firstn (Z.to_nat need) (skipn 16 (ivc_ring c)) in
  let c' :=
    ivc_update c (skipn (Z.to_nat need) (skipn 16 (ivc_ring c)))
               (ivc_calls c) in
  let p' :=
    Backend.with_header (Backend.with_control_channel p (Some c'))
                        (set_length header 0) in
  Backend.control_channel_loop (S fuel) continue_to_read p w
  = if crc_matches header body
    then (Backend.__handle_control_packet_receipt p' (set_length header 0)
                                                   body ;;;
          pv_helper_free ;;;
          Backend.control_channel_loop fuel true p') (log w [EvMalloc need])
    else (pv_display_error "CRC did not match for a control packet" ;;;
          pv_helper_free ;;;
          Backend.__trigger_fatal_error_on_consumer true p' ;;;
          ret p') (log w [EvMalloc need]).
Proof.
  intros Hc Hq Hr Hmem Hlen header need Hn Hdata body c' p'.
  cbn [Backend.control_channel_loop].
  rewrite Hlen. change (0 =? 0) with true. cbv beta iota.
  (* the header *)
  unfold Backend.__try_to_read_header at 1. rewrite Hc.
  rewrite libivc_recv_enough by (unfold sizeof_dh_header; auto; lia).
  change (0 =? SUCCESS) with true. cbv beta iota.
  unfold oldest, sizeof_dh_header. change (Z.to_nat 16) with 16%nat.
  fold header.
  set (c1 := after_read c 16).
  set (p1 := Backend.with_header
               (Backend.with_control_channel p (Some c1)) header).
  unfold bind at 1, ret at 1.
  change (h_length (Backend.current_packet_header p1)) with (h_length header).
  replace (h_length header >? 0) with true
    by (symmetry; apply Z.gtb_lt; lia).
  (* the body *)
  assert (Hring1 : ivc_ring c1 = skipn 16 (ivc_ring c)) by reflexivity.
  assert (Hdata1 : need <= ring_data c1).
  { unfold ring_data in *. rewrite Hring1, length_skipn. lia. }
  assert (Harr : body_arrived (Backend.current_packet_header p1) c1 w).
  { unfold body_arrived. cbn [Backend.current_packet_header p1
      Backend.with_header]. subst need. repeat split; auto; lia. }
  unfold bind at 1.
  rewrite (consumer_receive_body p1 c1 w eq_refl Harr). cbv zeta.
  change (Backend.current_packet_header p1) with header. fold need.
  assert (Hold : oldest c1 need = body) by reflexivity.
  assert (Hafter : after_read c1 need = c') by reflexivity.
  rewrite Hold, Hafter.
  change (Backend.with_header
            (Backend.with_control_channel p1 (Some c'))
            (set_length header 0)) with p'.
  change (Backend.current_packet_header p') with (set_length header 0).
  destruct (crc_matches header body).
  - unfold bind.
    destruct (Backend.__handle_control_packet_receipt p'
                (set_length header 0) body (log w [EvMalloc need]))
      as [[] w1 | why w1 |]; reflexivity.
  - unfold bind, pv_display_error, pv_helper_free. rewrite !emit_log.
    destruct (Backend.__trigger_fatal_error_on_consumer true p' _)
      as [[] w1 | why w1 |]; reflexivity.
Qed.

(** The same, for a framed packet followed by more bytes. *)
Lemma consumer_decodes_first_packet (fuel : nat) (continue_to_read : bool)
  (p : Backend.pv_display_consumer) (c : libivc_client) (w : world)
  (type : Z) (payload rest : list byte) :
  Backend.control_channel p = Some c ->
  ivc_query_rc c = 0 -> ivc_recv_rc c = 0 -> w_out_of_memory w = false ->
  h_length (Backend.current_packet_header p) = 0 ->
  0 <= type < 2 ^ 32 ->
  1 <= Z.of_nat (List.length payload) < 2 ^ 32 ->
  ivc_ring c = packet_bytes type payload ++ rest ->
  let p' :=
    Backend.with_header
      (Backend.with_control_channel p
         (Some (ivc_update c rest (ivc_calls c)))) (delivered_header type) in
  Backend.control_channel_loop (S fuel) continue_to_read p w
  = (Backend.__handle_control_packet_receipt
       p' (delivered_header type) (payload ++ packet_footer type payload) ;;;
     pv_helper_free ;;;
     Backend.control_channel_loop fuel true p')
      (log w [EvMalloc (Z.of_nat (List.length payload) + 8)]).
Proof.
  intros Hc Hq Hr Hmem Hlen Ht Hn Hring p'.
  pose proof (consumer_reads_one_packet fuel continue_to_read p c w
                Hc Hq Hr Hmem Hlen) as Hdec.
  cbv zeta in Hdec. rewrite Hring in Hdec.
  rewrite stream_header in Hdec by (assumption || lia).
  cbn [h_length packet_header] in Hdec.
  replace (Z.to_nat (Z.of_nat (List.length payload) + 8))
    with (List.length payload + 8)%nat in Hdec by lia.
  rewrite stream_body, stream_rest in Hdec.
  rewrite stream_crc_matches in Hdec by (assumption || lia).
  apply Hdec; [lia|].
  unfold ring_data. rewrite Hring, length_app, packet_bytes_length. lia.
Qed.

(** One packet alone in the ring: dispatched, and the loop stops. *)
Lemma consumer_decodes_one_packet (fuel : nat)
  (p : Backend.pv_display_consumer) (c : libivc_client) (w : world)
  (type : Z) (payload : list byte) (events : list event) :
  consumer_listening p c -> w_out_of_memory w = false ->
  0 <= type < 2 ^ 32 ->
  1 <= Z.of_nat (List.length payload) < 2 ^ 32 ->
  ivc_ring c = packet_bytes type payload ->
  let p' :=
    Backend.with_header
      (Backend.with_control_channel p (Some (drained c)))
      (delivered_header type) in
  (forall w1,
      Backend.__handle_control_packet_receipt
        p' (delivered_header type) (payload ++ packet_footer type payload) w1
      = Done tt (log w1 events)) ->
  Backend.__handle_control_channel_event (S (S fuel)) p w
  = Done p' (log w ([EvMalloc (Z.of_nat (List.length payload) + 8)]
                    ++ events ++ [EvFree])).
Proof.
  intros (Hc & (Hq & Hr) & Hlen) Hmem Ht Hn Hring p' Hdispatch.
  unfold Backend.__handle_control_channel_event.
  rewrite (consumer_decodes_first_packet (S fuel) false p c w type payload []
             Hc Hq Hr Hmem Hlen Ht Hn)
    by (rewrite app_nil_r; assumption).
  fold (drained c). fold p'.
  unfold bind at 1. rewrite Hdispatch.
  unfold bind at 1, pv_helper_free. rewrite emit_log, !log_log.
  rewrite (consumer_loop_idle fuel true p' (drained c))
    by (reflexivity || assumption || (cbn; lia)).
  reflexivity.
Qed.

(** ** Control packets from one side to the other *)

Lemma packet_sent (sender : libivc_client) (type : Z) (payload : list byte)
  (w : world) :
  can_send sender (16 + Z.of_nat (List.length payload) + 8) ->
  Z.of_nat (List.length payload) < 2 ^ 32 ->
  w_out_of_memory w = false ->
  __send_packet (Some sender) type payload
                (Z.of_nat (List.length payload)) w
  = Done (0, Some (ivc_update sender (packet_bytes type payload)
                     (ivc_calls sender
                        ++ [CallSend (packet_bytes type payload);
                            CallNotify; CallNotify])))
         (log w [EvMalloc (16 + Z.of_nat (List.length payload) + 8); EvFree]).
Proof.
  intros (Hopen & Hq & Hs & Hring & Hcap) Hlen Hmem.
  rewrite send_packet_succeeds; try assumption.
  - rewrite Hring. reflexivity.
  - unfold ring_space. rewrite Hring. cbn [List.length]. lia.
Qed.

(** One packet alone in the provider's control ring: dispatched, and the
    loop stops. *)
Lemma provider_decodes_packet (fuel : nat)
  (p : Provider.pv_display_provider) (c : libivc_client) (w : world)
  (type : Z) (payload : list byte) (events : list event) :
  provider_listening p c -> w_out_of_memory w = false ->
  0 <= type < 2 ^ 32 ->
  1 <= Z.of_nat (List.length payload) < 2 ^ 32 ->
  ivc_ring c = packet_bytes type payload ->
  let p' :=
    Provider.with_header
      (Provider.with_control_channel p (Some (drained c)))
      (delivered_header type) in
  (forall w1,
      Provider.__handle_control_packet_receipt
        p' (delivered_header type) (payload ++ packet_footer type payload) w1
      = Done tt (log w1 events)) ->
  Provider.__handle_control_channel_event (S (S fuel)) p w
  = Done p' (log w ([EvMalloc (Z.of_nat (List.length payload) + 8)]
                    ++ events ++ [EvFree])).
Proof.
  intros (Hc & (Hq & Hr) & Hlen) Hmem Ht Hn Hring p' Hdispatch.
  pose proof (provider_decodes_one_packet fuel p c w Hc Hq Hr Hmem Hlen)
    as Hdec.
  cbv zeta in Hdec. rewrite Hring in Hdec.
  rewrite packet_header_read in Hdec by (assumption || lia).
  cbn [h_length packet_header] in Hdec.
  rewrite Hdec.
  - rewrite <- (packet_header_read type payload) by (assumption || lia).
    rewrite intact_packet_passes_crc by (assumption || lia).
    rewrite packet_header_read by (assumption || lia).
    rewrite packet_skipn_header.
    change (set_length (packet_header type payload) 0)
      with (delivered_header type).
    fold (packet_footer type payload). fold p'.
    unfold bind at 1. rewrite Hdispatch.
    unfold bind, pv_helper_free, ret. rewrite emit_log, !log_log.
    reflexivity.
  - lia.
  - unfold ring_data. rewrite Hring, packet_bytes_length. lia.
Qed.

Lemma display_list_buffer (displays : list byte) (display_count : Z) :
  0 <= display_count ->
  sizeof_dh_display_info * display_count <= Z.of_nat (List.length displays) ->
  memcpy (store (zeroed (4 + sizeof_dh_display_info * display_count)) 0
                (le_split 4 display_count))
         4 displays (sizeof_dh_display_info * display_count)
  = display_list_payload displays display_count.
Proof.
  unfold display_list_payload, sizeof_dh_display_info. intros Hc Hlen.
  rewrite zeroed_add by lia.
  rewrite store_front by reflexivity.
  unfold memcpy.
  rewrite <- (app_nil_r (zeroed (24 * display_count))).
  rewrite (store_middle (le_split 4 display_count)
                        (zeroed (24 * display_count)) []); try reflexivity.
  - rewrite app_nil_r. reflexivity.
  - rewrite zeroed_length, firstn_length_le; lia.
Qed.

Lemma display_list_payload_length (displays : list byte)
  (display_count : Z) :
  0 <= display_count ->
  sizeof_dh_display_info * display_count <= Z.of_nat (List.length displays) ->
  Z.of_nat (List.length (display_list_payload displays display_count))
  = 4 + sizeof_dh_display_info * display_count.
Proof.
  unfold display_list_payload, sizeof_dh_display_info. intros Hc Hlen.
  rewrite length_app, length_le_split, firstn_length_le; lia.
Qed.

(** X12.  The displays a provider advertises reach the consumer's
    advertised-list handler.  [provider_advertise_displays] builds a payload
    of the count followed by that many display records out of the caller's
    array; on a control channel that is open, working and empty, with room
    for the packet, it returns 0 having released both the payload and the
    transmit buffer, and a consumer that reads the same bytes enters its
    advertised-list handler once, on a request that starts with exactly
    that payload. *)
Theorem advertised_displays_reach_consumer
  (provider : Provider.pv_display_provider) (sender receiver : libivc_client)
  (consumer : Backend.pv_display_consumer) (handler : nat)
  (displays : list byte) (display_count : Z) (w wb : world) :
  0 <= display_count ->
  4 + sizeof_dh_display_info * display_count < 2 ^ 32 ->
  sizeof_dh_display_info * display_count <= Z.of_nat (List.length displays) ->
  Provider.control_channel provider = Some sender ->
  can_send sender (28 + sizeof_dh_display_info * display_count) ->
  w_out_of_memory w = false ->
  consumer_listening consumer receiver -> w_out_of_memory wb = false ->
  Backend.advertised_list_handler consumer = Some handler ->
  let payload := display_list_payload displays display_count in
  exists sender',
    Provider.provider_advertise_displays provider displays display_count w
    = Done (0, Provider.with_control_channel provider (Some sender'))
           (log w [EvMalloc (4 + sizeof_dh_display_info * display_count);
                   EvMalloc (28 + sizeof_dh_display_info * display_count);
                   EvFree; EvFree])
    /\ ivc_ring sender'
       = packet_bytes PACKET_TYPE_CONTROL_ADVERTISED_DISPLAY_LIST payload
    /\ (ivc_ring receiver = ivc_ring sender' ->
        exists consumer',
          Backend.__handle_control_channel_event 2 consumer wb
          = Done consumer'
              (log wb
                 [EvMalloc (12 + sizeof_dh_display_info * display_count);
                  EvCall handler
                    [APtr (payload
                           ++ packet_footer
                                PACKET_TYPE_CONTROL_ADVERTISED_DISPLAY_LIST
                                payload)];
                  EvFree])).
Proof.
  intros Hcount Hsize Hdisplays Hc Hsender Hmem Hlisten Hmemb Hhandler payload.
  pose proof (display_list_payload_length displays display_count Hcount
                Hdisplays) as Hlen. fold payload in Hlen.
  unfold sizeof_dh_display_info in *.
  - assert (Hsent := packet_sent sender
                       PACKET_TYPE_CONTROL_ADVERTISED_DISPLAY_LIST payload
                       (log w [EvMalloc (4 + 24 * display_count)])).
    rewrite Hlen in Hsent.
    replace (16 + (4 + 24 * display_count) + 8)
      with (28 + 24 * display_count) in Hsent by lia.
    specialize (Hsent Hsender ltac:(lia) Hmem).
    eexists. split; [|split].
    + unfold Provider.provider_advertise_displays, sizeof_dh_display_info.
      rewrite (to_size_t_small (24 * display_count)) by lia.
      rewrite !to_size_t_small by lia.
      unfold bind at 1. rewrite malloc_ok by assumption.
      pose proof (display_list_buffer displays display_count Hcount)
        as Hbuf. unfold sizeof_dh_display_info in Hbuf.
      rewrite Hbuf by assumption. fold payload.
      unfold to_uint32. rewrite Z.mod_small by lia.
      rewrite Hc. unfold bind at 1. rewrite Hsent.
      change (negb (0 =? 0)) with false. cbv beta iota.
      unfold bind, ret, pv_helper_free. rewrite emit_log, !log_log.
      reflexivity.
    + reflexivity.
    + intros Hbytes. cbn [ivc_ring ivc_update] in Hbytes.
      eexists.
      rewrite (consumer_decodes_one_packet 0 consumer receiver wb
                 PACKET_TYPE_CONTROL_ADVERTISED_DISPLAY_LIST payload
                 [EvCall handler
                    [APtr (payload
                           ++ packet_footer
                                PACKET_TYPE_CONTROL_ADVERTISED_DISPLAY_LIST
                                payload)]]);
        try assumption.
      * rewrite Hlen.
        replace (4 + 24 * display_count + 8)
          with (12 + 24 * display_count) by lia.
        reflexivity.
      * vm_compute. split; [discriminate | reflexivity].
      * lia.
      * intros w1. unfold Backend.__handle_control_packet_receipt.
        cbn [h_type delivered_header].
        change (PACKET_TYPE_CONTROL_ADVERTISED_DISPLAY_LIST
                =? PACKET_TYPE_CONTROL_DRIVER_CAPABILITIES) with false.
        change (PACKET_TYPE_CONTROL_ADVERTISED_DISPLAY_LIST
                =? PACKET_TYPE_CONTROL_ADVERTISED_DISPLAY_LIST) with true.
        cbv beta iota.
        unfold Backend.__handle_advertised_display_list_request.
        cbn [Backend.advertised_list_handler Backend.with_header
             Backend.with_control_channel].
        rewrite Hhandler. unfold call_user. apply emit_log.
Qed.

Lemma advertised_displays_reach_consumer_witness :
  let payload := display_list_payload two_display_infos 2 in
  let packet :=
    packet_bytes PACKET_TYPE_CONTROL_ADVERTISED_DISPLAY_LIST payload in
  exists sender',
    Provider.provider_advertise_displays connected_provider
                                         two_display_infos 2 quiet_world
    = Done (0, Provider.with_control_channel connected_provider
                 (Some sender'))
           (log quiet_world
                [EvMalloc (4 + sizeof_dh_display_info * 2);
                 EvMalloc (28 + sizeof_dh_display_info * 2);
                 EvFree; EvFree])
    /\ ivc_ring sender' = packet
    /\ (ivc_ring (channel_holding packet) = ivc_ring sender' ->
        exists consumer',
          Backend.__handle_control_channel_event 2 (consumer_holding packet)
                                                 quiet_world
          = Done consumer'
              (log quiet_world
                 [EvMalloc (12 + sizeof_dh_display_info * 2);
                  EvCall 2
                    [APtr (payload
                           ++ packet_footer
                                PACKET_TYPE_CONTROL_ADVERTISED_DISPLAY_LIST
                                payload)];
                  EvFree])).
Proof.
  apply (advertised_displays_reach_consumer
           connected_provider idle_channel
           (channel_holding
              (packet_bytes PACKET_TYPE_CONTROL_ADVERTISED_DISPLAY_LIST
                            (display_list_payload two_display_infos 2)))
           (consumer_holding
              (packet_bytes PACKET_TYPE_CONTROL_ADVERTISED_DISPLAY_LIST
                            (display_list_payload two_display_infos 2)))
           2%nat two_display_infos 2 quiet_world quiet_world);
    unfold consumer_listening; concrete.
Defined.

(** X13.  The host's display list reaches the provider's handler.
    [consumer_display_list] sends the count followed by that many display
    records; on a control channel that is open, working and empty, with
    room for the packet, it returns 0, and a provider that reads the same
    bytes enters its host-display-change handler once, with a pointer to
    the records and with the count. *)
Theorem host_display_list_reaches_provider
  (consumer : Backend.pv_display_consumer) (sender receiver : libivc_client)
  (provider : Provider.pv_display_provider) (handler : nat)
  (displays : list byte) (display_count : Z) (w wb : world) :
  0 <= display_count ->
  4 + sizeof_dh_display_info * display_count < 2 ^ 32 ->
  sizeof_dh_display_info * display_count <= Z.of_nat (List.length displays) ->
  Backend.control_channel consumer = Some sender ->
  can_send sender (28 + sizeof_dh_display_info * display_count) ->
  w_out_of_memory w = false ->
  provider_listening provider receiver -> w_out_of_memory wb = false ->
  Provider.host_display_change_handler provider = Some handler ->
  let payload := display_list_payload displays display_count in
  exists sender',
    Backend.consumer_display_list consumer displays display_count w
    = Done (0, Backend.with_control_channel consumer (Some sender'))
           (log w [EvMalloc (4 + sizeof_dh_display_info * display_count);
                   EvMalloc (28 + sizeof_dh_display_info * display_count);
                   EvFree; EvFree])
    /\ (ivc_ring receiver = ivc_ring sender' ->
        exists provider',
          Provider.__handle_control_channel_event 2 provider wb
          = Done provider'
              (log wb
                 [EvMalloc (12 + sizeof_dh_display_info * display_count);
                  EvCall handler
                    [APtr (firstn (Z.to_nat (sizeof_dh_display_info
                                             * display_count)) displays
                           ++ packet_footer
                                PACKET_TYPE_CONTROL_HOST_DISPLAY_LIST
                                payload);
                     AInt display_count];
                  EvFree])).
Proof.
  intros Hcount Hsize Hdisplays Hc Hsender Hmem Hlisten Hmemb Hhandler payload.
  pose proof (display_list_payload_length displays display_count Hcount
                Hdisplays) as Hlen. fold payload in Hlen.
  unfold sizeof_dh_display_info in *.
  assert (Hsent := packet_sent sender
                     PACKET_TYPE_CONTROL_HOST_DISPLAY_LIST payload
                     (log w [EvMalloc (4 + 24 * display_count)])).
  rewrite Hlen in Hsent.
  replace (16 + (4 + 24 * display_count) + 8)
    with (28 + 24 * display_count) in Hsent by lia.
  specialize (Hsent Hsender ltac:(lia) Hmem).
  eexists. split.
  - unfold Backend.consumer_display_list, sizeof_dh_display_info.
    rewrite (Z.mul_comm display_count 24).
    rewrite (to_size_t_small (24 * display_count)) by lia.
    rewrite !to_size_t_small by lia.
    unfold bind at 1. rewrite malloc_ok by assumption.
    pose proof (display_list_buffer displays display_count Hcount)
      as Hbuf. unfold sizeof_dh_display_info in Hbuf.
    rewrite Hbuf by assumption. fold payload.
    unfold to_uint32. rewrite Z.mod_small by lia.
    rewrite Hc. unfold bind at 1. rewrite Hsent.
    change (negb (0 =? 0)) with false. cbv beta iota.
    unfold bind, ret, pv_helper_free. rewrite emit_log, !log_log.
    reflexivity.
  - intros Hbytes. cbn [ivc_ring ivc_update] in Hbytes.
    eexists.
    rewrite (provider_decodes_packet 0 provider receiver wb
               PACKET_TYPE_CONTROL_HOST_DISPLAY_LIST payload
               [EvCall handler
                  [APtr (firstn (Z.to_nat (24 * display_count)) displays
                         ++ packet_footer
                              PACKET_TYPE_CONTROL_HOST_DISPLAY_LIST payload);
                   AInt display_count]]);
      try assumption.
    + rewrite Hlen.
      replace (4 + 24 * display_count + 8)
        with (12 + 24 * display_count) by lia.
      reflexivity.
    + vm_compute. split; [discriminate | reflexivity].
    + lia.
    + intros w1. unfold Provider.__handle_control_packet_receipt.
      cbn [h_type delivered_header].
      change (PACKET_TYPE_CONTROL_HOST_DISPLAY_LIST
              =? PACKET_TYPE_CONTROL_HOST_DISPLAY_LIST) with true.
      cbv beta iota.
      unfold Provider.__handle_host_display_changed_event.
      cbn [Provider.host_display_change_handler Provider.with_header
           Provider.with_control_channel].
      rewrite Hhandler. unfold bind.
      rewrite read_u32_ok by (rewrite length_app; lia).
      subst payload. unfold display_list_payload, sizeof_dh_display_info.
      rewrite <- app_assoc.
      rewrite load_word_0 by (unfold uint32; lia).
      rewrite (skipn_app_exact (le_split 4 display_count)) by reflexivity.
      unfold call_user. apply emit_log.
Qed.

Lemma host_display_list_reaches_provider_witness :
  let payload := display_list_payload two_display_infos 2 in
  let packet := packet_bytes PACKET_TYPE_CONTROL_HOST_DISPLAY_LIST payload in
  exists sender',
    Backend.consumer_display_list (consumer_holding []) two_display_infos 2
                                  quiet_world
    = Done (0, Backend.with_control_channel (consumer_holding [])
                 (Some sender'))
           (log quiet_world
                [EvMalloc (4 + sizeof_dh_display_info * 2);
                 EvMalloc (28 + sizeof_dh_display_info * 2);
                 EvFree; EvFree])
    /\ (ivc_ring (channel_holding packet) = ivc_ring sender' ->
        exists provider',
          Provider.__handle_control_channel_event 2 (provider_holding packet)
                                                  quiet_world
          = Done provider'
              (log quiet_world
                 [EvMalloc (12 + sizeof_dh_display_info * 2);
                  EvCall 1
                    [APtr (firstn (Z.to_nat (sizeof_dh_display_info * 2))
                                  two_display_infos
                           ++ packet_footer
                                PACKET_TYPE_CONTROL_HOST_DISPLAY_LIST
                                payload);
                     AInt 2];
                  EvFree])).
Proof.
  apply (host_display_list_reaches_provider
           (consumer_holding []) (channel_holding [])
           (channel_holding
              (packet_bytes PACKET_TYPE_CONTROL_HOST_DISPLAY_LIST
                            (display_list_payload two_display_infos 2)))
           (provider_holding
              (packet_bytes PACKET_TYPE_CONTROL_HOST_DISPLAY_LIST
                            (display_list_payload two_display_infos 2)))
           1%nat two_display_infos 2 quiet_world quiet_world);
    unfold provider_listening; concrete.
Defined.

(** X14.  The consumer's text-mode handler is told to force text mode
    whatever mode was sent.  [provider_force_text_mode] sends mode 1 to
    enable and 0 to disable: on a control channel that is open, working and
    empty, with room for the packet, it returns 0 and the channel holds a
    text-mode packet with that mode.  A consumer that reads those bytes
    enters its text-mode handler once, and hands it [true] in both cases:
    the handler is declared with a [bool force] and is called with the
    pointer to the request.  On a control channel that is not open the
    provider's function returns [-ENOENT], after a diagnostic, and the
    provider is as it was. *)
Theorem text_mode_handler_always_sees_force
  (provider : Provider.pv_display_provider) (sender receiver : libivc_client)
  (consumer : Backend.pv_display_consumer) (handler : nat)
  (force_text_mode : bool) (w wb : world) :
  Provider.control_channel provider = Some sender ->
  can_send sender 28 -> w_out_of_memory w = false ->
  consumer_listening consumer receiver -> w_out_of_memory wb = false ->
  Backend.text_mode_handler consumer = Some handler ->
  let mode :=
    if force_text_mode then PACKET_TEXT_MODE_ENABLED
    else PACKET_TEXT_MODE_DISABLED in
  (exists sender',
    Provider.provider_force_text_mode provider force_text_mode w
    = Done (0, Provider.with_control_channel provider (Some sender'))
           (log w [EvMalloc 28; EvFree])
    /\ ivc_ring sender'
       = packet_bytes PACKET_TYPE_CONTROL_TEXT_MODE (le_split 4 mode)
    /\ (ivc_ring receiver = ivc_ring sender' ->
        exists consumer',
          Backend.__handle_control_channel_event 2 consumer wb
          = Done consumer'
              (log wb [EvMalloc 12; EvCall handler [AInt 1]; EvFree])))
  /\ (forall (closed : Provider.pv_display_provider) (w0 : world),
      libivc_isOpen (Provider.control_channel closed) = false ->
      Provider.provider_force_text_mode closed force_text_mode w0
      = Done (- ENOENT, closed)
             (log w0 [EvError "Could not switch to text mode"])).
Proof.
  intros Hc Hsender Hmem Hlisten Hmemb Hhandler mode.
  split.
  - assert (Hsent := packet_sent sender PACKET_TYPE_CONTROL_TEXT_MODE
                       (le_split 4 mode) w Hsender
                       ltac:(rewrite length_le_split; lia) Hmem).
    change (Z.of_nat (List.length (le_split 4 mode))) with 4 in Hsent.
    eexists. split; [|split].
    + unfold Provider.provider_force_text_mode. fold mode.
      rewrite Hc. unfold bind. rewrite Hsent. reflexivity.
    + reflexivity.
    + intros Hbytes. cbn [ivc_ring ivc_update] in Hbytes.
      eexists.
      rewrite (consumer_decodes_one_packet 0 consumer receiver wb
                 PACKET_TYPE_CONTROL_TEXT_MODE (le_split 4 mode)
                 [EvCall handler [AInt 1]]);
        try assumption.
      * reflexivity.
      * vm_compute. split; [discriminate | reflexivity].
      * rewrite length_le_split. lia.
      * intros w1. unfold Backend.__handle_control_packet_receipt.
        cbn [h_type delivered_header].
        change (PACKET_TYPE_CONTROL_TEXT_MODE
                =? PACKET_TYPE_CONTROL_DRIVER_CAPABILITIES) with false.
        change (PACKET_TYPE_CONTROL_TEXT_MODE
                =? PACKET_TYPE_CONTROL_ADVERTISED_DISPLAY_LIST) with false.
        change (PACKET_TYPE_CONTROL_TEXT_MODE
                =? PACKET_TYPE_CONTROL_DISPLAY_NO_LONGER_AVAILABLE)
          with false.
        change (PACKET_TYPE_CONTROL_TEXT_MODE
                =? PACKET_TYPE_CONTROL_TEXT_MODE) with true.
        cbv beta iota.
        unfold Backend.__handle_text_mode_request.
        cbn [Backend.text_mode_handler Backend.with_header
             Backend.with_control_channel].
        rewrite Hhandler. unfold call_user. apply emit_log.
  - intros closed w0 Hclosed.
    unfold Provider.provider_force_text_mode, __send_packet.
    rewrite Hclosed. cbn [negb]. unfold bind, ret.
    change (negb (- ENOENT =? 0)) with true. cbv beta iota.
    unfold pv_display_error. rewrite emit_log.
    destruct closed. reflexivity.
Qed.

Lemma text_mode_handler_always_sees_force_witness :
  let mode := if false then PACKET_TEXT_MODE_ENABLED
              else PACKET_TEXT_MODE_DISABLED in
  let packet := packet_bytes PACKET_TYPE_CONTROL_TEXT_MODE (le_split 4 mode) in
  (exists sender',
    Provider.provider_force_text_mode connected_provider false quiet_world
    = Done (0, Provider.with_control_channel connected_provider
                 (Some sender'))
           (log quiet_world [EvMalloc 28; EvFree])
    /\ ivc_ring sender' = packet
    /\ (ivc_ring (channel_holding packet) = ivc_ring sender' ->
        exists consumer',
          Backend.__handle_control_channel_event 2 (consumer_holding packet)
                                                 quiet_world
          = Done consumer'
              (log quiet_world [EvMalloc 12; EvCall 4 [AInt 1]; EvFree])))
  /\ (forall (closed : Provider.pv_display_provider) (w0 : world),
      libivc_isOpen (Provider.control_channel closed) = false ->
      Provider.provider_force_text_mode closed false w0
      = Done (- ENOENT, closed)
             (log w0 [EvError "Could not switch to text mode"])).
Proof.
  apply (text_mode_handler_always_sees_force
           connected_provider idle_channel
           (channel_holding
              (packet_bytes PACKET_TYPE_CONTROL_TEXT_MODE (le_split 4 0)))
           (consumer_holding
              (packet_bytes PACKET_TYPE_CONTROL_TEXT_MODE (le_split 4 0)))
           4%nat false quiet_world quiet_world);
    unfold consumer_listening; concrete.
Defined.

(** X15.  An add-display request reaches the provider's handler, and the
    provider's validation accepts it exactly when it names a framebuffer
    port and an event port.  [consumer_add_display] on a control channel
    that is open, working and empty, with room for the packet, makes a
    provider that reads the same bytes enter its add-display handler once,
    on a request holding the key and the four ports;
    [__validate_add_display_request] on that request answers true when both
    the framebuffer port and the event port are non-zero, and otherwise
    answers false after one diagnostic, about the framebuffer port if that
    is 0 and about the event port if only that is 0.  The dirty-rectangle
    and cursor ports play no part. *)
Theorem add_display_request_is_validated
  (consumer : Backend.pv_display_consumer) (sender receiver : libivc_client)
  (provider : Provider.pv_display_provider) (handler : nat)
  (key event_port framebuffer_port dirty_rectangles_port cursor_bitmap_port
     : Z)
  (w wb : world) :
  uint32 key -> uint32 event_port -> uint32 framebuffer_port ->
  uint32 dirty_rectangles_port -> uint32 cursor_bitmap_port ->
  Backend.control_channel consumer = Some sender ->
  can_send sender 44 -> w_out_of_memory w = false ->
  provider_listening provider receiver -> w_out_of_memory wb = false ->
  Provider.add_display_handler provider = Some handler ->
  let payload :=
    Backend.add_display_bytes key event_port framebuffer_port
                              dirty_rectangles_port cursor_bitmap_port in
  let request :=
    payload ++ packet_footer PACKET_TYPE_CONTROL_ADD_DISPLAY payload in
  exists sender',
    Backend.consumer_add_display consumer key event_port framebuffer_port
                                 dirty_rectangles_port cursor_bitmap_port w
    = Done (0, Backend.with_control_channel consumer (Some sender'))
           (log w [EvMalloc 44; EvFree])
    /\ (ivc_ring receiver = ivc_ring sender' ->
        exists provider',
          Provider.__handle_control_channel_event 2 provider wb
          = Done provider'
              (log wb [EvMalloc 28; EvCall handler [APtr request]; EvFree]))
    /\ (forall w2,
        Provider.__validate_add_display_request request w2
        = Done (negb (framebuffer_port =? 0) && negb (event_port =? 0))
               (log w2 (validation_messages framebuffer_port event_port))).
Proof.
  intros Hkey Hev Hfb Hdr Hcur Hc Hsender Hmem Hlisten Hmemb Hhandler
         payload request.
  assert (Hlen : Z.of_nat (List.length payload) = 20) by reflexivity.
  assert (Hsent := packet_sent sender PACKET_TYPE_CONTROL_ADD_DISPLAY
                     payload w).
  rewrite Hlen in Hsent. specialize (Hsent Hsender ltac:(lia) Hmem).
  eexists. split; [|split].
  - unfold Backend.consumer_add_display. fold payload.
    rewrite Hc. unfold bind at 1. rewrite Hsent.
    change (negb (0 =? 0)) with false. cbv beta iota.
    unfold bind, ret. reflexivity.
  - intros Hbytes. cbn [ivc_ring ivc_update] in Hbytes.
    eexists.
    rewrite (provider_decodes_packet 0 provider receiver wb
               PACKET_TYPE_CONTROL_ADD_DISPLAY payload
               [EvCall handler [APtr request]]);
      try assumption.
    + rewrite Hlen. reflexivity.
    + vm_compute. split; [discriminate | reflexivity].
    + lia.
    + intros w1. unfold Provider.__handle_control_packet_receipt.
      cbn [h_type delivered_header].
      change (PACKET_TYPE_CONTROL_ADD_DISPLAY
              =? PACKET_TYPE_CONTROL_HOST_DISPLAY_LIST) with false.
      change (PACKET_TYPE_CONTROL_ADD_DISPLAY
              =? PACKET_TYPE_CONTROL_ADD_DISPLAY) with true.
      cbv beta iota.
      unfold Provider.__handle_add_display_request.
      cbn [Provider.add_display_handler Provider.with_header
           Provider.with_control_channel].
      rewrite Hhandler. unfold call_user. apply emit_log.
  - intros w2. unfold Provider.__validate_add_display_request.
    assert (Hrlen : Z.of_nat (List.length request) = 28) by reflexivity.
    unfold bind at 1. rewrite read_u32_ok by lia.
    subst request payload. unfold Backend.add_display_bytes.
    rewrite <- !app_assoc.
    rewrite (load_word_8 key event_port framebuffer_port) by assumption.
    unfold validation_messages.
    destruct (framebuffer_port =? 0).
    + unfold bind, pv_display_error. rewrite emit_log. reflexivity.
    + unfold bind at 1.
      rewrite read_u32_ok
        by (rewrite !length_app, !length_le_split; lia).
      rewrite (load_word_4 key event_port) by assumption.
      destruct (event_port =? 0).
      * unfold bind, pv_display_error. rewrite emit_log. reflexivity.
      * rewrite log_nil. reflexivity.
Qed.

Lemma add_display_request_is_validated_witness :
  let payload := Backend.add_display_bytes 1 0 2001 2002 2003 in
  let request :=
    payload ++ packet_footer PACKET_TYPE_CONTROL_ADD_DISPLAY payload in
  let packet := packet_bytes PACKET_TYPE_CONTROL_ADD_DISPLAY payload in
  exists sender',
    Backend.consumer_add_display (consumer_holding []) 1 0 2001 2002 2003
                                 quiet_world
    = Done (0, Backend.with_control_channel (consumer_holding [])
                 (Some sender'))
           (log quiet_world [EvMalloc 44; EvFree])
    /\ (ivc_ring (channel_holding packet) = ivc_ring sender' ->
        exists provider',
          Provider.__handle_control_channel_event 2 (provider_holding packet)
                                                  quiet_world
          = Done provider'
              (log quiet_world
                   [EvMalloc 28; EvCall 2 [APtr request]; EvFree]))
    /\ (forall w2,
        Provider.__validate_add_display_request request w2
        = Done (negb (2001 =? 0) && negb (0 =? 0))
               (log w2 (validation_messages 2001 0))).
Proof.
  apply (add_display_request_is_validated
           (consumer_holding []) (channel_holding [])
           (channel_holding
              (packet_bytes PACKET_TYPE_CONTROL_ADD_DISPLAY
                            (Backend.add_display_bytes 1 0 2001 2002 2003)))
           (provider_holding
              (packet_bytes PACKET_TYPE_CONTROL_ADD_DISPLAY
                            (Backend.add_display_bytes 1 0 2001 2002 2003)))
           2%nat 1 0 2001 2002 2003 quiet_world quiet_world);
    unfold provider_listening; concrete.
Defined.

(** ** A control packet that arrives in two pieces *)

(** A whole packet alone in the consumer's control ring. *)
Lemma consumer_whole_packet (fuel : nat)
  (p : Backend.pv_display_consumer) (c : libivc_client) (w : world)
  (type : Z) (payload : list byte) :
  consumer_listening p c -> w_out_of_memory w = false ->
  0 <= type < 2 ^ 32 ->
  1 <= Z.of_nat (List.length payload) < 2 ^ 32 ->
  ivc_ring c = packet_bytes type payload ->
  let p' :=
    Backend.with_header
      (Backend.with_control_channel p (Some (drained c)))
      (delivered_header type) in
  Backend.__handle_control_channel_event (S (S fuel)) p w
  = (Backend.__handle_control_packet_receipt
       p' (delivered_header type) (payload ++ packet_footer type payload) ;;;
     pv_helper_free ;;; ret p')
      (log w [EvMalloc (Z.of_nat (List.length payload) + 8)]).
Proof.
  intros (Hc & (Hq & Hr) & Hlen) Hmem Ht Hn Hring p'.
  unfold Backend.__handle_control_channel_event.
  rewrite (consumer_decodes_first_packet (S fuel) false p c w type payload []
             Hc Hq Hr Hmem Hlen Ht Hn)
    by (rewrite app_nil_r; assumption).
  fold (drained c). fold p'.
  unfold bind.
  destruct (Backend.__handle_control_packet_receipt _ _ _ _)
    as [[] w1 | why w1 |]; try reflexivity.
  unfold pv_helper_free. rewrite emit_log.
  rewrite (consumer_loop_idle fuel true p' (drained c))
    by (reflexivity || assumption || (cbn; lia)).
  reflexivity.
Qed.

Lemma skipn_firstn_rejoin (m : list byte) (k : nat) :
  (16 <= k <= List.length m)%nat ->
  skipn 16 (firstn k m) ++ skipn k m = skipn 16 m.
Proof.
  intros Hk. rewrite <- (firstn_skipn k m) at 3.
  rewrite skipn_app, length_firstn.
  replace (16 - Nat.min k (List.length m))%nat with 0%nat by lia.
  reflexivity.
Qed.

(** X16.  A control packet that arrives in two pieces is dispatched once,
    when the second piece has arrived, exactly as if it had arrived whole.
    An idle consumer whose control ring holds only the first [k] bytes of a
    packet (any [k] short of the whole packet) returns from its control
    callback without dispatching, allocating or reporting anything; when
    the remaining bytes have arrived, the next callback has the outcome
    that one callback has on the whole packet: the packet-type handler runs
    on the delivered header and on the payload, the receive buffer is
    released, and the ring is empty. *)
Theorem control_packet_in_two_pieces
  (consumer : Backend.pv_display_consumer) (receiver : libivc_client)
  (type : Z) (payload : list byte) (k fuel : nat) (w : world) :
  consumer_listening consumer receiver -> w_out_of_memory w = false ->
  0 <= type < 2 ^ 32 ->
  1 <= Z.of_nat (List.length payload) < 2 ^ 32 ->
  (k < List.length (packet_bytes type payload))%nat ->
  ivc_ring receiver = firstn k (packet_bytes type payload) ->
  let consumer' :=
    Backend.with_header
      (Backend.with_control_channel consumer (Some (drained receiver)))
      (delivered_header type) in
  exists waiting,
    Backend.__handle_control_channel_event (S fuel) consumer w
    = Done waiting w
    /\ Backend.__handle_control_channel_event
         (S (S fuel))
         (after_arrival waiting (skipn k (packet_bytes type payload))) w
       = (Backend.__handle_control_packet_receipt
            consumer' (delivered_header type)
            (payload ++ packet_footer type payload) ;;;
          pv_helper_free ;;; ret consumer')
           (log w [EvMalloc (Z.of_nat (List.length payload) + 8)]).
Proof.
  intros Hlisten Hmem Ht Hn Hk Hring consumer'.
  pose proof Hlisten as (Hc & (Hq & Hr) & Hlen).
  rewrite packet_bytes_length in Hk.
  set (pkt := packet_bytes type payload) in *.
  assert (Hpl : List.length pkt = (16 + List.length payload + 8)%nat)
    by apply packet_bytes_length.
  destruct (Nat.lt_ge_cases k 16) as [Hshort | Hlong].
  - (* not even a header *)
    exists consumer. split.
    + apply (consumer_loop_idle fuel false consumer receiver); try assumption.
      unfold ring_data. rewrite Hring, length_firstn. lia.
    + set (c2 := ivc_update receiver (ivc_ring receiver ++ skipn k pkt)
                            (ivc_calls receiver)).
      assert (Hafter : after_arrival consumer (skipn k pkt)
                       = Backend.with_control_channel consumer (Some c2))
        by (unfold after_arrival; rewrite Hc; reflexivity).
      rewrite Hafter.
      assert (Hring2 : ivc_ring c2 = pkt).
      { cbn [c2 ivc_ring ivc_update]. rewrite Hring. apply firstn_skipn. }
      rewrite (consumer_whole_packet fuel _ c2 w type payload);
        try assumption.
      * reflexivity.
      * unfold consumer_listening, can_receive.
        cbn [Backend.with_control_channel Backend.control_channel
             Backend.current_packet_header c2 ivc_update ivc_query_rc
             ivc_recv_rc].
        auto.
  - (* the header, and part of the body *)
    set (header := packet_header type payload).
    set (c1 := after_read receiver 16).
    set (p1 := Backend.with_header
                 (Backend.with_control_channel consumer (Some c1)) header).
    assert (Hhead : header_of_bytes (firstn 16 (ivc_ring receiver)) = header).
    { rewrite Hring, firstn_firstn.
      replace (Nat.min 16 k) with 16%nat by lia.
      apply packet_header_read; assumption || lia. }
    exists p1. split.
    + unfold Backend.__handle_control_channel_event.
      cbn [Backend.control_channel_loop].
      rewrite Hlen. change (0 =? 0) with true. cbv beta iota.
      unfold Backend.__try_to_read_header at 1. rewrite Hc.
      rewrite libivc_recv_enough
        by (unfold sizeof_dh_header, ring_data; auto;
            rewrite Hring, length_firstn; lia).
      change (0 =? SUCCESS) with true. cbv beta iota.
      unfold oldest, sizeof_dh_header. change (Z.to_nat 16) with 16%nat.
      rewrite Hhead. fold c1. fold p1.
      unfold bind at 1, ret at 1.
      change (h_length (Backend.current_packet_header p1))
        with (Z.of_nat (List.length payload)).
      replace (Z.of_nat (List.length payload) >? 0) with true
        by (symmetry; apply Z.gtb_lt; lia).
      unfold Backend.__try_to_receive_control_packet,
        Backend.receive_control_packet_via.
      change (Backend.control_channel p1) with (Some c1).
      change (h_length (Backend.current_packet_header p1))
        with (Z.of_nat (List.length payload)).
      unfold libivc_getAvailableData, sizeof_dh_footer.
      change (ivc_query_rc c1) with (ivc_query_rc receiver). rewrite Hq.
      change (negb (0 =? 0)) with false. cbv beta iota.
      rewrite to_size_t_small by lia.
      replace (ring_data c1 <? Z.of_nat (List.length payload) + 8) with true.
      * reflexivity.
      * symmetry. apply Z.ltb_lt. unfold ring_data.
        cbn [c1 after_read ivc_ring ivc_update].
        rewrite Hring, length_skipn, length_firstn. lia.
    + set (c2 := ivc_update c1 (ivc_ring c1 ++ skipn k pkt) (ivc_calls c1)).
      assert (Hafter : after_arrival p1 (skipn k pkt)
                       = Backend.with_control_channel p1 (Some c2))
        by reflexivity.
      rewrite Hafter.
      set (p2 := Backend.with_control_channel p1 (Some c2)).
      assert (Hring2 : ivc_ring c2 = skipn 16 pkt).
      { cbn [c2 c1 after_read ivc_ring ivc_update]. rewrite Hring.
        apply skipn_firstn_rejoin. lia. }
      assert (Hbody : skipn 16 pkt = payload ++ packet_footer type payload)
        by apply packet_skipn_header.
      unfold Backend.__handle_control_channel_event.
      remember (S fuel) as fuel1 eqn:Hfuel.
      cbn [Backend.control_channel_loop]. subst fuel1.
      change (h_length (Backend.current_packet_header p2))
        with (Z.of_nat (List.length payload)).
      replace (Z.of_nat (List.length payload) =? 0) with false
        by (symmetry; apply Z.eqb_neq; lia).
      unfold bind at 1, ret at 1.
      change (h_length (Backend.current_packet_header p2))
        with (Z.of_nat (List.length payload)).
      replace (Z.of_nat (List.length payload) >? 0) with true
        by (symmetry; apply Z.gtb_lt; lia).
      assert (Harr : body_arrived (Backend.current_packet_header p2) c2 w).
      { unfold body_arrived, ring_data. rewrite Hring2, Hbody.
        change (h_length (Backend.current_packet_header p2))
          with (Z.of_nat (List.length payload)).
        repeat split; try assumption; try lia.
        rewrite length_app. unfold packet_footer.
        rewrite length_app, length_le_split, zeroed_length. lia. }
      unfold bind at 1.
      rewrite (consumer_receive_body p2 c2 w eq_refl Harr). cbv zeta.
      change (Backend.current_packet_header p2) with header.
      change (h_length header) with (Z.of_nat (List.length payload)).
      assert (Hold : oldest c2 (Z.of_nat (List.length payload) + 8)
                     = payload ++ packet_footer type payload).
      { unfold oldest. rewrite Hring2, Hbody. apply firstn_all2.
        rewrite length_app. unfold packet_footer.
        rewrite length_app, length_le_split, zeroed_length. lia. }
      assert (Hdrained : after_read c2 (Z.of_nat (List.length payload) + 8)
                         = drained receiver).
      { unfold after_read, drained. rewrite Hring2, Hbody.
        rewrite skipn_all2; [reflexivity|].
        rewrite length_app. unfold packet_footer.
        rewrite length_app, length_le_split, zeroed_length. lia. }
      rewrite Hold, Hdrained.
      pose proof (stream_crc_matches type payload Ht ltac:(lia)) as Hcrc.
      fold header in Hcrc. fold (packet_footer type payload) in Hcrc.
      rewrite Hcrc.
      change (Backend.with_header
                (Backend.with_control_channel p2 (Some (drained receiver)))
                (set_length header 0)) with consumer'.
      change (Backend.current_packet_header consumer')
        with (delivered_header type).
      unfold bind.
      destruct (Backend.__handle_control_packet_receipt _ _ _ _)
        as [[] w1 | why w1 |]; try reflexivity.
      unfold pv_helper_free. rewrite emit_log. unfold ret.
      rewrite (consumer_loop_idle fuel true consumer' (drained receiver))
        by (reflexivity || assumption || (cbn; lia)).
      reflexivity.
Qed.

Lemma control_packet_in_two_pieces_witness :
  let type := PACKET_TYPE_CONTROL_DRIVER_CAPABILITIES in
  let payload :=
    Provider.driver_capabilities_bytes
      (Provider.mk_capabilities 2 PV_DRIVER_INTERFACE_VERSION 0 0) in
  let receiver := channel_holding (firstn 20 capabilities_packet) in
  let consumer := consumer_holding (firstn 20 capabilities_packet) in
  let consumer' :=
    Backend.with_header
      (Backend.with_control_channel consumer (Some (drained receiver)))
      (delivered_header type) in
  exists waiting,
    Backend.__handle_control_channel_event 1 consumer quiet_world
    = Done waiting quiet_world
    /\ Backend.__handle_control_channel_event
         2 (after_arrival waiting (skipn 20 (packet_bytes type payload)))
         quiet_world
       = (Backend.__handle_control_packet_receipt
            consumer' (delivered_header type)
            (payload ++ packet_footer type payload) ;;;
          pv_helper_free ;;; ret consumer')
           (log quiet_world [EvMalloc (Z.of_nat (List.length payload) + 8)]).
Proof.
  apply (control_packet_in_two_pieces
           (consumer_holding (firstn 20 capabilities_packet))
           (channel_holding (firstn 20 capabilities_packet))
           PACKET_TYPE_CONTROL_DRIVER_CAPABILITIES
           (Provider.driver_capabilities_bytes
              (Provider.mk_capabilities 2 PV_DRIVER_INTERFACE_VERSION 0 0))
           20 0 quiet_world);
    unfold consumer_listening; concrete.
Defined.

(** ** Packets of a type the receiver does not handle *)

(** X17.  A well-formed control packet of a type the receiving side does
    not handle is taken out of the ring, reported and otherwise ignored:
    no handler is entered, the receive buffer is released and the decoder
    is ready for the next packet.  For the consumer these are all types
    but driver capabilities, advertised display list, display no longer
    available and text mode; for the provider all types but host display
    list, add display and remove display; so each side ignores the packets
    that only the other side is meant to receive. *)
Theorem unhandled_packet_types_are_ignored
  (consumer : Backend.pv_display_consumer)
  (provider : Provider.pv_display_provider)
  (receiver : libivc_client) (type : Z) (payload : list byte)
  (fuel : nat) (w : world) :
  w_out_of_memory w = false ->
  0 <= type < 2 ^ 32 ->
  1 <= Z.of_nat (List.length payload) < 2 ^ 32 ->
  ivc_ring receiver = packet_bytes type payload ->
  let ignored :=
    [EvMalloc (Z.of_nat (List.length payload) + 8);
     EvError "Received unknown or unexpected packet type";
     EvFree] in
  (consumer_listening consumer receiver ->
   ~ In type [PACKET_TYPE_CONTROL_DRIVER_CAPABILITIES;
              PACKET_TYPE_CONTROL_ADVERTISED_DISPLAY_LIST;
              PACKET_TYPE_CONTROL_DISPLAY_NO_LONGER_AVAILABLE;
              PACKET_TYPE_CONTROL_TEXT_MODE] ->
   Backend.__handle_control_channel_event (S (S fuel)) consumer w
   = Done (Backend.with_header
             (Backend.with_control_channel consumer
                                           (Some (drained receiver)))
             (delivered_header type))
          (log w ignored))
  /\ (provider_listening provider receiver ->
      ~ In type [PACKET_TYPE_CONTROL_HOST_DISPLAY_LIST;
                 PACKET_TYPE_CONTROL_ADD_DISPLAY;
                 PACKET_TYPE_CONTROL_REMOVE_DISPLAY] ->
      Provider.__handle_control_channel_event (S (S fuel)) provider w
      = Done (Provider.with_header
                (Provider.with_control_channel provider
                                               (Some (drained receiver)))
                (delivered_header type))
             (log w ignored)).
Proof.
  intros Hmem Ht Hn Hring ignored. split.
  - intros Hlisten Hnot.
    apply (consumer_decodes_one_packet fuel consumer receiver w type payload
             [EvError "Received unknown or unexpected packet type"]);
      try assumption.
    intros w1. unfold Backend.__handle_control_packet_receipt.
    cbn [h_type delivered_header].
    cbn [In] in Hnot.
    repeat match goal with
           | |- context [type =? ?k] =>
             replace (type =? k) with false
               by (symmetry; apply Z.eqb_neq; intros ->; apply Hnot; auto)
           end.
    unfold pv_display_error. apply emit_log.
  - intros Hlisten Hnot.
    apply (provider_decodes_packet fuel provider receiver w type payload
             [EvError "Received unknown or unexpected packet type"]);
      try assumption.
    intros w1. unfold Provider.__handle_control_packet_receipt.
    cbn [h_type delivered_header].
    cbn [In] in Hnot.
    repeat match goal with
           | |- context [type =? ?k] =>
             replace (type =? k) with false
               by (symmetry; apply Z.eqb_neq; intros ->; apply Hnot; auto)
           end.
    unfold pv_display_error. apply emit_log.
Qed.

Lemma unhandled_packet_types_are_ignored_witness :
  let type := PACKET_TYPE_EVENT_SET_DISPLAY in
  let payload := Provider.set_display_bytes 1920 1080 7680 in
  let receiver := channel_holding set_display_packet in
  let consumer := consumer_holding set_display_packet in
  let provider := provider_holding set_display_packet in
  let ignored :=
    [EvMalloc (Z.of_nat (List.length payload) + 8);
     EvError "Received unknown or unexpected packet type";
     EvFree] in
  (consumer_listening consumer receiver ->
   ~ In type [PACKET_TYPE_CONTROL_DRIVER_CAPABILITIES;
              PACKET_TYPE_CONTROL_ADVERTISED_DISPLAY_LIST;
              PACKET_TYPE_CONTROL_DISPLAY_NO_LONGER_AVAILABLE;
              PACKET_TYPE_CONTROL_TEXT_MODE] ->
   Backend.__handle_control_channel_event 2 consumer quiet_world
   = Done (Backend.with_header
             (Backend.with_control_channel consumer
                                           (Some (drained receiver)))
             (delivered_header type))
          (log quiet_world ignored))
  /\ (provider_listening provider receiver ->
      ~ In type [PACKET_TYPE_CONTROL_HOST_DISPLAY_LIST;
                 PACKET_TYPE_CONTROL_ADD_DISPLAY;
                 PACKET_TYPE_CONTROL_REMOVE_DISPLAY] ->
      Provider.__handle_control_channel_event 2 provider quiet_world
      = Done (Provider.with_header
                (Provider.with_control_channel provider
                                               (Some (drained receiver)))
                (delivered_header type))
             (log quiet_world ignored)).
Proof.
  apply (unhandled_packet_types_are_ignored
           (consumer_holding set_display_packet)
           (provider_holding set_display_packet)
           (channel_holding set_display_packet)
           PACKET_TYPE_EVENT_SET_DISPLAY
           (Provider.set_display_bytes 1920 1080 7680) 0 quiet_world);
    concrete.
Defined.

(** ** The dirty-rectangle queue *)

Lemma load_word_12 (a b c d : Z) (tail : list byte) :
  uint32 d ->
  le_combine
    (load (le_split 4 a ++ le_split 4 b ++ le_split 4 c ++ le_split 4 d
             ++ tail) 12 4) = d.
Proof.
  intros Hd.
  rewrite (app_assoc (le_split 4 a) (le_split 4 b)).
  rewrite (app_assoc (le_split 4 a ++ le_split 4 b) (le_split 4 c)).
  rewrite (load_middle ((le_split 4 a ++ le_split 4 b) ++ le_split 4 c)
                       (le_split 4 d)) by reflexivity.
  apply le_combine_split_small. exact Hd.
Qed.

Lemma rectangle_bytes_length (r : rectangle) :
  List.length (rectangle_bytes r) = 16%nat.
Proof. reflexivity. Qed.

Lemma rectangle_words (r : rectangle) :
  rectangle_in_range r ->
  let rect := rectangle_bytes r in
  [AInt (le_combine (load rect 0 4)); AInt (le_combine (load rect 4 4));
   AInt (le_combine (load rect 8 4)); AInt (le_combine (load rect 12 4))]
  = [AInt (r_x r); AInt (r_y r); AInt (r_width r); AInt (r_height r)].
Proof.
  intros (Hx & Hy & Hw & Hh). cbv zeta.
  unfold rectangle_bytes, Provider.dirty_rectangle_bytes.
  rewrite load_word_0, load_word_4 by assumption.
  rewrite <- (app_nil_r (le_split 4 (r_height r))).
  rewrite load_word_8, load_word_12 by assumption.
  reflexivity.
Qed.

(** The loop of the dirty-rectangle callback over a queue of records. *)
Lemma dirty_rectangle_loop_delivers (handler : nat)
  (rects : list rectangle) (rest : list byte) :
  Forall rectangle_in_range rects ->
  (List.length rest < 16)%nat ->
  forall (d : Backend.pv_display_backend) (c : libivc_client) (w : world),
    Backend.dirty_rectangles_connection d = Some c ->
    ivc_open c = true -> ivc_recv_rc c = 0 ->
    Backend.dirty_rectangle_handler d = Some handler ->
    ivc_ring c = List.concat (map rectangle_bytes rects) ++ rest ->
    ring_data c < 2 ^ 64 ->
    Backend.dirty_rectangle_loop (S (List.length rects)) (ring_data c) d w
    = Done (Backend.with_dirty_rectangles_connection
              d (Some (ivc_update c rest (ivc_calls c))))
           (log w (map (rectangle_call handler) rects)).
Proof.
  intros Hrange Hrest.
  induction Hrange as [|r rects Hr Hrange IH];
    intros d c w Hc Hopen Hrecv Hhandler Hring Hfit.
  - cbn [map List.concat app List.length] in *.
    cbn [Backend.dirty_rectangle_loop].
    unfold sizeof_dh_dirty_rectangle.
    replace (ring_data c >=? 16) with false
      by (symmetry; rewrite Z.geb_leb; apply Z.leb_gt; unfold ring_data;
          rewrite Hring; lia).
    cbn [andb]. rewrite log_nil. unfold ret. f_equal.
    rewrite <- Hring. destruct d, c. cbn in *. rewrite Hc. reflexivity.
  - cbn [map List.concat List.length] in *.
    rewrite <- app_assoc in Hring.
    remember (S (List.length rects)) as fuel eqn:Hfuel.
    cbn [Backend.dirty_rectangle_loop]. subst fuel.
    rewrite Hc. unfold sizeof_dh_dirty_rectangle, libivc_isOpen.
    rewrite Hopen.
    assert (Hdata : 16 <= ring_data c).
    { unfold ring_data. rewrite Hring, length_app, rectangle_bytes_length.
      lia. }
    replace (ring_data c >=? 16) with true
      by (symmetry; rewrite Z.geb_leb; apply Z.leb_le; assumption).
    cbn [andb].
    rewrite libivc_recv_enough by (auto; lia).
    assert (Hold : oldest c 16 = rectangle_bytes r).
    { unfold oldest. rewrite Hring. apply firstn_app_exact. reflexivity. }
    rewrite Hold.
    rewrite (store_whole (zeroed 16)) by reflexivity.
    rewrite (rectangle_words r Hr).
    set (c1 := after_read c 16).
    set (d1 := Backend.with_dirty_rectangles_connection d (Some c1)).
    change (Backend.dirty_rectangle_handler d1)
      with (Backend.dirty_rectangle_handler d).
    rewrite Hhandler. unfold call_unchecked, call_user, bind at 1.
    rewrite emit_log.
    assert (Hring1 : ivc_ring c1
                     = List.concat (map rectangle_bytes rects) ++ rest).
    { cbn [c1 after_read ivc_ring ivc_update]. rewrite Hring.
      apply skipn_app_exact. reflexivity. }
    assert (Hless : ring_data c1 = ring_data c - 16).
    { unfold ring_data. rewrite Hring1, Hring, !length_app,
        rectangle_bytes_length. lia. }
    assert (Havail : to_size_t (ring_data c - 16) = ring_data c1).
    { rewrite Hless. apply to_size_t_small. lia. }
    rewrite Havail.
    rewrite (IH d1 c1 _ eq_refl Hopen Hrecv Hhandler Hring1) by lia.
    rewrite log_log. reflexivity.
Qed.

(** X18.  Dirty rectangles are delivered in the order they were queued.  A
    display backend with a dirty-rectangle handler, whose dirty-rectangle
    ring is open and holds the 16-byte records of any list of in-range
    rectangles followed by less than one record, enters the handler once
    per record, in queue order, with the x, y, width and height of each;
    the incomplete record stays in the ring for a later callback. *)
Theorem dirty_rectangles_are_delivered_in_order
  (rects : list rectangle) (rest : list byte)
  (d : Backend.pv_display_backend) (c : libivc_client) (handler : nat)
  (w : world) :
  Forall rectangle_in_range rects ->
  (List.length rest < 16)%nat ->
  Backend.dirty_rectangles_connection d = Some c ->
  ivc_open c = true -> can_receive c -> ring_data c < 2 ^ 64 ->
  Backend.dirty_rectangle_handler d = Some handler ->
  ivc_ring c = List.concat (map rectangle_bytes rects) ++ rest ->
  Backend.__handle_dirty_rectangle_event (S (List.length rects)) d w
  = Done (Backend.with_dirty_rectangles_connection
            d (Some (ivc_update c rest (ivc_calls c))))
         (log w (map (rectangle_call handler) rects)).
Proof.
  intros Hrange Hrest Hc Hopen [Hq Hr] Hfit Hhandler Hring.
  unfold Backend.__handle_dirty_rectangle_event.
  rewrite Hc. unfold libivc_getAvailableData. rewrite Hq.
  change (0 =? 0) with true. cbv beta iota.
  apply (dirty_rectangle_loop_delivers handler rects rest Hrange Hrest
           d c w Hc Hopen Hr Hhandler Hring Hfit).
Qed.

Lemma dirty_rectangles_are_delivered_in_order_witness :
  let rects := [mk_rectangle 10 10 5 5; mk_rectangle 0 0 1920 1080] in
  let rest := [Byte.x01; Byte.x02; Byte.x03] in
  let bytes := List.concat (map rectangle_bytes rects) ++ rest in
  Backend.__handle_dirty_rectangle_event
    (S (List.length rects)) (backend_with_rectangles bytes) quiet_world
  = Done (Backend.with_dirty_rectangles_connection
            (backend_with_rectangles bytes)
            (Some (ivc_update (channel_holding bytes) rest
                              (ivc_calls (channel_holding bytes)))))
         (log quiet_world (map (rectangle_call 15) rects)).
Proof.
  apply (dirty_rectangles_are_delivered_in_order
           [mk_rectangle 10 10 5 5; mk_rectangle 0 0 1920 1080]
           [Byte.x01; Byte.x02; Byte.x03]
           (backend_with_rectangles
              (List.concat
                 (map rectangle_bytes
                      [mk_rectangle 10 10 5 5; mk_rectangle 0 0 1920 1080])
               ++ [Byte.x01; Byte.x02; Byte.x03]))
           (channel_holding
              (List.concat
                 (map rectangle_bytes
                      [mk_rectangle 10 10 5 5; mk_rectangle 0 0 1920 1080])
               ++ [Byte.x01; Byte.x02; Byte.x03]))
           15%nat quiet_world).
  - repeat constructor; unfold uint32; cbn; lia.
  - cbn. lia.
  - reflexivity.
  - reflexivity.
  - concrete.
  - vm_compute. reflexivity.
  - reflexivity.
  - reflexivity.
Defined.


(** The queue of a display, over any sequence of invalidations and reads by
    the peer: the ring stays within its capacity, and whenever it has no
    room for a record its newest record is the full-screen rectangle. *)
Lemma queue_steps_keep_full_refresh (user : Provider.display_user_code)
  (display : Provider.pv_display) (capacity : Z)
  (steps : list queue_step) :
  16 <= capacity ->
  forall (d : Provider.pv_display) (c : libivc_client) (w : world),
    Provider.dirty_rectangles_connection d = Some c ->
    ivc_open c = true -> ivc_query_rc c = 0 -> ivc_send_rc c = 0 ->
    ivc_recv_rc c = 0 -> ivc_capacity c = capacity ->
    Provider.width d = Provider.width display ->
    Provider.height d = Provider.height display ->
    0 <= ring_space c ->
    (ring_space c < 16 -> ends_with_full_refresh c display) ->
    exists d' c',
      run_queue user steps d w = Done d' w
      /\ Provider.dirty_rectangles_connection d' = Some c'
      /\ ivc_open c' = true /\ ivc_query_rc c' = 0 /\ ivc_send_rc c' = 0
      /\ 0 <= ring_space c'
      /\ (ring_space c' < 16 -> ends_with_full_refresh c' display).
Proof.
  intros Hcap. induction steps as [|step steps IH];
    intros d c w Hc Hopen Hq Hs Hr Hcapacity Hwidth Hheight Hspace Hfull.
  - exists d, c. cbn [run_queue]. unfold ret. repeat split; assumption.
  - destruct step as [r|]; cbn [run_queue].
    + unfold Provider.pv_display_invalidate_region. rewrite Hc.
      unfold libivc_getAvailableSpace. rewrite Hq.
      change (negb (0 =? 0)) with false. cbv beta iota.
      unfold sizeof_dh_dirty_rectangle.
      destruct (ring_space c <? 16) eqn:H16.
      * unfold bind at 1, ret at 1.
        apply (IH d c w); assumption.
      * apply Z.ltb_ge in H16.
        assert (Hsend : forall record : list byte,
                  List.length record = 16%nat ->
                  libivc_send (Some c) record 16
                  = (0, Some (ivc_update c (ivc_ring c ++ record)
                                (ivc_calls c ++ [CallSend record])))).
        { intros record Hlen. unfold libivc_send.
          rewrite Hs, Hopen.
          replace (16 <=? ring_space c) with true
            by (symmetry; apply Z.leb_le; assumption).
          change (negb (0 =? 0)) with false. cbn [andb].
          change (Z.to_nat 16) with 16%nat.
          rewrite <- Hlen, firstn_all. reflexivity. }
        destruct (ring_space c <? 16 * 2) eqn:H32.
        -- apply Z.ltb_lt in H32.
           rewrite Hsend by reflexivity.
           unfold bind at 1, ret at 1.
           set (c1 := ivc_update c _ _).
           apply (IH (Provider.with_dirty_rectangles_connection d (Some c1))
                     c1 w); try assumption; try reflexivity.
           ++ unfold ring_space in *.
              cbn [c1 ivc_capacity ivc_ring ivc_update].
              rewrite length_app, dirty_rectangle_bytes_length. lia.
           ++ intros _. exists (ivc_ring c).
              cbn [c1 ivc_ring ivc_update].
              unfold rectangle_bytes, full_screen.
              cbn [r_x r_y r_width r_height].
              rewrite Hwidth, Hheight. reflexivity.
        -- apply Z.ltb_ge in H32.
           rewrite Hsend by reflexivity.
           unfold bind at 1, ret at 1.
           set (c1 := ivc_update c _ _).
           assert (Hspace1 : ring_space c1 = ring_space c - 16).
           { unfold ring_space. cbn [c1 ivc_capacity ivc_ring ivc_update].
             rewrite length_app, dirty_rectangle_bytes_length. lia. }
           apply (IH (Provider.with_dirty_rectangles_connection d (Some c1))
                     c1 w); try assumption; try reflexivity; lia.
    + unfold peer_reads. rewrite Hc.
      unfold libivc_recv, sizeof_dh_dirty_rectangle. rewrite Hr.
      change (negb (0 =? 0)) with false. cbv beta iota.
      destruct (16 <=? ring_data c) eqn:Hdata.
      * apply Z.leb_le in Hdata.
        set (c1 := ivc_update c _ _).
        assert (Hspace1 : ring_space c1 = ring_space c + 16).
        { unfold ring_space, ring_data in *.
          cbn [c1 ivc_capacity ivc_ring ivc_update].
          rewrite length_skipn. lia. }
        apply (IH (Provider.with_dirty_rectangles_connection d (Some c1))
                  c1 w); try assumption; try reflexivity; lia.
      * apply (IH (Provider.with_dirty_rectangles_connection d (Some c))
                  c w); try assumption; reflexivity.
Qed.

(** X19.  A dirty region is dropped only while a full-screen refresh is the
    newest record in the queue.  Start from a display whose dirty-rectangle
    ring is open, working and empty, with room for at least one record, and
    let the driver invalidate regions and the peer take records out of the
    ring in any order and number: nothing is reported and no user code is
    entered, and whenever [pv_display_invalidate_region] then answers
    [-EAGAIN] (the region is dropped), the ring ends with the record of the
    rectangle that covers the whole display. *)
Theorem dropped_regions_are_covered_by_a_full_refresh
  (user : Provider.display_user_code) (steps : list queue_step)
  (display : Provider.pv_display) (c : libivc_client) (w : world) :
  Provider.dirty_rectangles_connection display = Some c ->
  ivc_open c = true -> ivc_query_rc c = 0 -> ivc_send_rc c = 0 ->
  ivc_recv_rc c = 0 -> ivc_ring c = [] -> 16 <= ivc_capacity c ->
  exists display' c',
    run_queue user steps display w = Done display' w
    /\ Provider.dirty_rectangles_connection display' = Some c'
    /\ (forall (r : rectangle) (dropped : Provider.pv_display) (w' : world),
        Provider.pv_display_invalidate_region
          user display' (r_x r) (r_y r) (r_width r) (r_height r) w
        = Done (- EAGAIN, dropped) w' ->
        ends_with_full_refresh c' display).
Proof.
  intros Hc Hopen Hq Hs Hr Hring Hcap.
  destruct (queue_steps_keep_full_refresh user display (ivc_capacity c)
              steps Hcap display c w Hc Hopen Hq Hs Hr eq_refl eq_refl
              eq_refl)
    as (d' & c' & Hrun & Hc' & Hopen' & Hq' & Hs' & Hspace' & Hfull').
  { unfold ring_space. rewrite Hring. cbn [List.length]. lia. }
  { intros Hlt. unfold ring_space in Hlt. rewrite Hring in Hlt.
    cbn [List.length] in Hlt. lia. }
  exists d', c'. split; [assumption|]. split; [assumption|].
  intros r dropped w' Hdrop. apply Hfull'.
  revert Hdrop.
  unfold Provider.pv_display_invalidate_region. rewrite Hc'.
  unfold libivc_getAvailableSpace. rewrite Hq'.
  change (negb (0 =? 0)) with false. cbv beta iota.
  unfold sizeof_dh_dirty_rectangle.
  destruct (ring_space c' <? 16) eqn:H16; [intros _; apply Z.ltb_lt; assumption|].
  apply Z.ltb_ge in H16.
  unfold libivc_send. rewrite Hs', Hopen'.
  replace (16 <=? ring_space c') with true
    by (symmetry; apply Z.leb_le; assumption).
  change (negb (0 =? 0)) with false. cbn [andb].
  destruct (ring_space c' <? 16 * 2); unfold ret; intros H;
    injection H as H _; discriminate.
Qed.

Lemma dropped_regions_are_covered_by_a_full_refresh_witness :
  let steps := [Invalidate (mk_rectangle 10 10 5 5);
                Invalidate (mk_rectangle 20 20 5 5);
                Invalidate (mk_rectangle 30 30 5 5)] in
  exists display' c',
    run_queue Provider.returning_handler steps display_with_short_queue
              quiet_world
    = Done display' quiet_world
    /\ Provider.dirty_rectangles_connection display' = Some c'
    /\ (forall (r : rectangle) (dropped : Provider.pv_display) (w' : world),
        Provider.pv_display_invalidate_region
          Provider.returning_handler display' (r_x r) (r_y r) (r_width r)
          (r_height r) quiet_world
        = Done (- EAGAIN, dropped) w' ->
        ends_with_full_refresh c' display_with_short_queue).
Proof.
  apply (dropped_regions_are_covered_by_a_full_refresh
           Provider.returning_handler
           [Invalidate (mk_rectangle 10 10 5 5);
            Invalidate (mk_rectangle 20 20 5 5);
            Invalidate (mk_rectangle 30 30 5 5)]
           display_with_short_queue three_record_ring quiet_world);
    concrete.
Defined.

(** ** The provider's control callback on arbitrary input *)

Lemma allocations_app (a b : list event) :
  allocations (a ++ b) = (allocations a + allocations b)%nat.
Proof. unfold allocations. rewrite filter_app, length_app. reflexivity. Qed.

Lemma releases_app (a b : list event) :
  releases (a ++ b) = (releases a + releases b)%nat.
Proof. unfold releases. rewrite filter_app, length_app. reflexivity. Qed.

Lemma load_length_le (buf : list byte) (off n : Z) :
  (List.length (load buf off n) <= Z.to_nat n)%nat.
Proof. unfold load. apply firstn_le_length. Qed.

Lemma header_length_range (bs : list byte) :
  uint32 (h_length (header_of_bytes bs)).
Proof.
  unfold uint32, header_of_bytes, h_length.
  pose proof (le_combine_bound (load bs 8 4)) as Hb.
  pose proof (load_length_le bs 8 4) as Hl.
  change (Z.to_nat 4) with 4%nat in Hl.
  assert (Hpow : 2 ^ (8 * Z.of_nat (List.length (load bs 8 4))) <= 2 ^ 32)
    by (apply Z.pow_le_mono_r; lia).
  lia.
Qed.

(** The fatal-error notification of the provider returns, and neither
    allocates nor releases. *)
Lemma provider_fatal_returns (p : Provider.pv_display_provider) (w : world) :
  exists es,
    Provider.__trigger_fatal_error_on_provider p w = Done tt (log w es)
    /\ allocations es = 0%nat /\ releases es = 0%nat.
Proof.
  unfold Provider.__trigger_fatal_error_on_provider.
  destruct (Provider.fatal_error_handler p) as [fn|].
  - exists [EvCall fn []]. unfold call_user. rewrite emit_log. auto.
  - exists []. rewrite log_nil. auto.
Qed.

(** The dispatcher of the provider returns on every header and on every
    buffer that has room for a count. *)
Lemma provider_dispatch_returns (p : Provider.pv_display_provider)
  (header : dh_header) (buffer : list byte) (w : world) :
  4 <= Z.of_nat (List.length buffer) ->
  exists es,
    Provider.__handle_control_packet_receipt p header buffer w
    = Done tt (log w es)
    /\ allocations es = 0%nat /\ releases es = 0%nat.
Proof.
  intros Hlen. unfold Provider.__handle_control_packet_receipt.
  destruct (h_type header =? PACKET_TYPE_CONTROL_HOST_DISPLAY_LIST).
  { unfold Provider.__handle_host_display_changed_event.
    destruct (Provider.host_display_change_handler p) as [fn|].
    - unfold bind. rewrite read_u32_ok by lia.
      eexists. unfold call_user. rewrite emit_log. auto.
    - exists []. rewrite log_nil. auto. }
  destruct (h_type header =? PACKET_TYPE_CONTROL_ADD_DISPLAY).
  { unfold Provider.__handle_add_display_request.
    destruct (Provider.add_display_handler p) as [fn|];
      eexists; unfold call_user, pv_display_error; rewrite emit_log; auto. }
  destruct (h_type header =? PACKET_TYPE_CONTROL_REMOVE_DISPLAY).
  { unfold Provider.__handle_remove_display_request.
    destruct (Provider.remove_display_handler p) as [fn|];
      eexists; unfold call_user, pv_display_error; rewrite emit_log; auto. }
  eexists. unfold pv_display_error. rewrite emit_log. auto.
Qed.

(** Reading a header: either 16 bytes leave the ring, or nothing changes. *)
Lemma provider_read_header_cases (p : Provider.pv_display_provider)
  (w : world) :
  exists b p',
    Provider.__try_to_read_header p w = Done (b, p') w
    /\ (b = true
        /\ (waiting_bytes (Provider.control_channel p') + 16
            = waiting_bytes (Provider.control_channel p))%nat
        /\ uint32 (h_length (Provider.current_packet_header p'))
        \/ b = false
           /\ waiting_bytes (Provider.control_channel p')
              = waiting_bytes (Provider.control_channel p)
           /\ Provider.current_packet_header p'
              = Provider.current_packet_header p).
Proof.
  unfold Provider.__try_to_read_header, libivc_recv, sizeof_dh_header.
  destruct (Provider.control_channel p) as [c|] eqn:Hc.
  - destruct (ivc_recv_rc c =? 0) eqn:Hrc; cbn [negb].
    + destruct (16 <=? ring_data c) eqn:Hdata.
      * apply Z.leb_le in Hdata. unfold ring_data in Hdata.
        do 2 eexists. split; [reflexivity|]. left.
        split; [reflexivity|]. split.
        -- cbn. rewrite length_skipn. change (Z.to_nat 16) with 16%nat. lia.
        -- apply header_length_range.
      * do 2 eexists. split; [reflexivity|]. right.
        split; [reflexivity|]. split; reflexivity.
    + do 2 eexists. split; [reflexivity|]. right.
      unfold SUCCESS. rewrite Hrc. split; [reflexivity|].
      split; reflexivity.
  - do 2 eexists. split; [reflexivity|]. right.
    split; [reflexivity|]. split; reflexivity.
Qed.

Ltac cases_done :=
  repeat split; try discriminate; try reflexivity; try assumption;
  try (unfold uint32 in *; cbn [waiting_bytes] in *; lia).

Lemma provider_receive_cases (p : Provider.pv_display_provider)
  (w : world) :
  w_out_of_memory w = false ->
  uint32 (h_length (Provider.current_packet_header p)) ->
  exists b p' es,
    Provider.__try_to_receive_control_packet p w = Done (b, p') (log w es)
    /\ allocations es = releases es
    /\ (waiting_bytes (Provider.control_channel p')
        <= waiting_bytes (Provider.control_channel p))%nat
    /\ (b = true ->
        (waiting_bytes (Provider.control_channel p')
         < waiting_bytes (Provider.control_channel p))%nat)
    /\ uint32 (h_length (Provider.current_packet_header p')).
Proof.
  intros Hmem Hlen. unfold uint32 in Hlen.
  unfold Provider.__try_to_receive_control_packet,
    Provider.receive_control_packet_via, sizeof_dh_footer.
  rewrite to_size_t_small by lia.
  set (need := h_length (Provider.current_packet_header p) + 8).
  destruct (Provider.control_channel p) as [c|] eqn:Hc;
    cbn [libivc_getAvailableData].
  2:{ (* no client: the query is refused *)
    change (negb (IVC_REFUSED =? 0)) with true. cbv beta iota.
    unfold bind at 1, pv_display_error. rewrite emit_log.
    destruct (provider_fatal_returns p
                (log w [EvError "Could not query IVC for its available data"]))
      as (es & Hfatal & Ha & Hf).
    unfold bind. rewrite Hfatal. rewrite log_log.
    do 3 eexists. split; [reflexivity|].
    rewrite allocations_app, releases_app, Ha, Hf, Hc.
    cases_done. }
  destruct (negb (ivc_query_rc c =? 0)) eqn:Hrc.
  { (* the query fails *)
    unfold bind at 1, pv_display_error. rewrite emit_log.
    destruct (provider_fatal_returns p
                (log w [EvError "Could not query IVC for its available data"]))
      as (es & Hfatal & Ha & Hf).
    unfold bind. rewrite Hfatal. rewrite log_log.
    do 3 eexists. split; [reflexivity|].
    rewrite allocations_app, releases_app, Ha, Hf, Hc.
    cases_done. }
  destruct (ring_data c <? need) eqn:Hdata.
  { exists false, p, []. rewrite log_nil, Hc.
    cases_done. }
  apply Z.ltb_ge in Hdata.
  unfold bind at 1, pv_helper_malloc. rewrite Hmem.
  unfold bind at 1. rewrite emit_log. unfold ret at 1.
  unfold libivc_recv.
  destruct (ivc_recv_rc c =? 0) eqn:Hrecv; cbn [negb].
  2:{ (* the read fails *)
    rewrite Hrecv. cbn [negb].
    unfold bind, pv_display_error, pv_helper_free, ret.
    rewrite !emit_log, !log_log.
    do 3 eexists. split; [reflexivity|].
    cbn [Provider.control_channel Provider.with_control_channel
         Provider.current_packet_header waiting_bytes].
    cases_done. }
  replace (need <=? ring_data c) with true
    by (symmetry; apply Z.leb_le; assumption).
  change (negb (0 =? 0)) with false. cbv beta iota.
  set (data := firstn (Z.to_nat need) (ivc_ring c)).
  set (c' := ivc_update c (skipn (Z.to_nat need) (ivc_ring c)) (ivc_calls c)).
  set (p1 := Provider.with_control_channel p (Some c')).
  assert (Hdlen : List.length data = Z.to_nat need).
  { subst data. apply firstn_length_le. unfold ring_data in Hdata. lia. }
  assert (Hbuf : store (zeroed need) 0 data = data).
  { apply store_whole. rewrite zeroed_length. symmetry. assumption. }
  rewrite Hbuf.
  assert (Hshrink : (waiting_bytes (Some c') < waiting_bytes (Some c))%nat).
  { cbn [waiting_bytes c' ivc_ring ivc_update]. rewrite length_skipn.
    unfold ring_data in Hdata. subst need. lia. }
  change (Provider.current_packet_header p1)
    with (Provider.current_packet_header p).
  match goal with
  | |- context [if negb (?a =? ?b) then _ else _] =>
    destruct (negb (a =? b))
  end.
  - (* the CRC does not match *)
    unfold bind at 1, pv_display_error. rewrite emit_log.
    unfold bind at 1, pv_helper_free. rewrite emit_log.
    match goal with
    | |- context [(Provider.__trigger_fatal_error_on_provider ?q ;;; _) ?w0] =>
      destruct (provider_fatal_returns q w0) as (es & Hfatal & Ha & Hf)
    end.
    unfold bind, ret. rewrite Hfatal. rewrite !log_log.
    do 3 eexists. split; [reflexivity|].
    rewrite !allocations_app, !releases_app, Ha, Hf.
    cbn [Provider.control_channel Provider.with_control_channel
         Provider.with_header Provider.current_packet_header p1
         set_length h_length].
    cases_done.
  - (* the packet is dispatched *)
    match goal with
    | |- context [(Provider.__handle_control_packet_receipt ?q ?h ?b ;;; _) _] =>
      destruct (provider_dispatch_returns q h b
                  (log w [EvMalloc need]))
        as (es & Hdispatch & Ha & Hf);
        [rewrite Hdlen; subst need; lia|]
    end.
    unfold bind at 1. rewrite Hdispatch.
    unfold bind, pv_helper_free, ret. rewrite emit_log, !log_log.
    do 3 eexists. split; [reflexivity|].
    rewrite !allocations_app, !releases_app, Ha, Hf.
    cbn [Provider.control_channel Provider.with_control_channel
         Provider.with_header Provider.current_packet_header p1
         set_length h_length].
    cases_done.
Qed.

(** The loop, for any number of bytes in the ring. *)
Lemma provider_loop_returns (n : nat) :
  forall (continue_to_read : bool) (p : Provider.pv_display_provider)
         (w : world),
    w_out_of_memory w = false ->
    uint32 (h_length (Provider.current_packet_header p)) ->
    (waiting_bytes (Provider.control_channel p) <= n)%nat ->
    exists p' es,
      Provider.control_channel_loop (S n) continue_to_read p w
      = Done p' (log w es)
      /\ allocations es = releases es.
Proof.
  induction n as [|n IH]; intros b p w Hmem Hlen Hwait.
  - cbn [Provider.control_channel_loop].
    destruct (h_length (Provider.current_packet_header p) =? 0) eqn:Hzero.
    + destruct (provider_read_header_cases p w)
        as (b1 & p1 & Hread & [(Hb & Hw1 & Hl1) | (Hb & Hw1 & Hh1)]);
        [lia|].
      unfold bind at 1. rewrite Hread. subst b1.
      rewrite Hh1. apply Z.eqb_eq in Hzero. rewrite Hzero.
      change (0 >? 0) with false. cbv beta iota.
      unfold bind, ret. exists p1, []. rewrite log_nil. auto.
    + apply Z.eqb_neq in Hzero. unfold bind at 1, ret at 1.
      replace (h_length (Provider.current_packet_header p) >? 0) with true
        by (symmetry; apply Z.gtb_lt; unfold uint32 in Hlen; lia).
      destruct (provider_receive_cases p w Hmem Hlen)
        as (b1 & p1 & es & Hrecv & Hbal & Hle & Hlt & Hl1).
      unfold bind. rewrite Hrecv.
      destruct b1; [specialize (Hlt eq_refl); lia|].
      exists p1, es. auto.
  - remember (S n) as fuel eqn:Hfuel.
    cbn [Provider.control_channel_loop]. subst fuel.
    destruct (h_length (Provider.current_packet_header p) =? 0) eqn:Hzero.
    + destruct (provider_read_header_cases p w)
        as (b1 & p1 & Hread & [(Hb & Hw1 & Hl1) | (Hb & Hw1 & Hh1)]).
      * unfold bind at 1. rewrite Hread. subst b1.
        destruct (h_length (Provider.current_packet_header p1) >? 0)
          eqn:Hpos.
        -- destruct (provider_receive_cases p1 w Hmem Hl1)
             as (b2 & p2 & es & Hrecv & Hbal & Hle & Hlt & Hl2).
           unfold bind at 1. rewrite Hrecv.
           destruct b2.
           ++ destruct (IH true p2 (log w es) Hmem Hl2 ltac:(lia))
                as (p' & es' & Hloop & Hbal').
              rewrite Hloop, log_log. exists p', (es ++ es').
              split; [reflexivity|].
              rewrite allocations_app, releases_app. lia.
           ++ exists p2, es. auto.
        -- unfold bind at 1, ret at 1.
           destruct (IH true p1 w Hmem Hl1 ltac:(lia))
             as (p' & es' & Hloop & Hbal').
           exists p', es'. auto.
      * unfold bind at 1. rewrite Hread. subst b1.
        rewrite Hh1. apply Z.eqb_eq in Hzero. rewrite Hzero.
        change (0 >? 0) with false. cbv beta iota.
        unfold bind, ret. exists p1, []. rewrite log_nil. auto.
    + apply Z.eqb_neq in Hzero. unfold bind at 1, ret at 1.
      replace (h_length (Provider.current_packet_header p) >? 0) with true
        by (symmetry; apply Z.gtb_lt; unfold uint32 in Hlen; lia).
      destruct (provider_receive_cases p w Hmem Hlen)
        as (b1 & p1 & es & Hrecv & Hbal & Hle & Hlt & Hl1).
      unfold bind at 1. rewrite Hrecv.
      destruct b1.
      * destruct (IH true p1 (log w es) Hmem Hl1 ltac:(specialize (Hlt eq_refl); lia))
          as (p' & es' & Hloop & Hbal').
        rewrite Hloop, log_log. exists p', (es ++ es').
        split; [reflexivity|].
        rewrite allocations_app, releases_app. lia.
      * exists p1, es. auto.
Qed.

(** X20.  The provider's control callback returns on every input, and
    keeps no receive buffer.  Whatever bytes wait in the control ring
    (packets, damaged packets, noise), whatever the transport answers and
    whichever handlers are registered, [__handle_control_channel_event],
    run with memory available, returns after at most one iteration of its
    loop more than there are bytes waiting, and it has released every
    receive buffer it allocated. *)
Theorem provider_control_callback_returns_and_keeps_no_buffer
  (provider : Provider.pv_display_provider) (w : world) (fuel : nat) :
  w_out_of_memory w = false ->
  uint32 (h_length (Provider.current_packet_header provider)) ->
  (waiting_bytes (Provider.control_channel provider) < fuel)%nat ->
  exists provider' events,
    Provider.__handle_control_channel_event fuel provider w
    = Done provider' (log w events)
    /\ allocations events = releases events.
Proof.
  intros Hmem Hlen Hfuel. destruct fuel as [|n]; [lia|].
  unfold Provider.__handle_control_channel_event.
  apply provider_loop_returns; [assumption | assumption | lia].
Qed.

Lemma provider_control_callback_returns_and_keeps_no_buffer_witness :
  exists provider' events,
    Provider.__handle_control_channel_event
      101 (provider_holding (repeat Byte.xa5 100)) quiet_world
    = Done provider' (log quiet_world events)
    /\ allocations events = releases events.
Proof.
  apply (provider_control_callback_returns_and_keeps_no_buffer
           (provider_holding (repeat Byte.xa5 100)) quiet_world 101).
  - reflexivity.
  - concrete.
  - vm_compute. lia.
Defined.

(** ** Disconnecting a display backend *)

(** X21.  A disconnected display backend stays deaf.
    [pv_display_backend_display_disconnect] leaves the display flagged as
    disconnected with none of its four connections, doing it twice changes
    nothing more, and from then on the event callback returns at once: even
    when an event connection is bound to the display afterwards and packets
    wait in it, nothing is read, no handler is entered and nothing is
    logged. *)
Theorem disconnected_backend_stays_deaf
  (display : Backend.pv_display_backend) (late_client : option libivc_client)
  (fuel : nat) (w : world) :
  let gone := Backend.pv_display_backend_display_disconnect display in
  Backend.disconnected gone = true
  /\ Backend.event_connection gone = None
  /\ Backend.framebuffer_connection gone = None
  /\ Backend.dirty_rectangles_connection gone = None
  /\ Backend.cursor_image_connection gone = None
  /\ Backend.pv_display_backend_display_disconnect gone = gone
  /\ Backend.__handle_event_channel_event fuel gone w = Done gone w
  /\ Backend.__handle_event_channel_event
       fuel (Backend.finish_event_connection gone late_client) w
     = Done (Backend.finish_event_connection gone late_client) w.
Proof.
  destruct display as [flag ev fb dr cur hdr h1 h2 h3 h4 h5 h6].
  destruct ev, fb, dr, cur; cbv zeta; repeat split; reflexivity.
Qed.

(** ** Reconnecting a display *)

Lemma load_word_16 (a b c d e : Z) :
  uint32 e ->
  le_combine
    (load (le_split 4 a ++ le_split 4 b ++ le_split 4 c ++ le_split 4 d
             ++ le_split 4 e) 16 4) = e.
Proof.
  intros He.
  rewrite <- (app_nil_r (le_split 4 e)).
  rewrite (app_assoc (le_split 4 a) (le_split 4 b)).
  rewrite (app_assoc (le_split 4 a ++ le_split 4 b) (le_split 4 c)).
  rewrite (app_assoc ((le_split 4 a ++ le_split 4 b) ++ le_split 4 c)
                     (le_split 4 d)).
  rewrite (load_middle
             (((le_split 4 a ++ le_split 4 b) ++ le_split 4 c)
                ++ le_split 4 d) (le_split 4 e))
    by reflexivity.
  apply le_combine_split_small. exact He.
Qed.

Lemma add_display_bytes_length (key ev fb dr cur : Z) :
  Z.of_nat (List.length (Backend.add_display_bytes key ev fb dr cur)) = 20.
Proof.
  unfold Backend.add_display_bytes.
  rewrite !length_app, !length_le_split. reflexivity.
Qed.

Lemma bind_done {A B : Type} (m : M A) (k : A -> M B) (a : A)
  (w w' : world) :
  m w = Done a w' -> bind m k w = k a w'.
Proof. intros H. unfold bind. rewrite H. reflexivity. Qed.

(** The optional connections: whatever the transport answers, the display
    comes back and at most a warning is logged. *)
Lemma optional_reconnect_returns
  (connection : option libivc_client) (port : Z) (warning : string)
  (attempt : libivc_client -> Z * libivc_client)
  (rebind : option libivc_client -> Provider.pv_display)
  (display : Provider.pv_display) (w : world) :
  exists display' events,
    match connection with
    | Some client =>
      if negb (port =? 0) then
        let '(rc, client) := attempt client in
        let display := rebind (Some client) in
        (if negb (rc =? 0) then pv_display_error warning else ret tt) ;;;
        ret display
      else ret display
    | None => ret display
    end w = Done display' (log w events).
Proof.
  destruct connection as [client|].
  - destruct (negb (port =? 0)).
    + destruct (attempt client) as [rc client'].
      destruct (negb (rc =? 0)).
      * unfold bind, pv_display_error, ret. rewrite emit_log.
        do 2 eexists. reflexivity.
      * exists (rebind (Some client')), []. rewrite log_nil. reflexivity.
    + exists display, []. rewrite log_nil. reflexivity.
  - exists display, []. rewrite log_nil. reflexivity.
Qed.

(** X22.  [pv_display_reconnect] succeeds exactly when the two required
    connections can be re-established.  For a request with any five ports it
    returns, with 0 exactly when the display has a framebuffer and an event
    connection, the request names a framebuffer and an event port, and the
    transport reconnects both (on the ports converted to 16 bits);
    otherwise with -EINVAL or -ENXIO.  Whether the dirty-rectangle and the
    cursor connection can be reconnected changes nothing to the result. *)
Theorem reconnect_succeeds_exactly_when_required_channels_do
  (libivc_reconnect : libivc_client -> Z -> Z -> Z * libivc_client)
  (display : Provider.pv_display)
  (key event_port framebuffer_port dirty_rectangles_port cursor_bitmap_port
   rx_domain : Z) (w : world) :
  uint32 event_port -> uint32 framebuffer_port ->
  uint32 dirty_rectangles_port -> uint32 cursor_bitmap_port ->
  exists rc display' events,
    Provider.pv_display_reconnect libivc_reconnect display
      (Some (Backend.add_display_bytes key event_port framebuffer_port
               dirty_rectangles_port cursor_bitmap_port))
      rx_domain w
    = Done (rc, display') (log w events)
    /\ (rc = 0 <->
        reconnect_requirements libivc_reconnect display event_port
                               framebuffer_port rx_domain)
    /\ (rc = 0 \/ rc = - EINVAL \/ rc = - ENXIO).
Proof.
  intros Hev Hfb Hdr Hcur.
  pose proof (add_display_bytes_length key event_port framebuffer_port
                dirty_rectangles_port cursor_bitmap_port) as Hlen.
  assert (E4 : le_combine
                 (load (Backend.add_display_bytes key event_port
                          framebuffer_port dirty_rectangles_port
                          cursor_bitmap_port) 4 4) = event_port)
    by (apply load_word_4; assumption).
  assert (E8 : le_combine
                 (load (Backend.add_display_bytes key event_port
                          framebuffer_port dirty_rectangles_port
                          cursor_bitmap_port) 8 4) = framebuffer_port)
    by (apply load_word_8; assumption).
  assert (E12 : le_combine
                  (load (Backend.add_display_bytes key event_port
                           framebuffer_port dirty_rectangles_port
                           cursor_bitmap_port) 12 4) = dirty_rectangles_port)
    by (apply load_word_12; assumption).
  assert (E16 : le_combine
                  (load (Backend.add_display_bytes key event_port
                           framebuffer_port dirty_rectangles_port
                           cursor_bitmap_port) 16 4) = cursor_bitmap_port)
    by (apply load_word_16; assumption).
  unfold Provider.pv_display_reconnect, reconnect_requirements.
  destruct (Provider.framebuffer_connection display) as [fbc|] eqn:Efb.
  2:{ exists (- EINVAL), display, []. rewrite log_nil.
      split; [reflexivity|]. split; [|auto].
      split; [discriminate|]. intros (? & ? & H & _). discriminate H. }
  destruct (Provider.event_connection display) as [evc|] eqn:Eev.
  2:{ exists (- EINVAL), display, []. rewrite log_nil.
      split; [reflexivity|]. split; [|auto].
      split; [discriminate|]. intros (? & ? & _ & H & _). discriminate H. }
  unfold bind at 1. rewrite read_u32_ok by lia.
  cbv beta iota. rewrite ?E8.
  destruct (framebuffer_port =? 0) eqn:Hfb0.
  { apply Z.eqb_eq in Hfb0.
    exists (- EINVAL), display, []. rewrite log_nil.
    split; [reflexivity|]. split; [|auto].
    split; [discriminate|]. intros (? & ? & _ & _ & H & _). contradiction. }
  apply Z.eqb_neq in Hfb0.
  unfold bind at 1. rewrite read_u32_ok by lia.
  cbv beta iota. rewrite ?E4.
  destruct (event_port =? 0) eqn:Hev0.
  { apply Z.eqb_eq in Hev0.
    exists (- EINVAL), display, []. rewrite log_nil.
    split; [reflexivity|]. split; [|auto].
    split; [discriminate|]. intros (? & ? & _ & _ & _ & H & _).
    contradiction. }
  apply Z.eqb_neq in Hev0.
  destruct (libivc_reconnect fbc rx_domain (to_uint16 framebuffer_port))
    as [rc1 fbc'] eqn:Hrc1.
  destruct (rc1 =? 0) eqn:Hz1; cbn [negb].
  2:{ apply Z.eqb_neq in Hz1.
      do 2 eexists. exists []. rewrite log_nil.
      split; [reflexivity|]. split; [|auto].
      split; [discriminate|].
      intros (f & e & Hf & He & _ & _ & H & _).
      injection Hf as <-. rewrite Hrc1 in H. contradiction. }
  apply Z.eqb_eq in Hz1.
  destruct (libivc_reconnect evc rx_domain (to_uint16 event_port))
    as [rc2 evc'] eqn:Hrc2.
  destruct (rc2 =? 0) eqn:Hz2; cbn [negb].
  2:{ apply Z.eqb_neq in Hz2.
      do 2 eexists. exists []. rewrite log_nil.
      split; [reflexivity|]. split; [|auto].
      split; [discriminate|].
      intros (f & e & Hf & He & _ & _ & _ & H).
      injection He as <-. rewrite Hrc2 in H. contradiction. }
  apply Z.eqb_eq in Hz2.
  unfold bind at 1. rewrite read_u32_ok by lia.
  cbv beta iota. rewrite ?E12.
  match goal with
  | |- context [bind (match ?conn with
                      | Some old_client =>
                        if negb (?port =? 0) then
                          let '(_, _) := @?attempt old_client in _
                        else _
                      | None => ret ?d
                      end)] =>
    destruct (optional_reconnect_returns
                conn port
                "Warning: could not reconnect to dirty rectangles port!"
                attempt
                (Provider.with_dirty_rectangles_connection d) d w)
      as (d1 & es1 & Hdirty)
  end.
  rewrite (bind_done _ _ _ _ _ Hdirty).
  unfold bind at 1. rewrite read_u32_ok by lia.
  cbv beta iota. rewrite ?E16.
  match goal with
  | |- context [bind (match ?conn with
                      | Some old_client =>
                        if negb (?port =? 0) then
                          let '(_, _) := @?attempt old_client in _
                        else _
                      | None => ret ?d
                      end)] =>
    destruct (optional_reconnect_returns
                conn port
                "Warning: could not reconnect to PV cursor port!"
                attempt
                (Provider.with_cursor_image_connection d) d (log w es1))
      as (d2 & es2 & Hcursor)
  end.
  rewrite (bind_done _ _ _ _ _ Hcursor). unfold ret. rewrite log_log.
  exists 0, d2, (es1 ++ es2).
  split; [reflexivity|]. split; [|auto].
  split; [|reflexivity]. intros _.
  exists fbc, evc. rewrite Hrc1, Hrc2. cbn [fst]. repeat split; assumption.
Qed.

Lemma reconnect_succeeds_exactly_when_required_channels_do_witness :
  exists rc display' events,
    Provider.pv_display_reconnect reconnect_refused full_hd_display
      (Some add_display_payload) 0 quiet_world
    = Done (rc, display') (log quiet_world events)
    /\ (rc = 0 <->
        reconnect_requirements reconnect_refused full_hd_display 2000 2001 0)
    /\ (rc = 0 \/ rc = - EINVAL \/ rc = - ENXIO).
Proof.
  apply (reconnect_succeeds_exactly_when_required_channels_do
           reconnect_refused full_hd_display 1 2000 2001 2002 2003 0
           quiet_world); concrete.
Defined.

